(** * The parallel orchestration strategy of the Kyma environment broker

    A shallow embedding of [strategies/parallel.go]
    ([ParallelOrchestrationStrategy]: [Execute], [createWorker],
    [scheduleOperationLoop], [processOperation], [updateMaintenanceWindow],
    [Wait], [Cancel], [handleRescheduleErrorOperation]) and of endpoints of
    [handlers/orchestration_handler.go] ([retryOrchestrationByID],
    [getOrchestration], [cancelOrchestrationByID], [getOperation],
    [resolveErrorStatus]).

    The Go code works on one mutable strategy object, on operations reached
    through pointers and on three outside parties (the operation executor,
    the client-go delaying queue, the logger).  The embedding threads one
    [World] through every function: the strategy's registries, the memory
    the operation pointers point into, the calls made to the executor so
    far and the lines logged.  A function either returns or panics, as in
    Go.

    What is not modelled: the mutex (every function is looked at as one
    critical section) and the scheduling of the worker goroutines;
    [createWorker] only records that a goroutine was started.  The body of
    a worker is a function of its own, run on the answers its queue gives
    to [Get]; a run where several workers interleave is not described.

    Part I holds the definitions, Parts II and III the properties. *)

From Stdlib Require Import ZArith String List Lia.
From stdpp Require Import base gmap strings list.

Local Open Scope string_scope.
Local Open Scope Z_scope.

(** * Part I: the program *)

(** ** Go's [int] on a 64-bit platform *)

Module goint.

Definition min : Z := - 2 ^ 63.
Definition max : Z := 2 ^ 63 - 1.

(** Two's complement wrap-around of a mathematical integer. *)
Definition wrap (z : Z) : Z := (z + 2 ^ 63) mod 2 ^ 64 - 2 ^ 63.

(** [n--] *)
Definition dec (n : Z) : Z := wrap (n - 1).

End goint.

(** ** Package [time]

    A [Time] is the number of nanoseconds since the zero instant
    (January 1 of year 1, 00:00:00 UTC), read in UTC; a [Duration] is a
    signed 64-bit count of nanoseconds.  Go keeps the seconds of a [Time] in
    64 bits of their own, far beyond any [Duration], so instants do not wrap
    here while durations saturate where [Time.Sub] does. *)

Module time.

Definition Time := Z.
Definition Duration := Z.
Definition Weekday := Z.

Definition Sunday : Weekday := 0.
Definition Monday : Weekday := 1.
Definition Tuesday : Weekday := 2.
Definition Wednesday : Weekday := 3.
Definition Thursday : Weekday := 4.
Definition Friday : Weekday := 5.
Definition Saturday : Weekday := 6.

Definition Nanosecond : Duration := 1.
Definition Second : Duration := 1000000000 * Nanosecond.
Definition Minute : Duration := 60 * Second.
Definition Hour : Duration := 60 * Minute.

Definition minDuration : Duration := - 2 ^ 63.
Definition maxDuration : Duration := 2 ^ 63 - 1.

Definition nanosPerDay : Z := 24 * Hour.

(** [t.IsZero()] *)
Definition IsZero (t : Time) : bool := t =? 0.

(** [t.Before(u)] *)
Definition Before (t u : Time) : bool := t <? u.

(** [t.Add(d)] *)
Definition Add (t : Time) (d : Duration) : Time := t + d.

(** [t.AddDate(0, 0, days)]: the same wall clock reading [days] calendar
    days later; in UTC every day has 24 hours. *)
Definition AddDate_days (t : Time) (days : Z) : Time := t + days * nanosPerDay.

(** [t.Weekday()]: January 1 of year 1 is a Monday. *)
Definition weekday (t : Time) : Weekday := (t / nanosPerDay + Monday) mod 7.

(** [t.Sub(u)]: "If the result exceeds the maximum (or minimum) value that
    can be stored in a Duration, the maximum (or minimum) duration will be
    returned."  [time.Until(t)] is [t.Sub(time.Now())]. *)
Definition Sub (t u : Time) : Duration :=
  if t - u <? minDuration then minDuration
  else if maxDuration <? t - u then maxDuration
  else t - u.

End time.

(** ** Package [github.com/pkg/errors] *)

Module errors.

(** An error is a message, and [Wrap] puts a message (and a stack) around
    a cause. *)
Inductive error : Type :=
| New (msg : string)
| Wrapped (cause : error) (msg : string).

(** [errors.Wrap(err, message)] *)
Definition Wrap (err : error) (message : string) : error := Wrapped err message.

(** [errors.Cause(err)] *)
Fixpoint Cause (err : error) : error :=
  match err with
  | New _ => err
  | Wrapped cause _ => Cause cause
  end.

Fixpoint depth (err : error) : nat :=
  match err with
  | New _ => O
  | Wrapped cause _ => S (depth cause)
  end.

End errors.

(** ** Package [logrus]: a logged line is a level and its format string
    (the arguments are not rendered). *)

Module logrus.

Inductive Level : Type := InfoLevel | ErrorLevel.

Record Entry : Type := { level : Level; message : string }.

End logrus.

(** ** Package [sync] *)

Module sync.

(** A [WaitGroup] is its counter. *)
Record WaitGroup : Type := { counter : Z }.

(** [wg.Add(delta)] *)
Definition Add (g : WaitGroup) (delta : Z) : WaitGroup :=
  {| counter := counter g + delta |}.

End sync.

(** ** Package [k8s.io/client-go/util/workqueue]

    The delaying queue is the library's.  The strategy talks to it through
    [AddAfter], [Done] and [ShutDown]; the model keeps what the queue was
    asked: the [AddAfter] requests in the order made, the [Done] marks, and
    whether [ShutDown] was called.  When a requested item becomes due, which
    worker gets it, and what becomes of a request made after [ShutDown], is
    the library's business. *)

Module workqueue.

Section Queue.
Context {Item : Type}.

Record DelayingQueue : Type := {
  requested : list (Item * time.Duration);
  finished : list Item;
  shuttingDown : bool
}.

(** [workqueue.NewDelayingQueue()] *)
Definition NewDelayingQueue : DelayingQueue :=
  {| requested := []; finished := []; shuttingDown := false |}.

(** [q.AddAfter(item, duration)] *)
Definition AddAfter (q : DelayingQueue) (item : Item) (duration : time.Duration)
  : DelayingQueue :=
  {| requested := requested q ++ [(item, duration)];
     finished := finished q;
     shuttingDown := shuttingDown q |}.

(** [q.Done(item)] *)
Definition Done (q : DelayingQueue) (item : Item) : DelayingQueue :=
  {| requested := requested q;
     finished := finished q ++ [item];
     shuttingDown := shuttingDown q |}.

(** [q.ShutDown()] *)
Definition ShutDown (q : DelayingQueue) : DelayingQueue :=
  {| requested := requested q; finished := finished q; shuttingDown := true |}.

End Queue.

Arguments DelayingQueue : clear implicits.

End workqueue.

(** ** Package [common/orchestration]

    The package is part of the repository but not among the sources at hand;
    the declarations below are the ones [parallel.go] uses. *)

Module orchestration.

(** Modelled from the spec: the type of [StrategySpec.Schedule], which the
    spec gives as "[Immediate] | [MaintenanceWindow]". *)
Inductive ScheduleType : Type := Immediate | MaintenanceWindow.

Record ParallelStrategySpec : Type := { Workers : Z }.

Record StrategySpec : Type := {
  Schedule : ScheduleType;
  Parallel : ParallelStrategySpec
}.

(** Modelled from the spec: the type of [MaintenanceDays], the "set of
    allowed weekdays"; the other fields are the ones the strategy reads or
    writes. *)
Record RuntimeOperation : Type := {
  ID : string;
  MaintenanceWindowBegin : time.Time;
  MaintenanceWindowEnd : time.Time;
  MaintenanceDays : list time.Weekday
}.

(** Modelled from the spec: [ConvertSliceOfDaysToMap], which turns the days
    of an operation into the set [NextAvailableDayDiff] looks days up in. *)
Definition ConvertSliceOfDaysToMap (days : list time.Weekday)
  : gmap time.Weekday bool :=
  list_to_map ((fun d => (d, true)) <$> days).

(** Modelled from the spec: [NextAvailableDayDiff], "the next allowed
    weekday given [op.MaintenanceDays] and the weekday of [WindowBegin]",
    where "next allowed weekday uses the smallest positive day offset".  The
    spec leaves the answer for an empty set of days undefined; the model
    answers 0 there, and nothing in Part II relies on it. *)
Definition NextAvailableDayDiff (currentDay : time.Weekday)
    (availableDays : gmap time.Weekday bool) : Z :=
  default 0
    (List.find
       (fun diff => bool_decide (availableDays !! ((currentDay + diff) mod 7) = Some true))
       [1; 2; 3; 4; 5; 6; 7]).

End orchestration.

(** ** Package [strategies]: [parallel.go] *)

Module strategies.

Import time errors logrus orchestration.

(** *** Memory

    The queue holds pointers to operations, and [Execute] hands out two
    kinds of them: [&operations[i]], into the caller's slice, and [&op], the
    address of the variable of its range clause. *)

Inductive ptr : Type :=
| SliceElem (s i : nat)   (* element [i] of the backing array [s] *)
| RangeVar (v : nat).     (* the [v]-th range variable allocated *)

Record Memory : Type := {
  slices : list (list RuntimeOperation);
  rangeVars : list RuntimeOperation
}.

Definition load (m : Memory) (a : ptr) : option RuntimeOperation :=
  match a with
  | SliceElem s i =>
      match slices m !! s with
      | Some l => l !! i
      | None => None
      end
  | RangeVar v => rangeVars m !! v
  end.

Definition store (m : Memory) (a : ptr) (o : RuntimeOperation) : Memory :=
  match a with
  | SliceElem s i =>
      {| slices := alter (fun l => <[i := o]> l) s (slices m);
         rangeVars := rangeVars m |}
  | RangeVar v =>
      {| slices := slices m; rangeVars := <[v := o]> (rangeVars m) |}
  end.

(** *** The strategy object *)

Record ParallelOrchestrationStrategy : Type := {
  dq : gmap string (workqueue.DelayingQueue ptr);
  wg : gmap string sync.WaitGroup;
  rescheduleDelay : Duration;
  processingNum : gmap string Z
}.

(** *** The outside

    The executor is a black box: what a call answers may depend on every
    call made to it before.  [Execute] may also panic.  [time.Now()] and
    [uuid.New()] answer by the number of times they were asked. *)

Inductive Call : Type :=
| CallExecute (id : string)
| CallReschedule (id : string) (windowBegin windowEnd : Time).

Inductive ExecuteResult : Type :=
| Returns (when : Duration) (err : option error)
| Panics (v : string).

(** The variable of a range clause: one for the whole loop before Go 1.22,
    one for each iteration from Go 1.22 on.  The [go.mod] that decides is
    not among the sources; the packages the file imports
    ([github.com/pkg/errors], client-go's untyped [workqueue]) date the
    module before Go 1.22, and the runs of [Execute] on given operations
    in Part II take [PerLoop]. *)
Inductive LoopVar : Type := PerLoop | PerIteration.

Record Env : Type := {
  time_Now : nat -> Time;
  uuid_New : nat -> string;
  executor_Execute : list Call -> string -> ExecuteResult;
  executor_Reschedule : list Call -> string -> Time -> Time -> option error;
  loopvar : LoopVar
}.

Record World : Type := {
  strategy : ParallelOrchestrationStrategy;
  memory : Memory;
  calls : list Call;                        (* made to the executor, oldest first *)
  logged : list Entry;                      (* oldest first *)
  clockReads : nat;
  uuidReads : nat;
  goroutines : list (string * StrategySpec) (* workers started *)
}.

Definition set_strategy (p : ParallelOrchestrationStrategy) (w : World) : World :=
  {| strategy := p; memory := memory w; calls := calls w; logged := logged w;
     clockReads := clockReads w; uuidReads := uuidReads w;
     goroutines := goroutines w |}.

Definition set_memory (m : Memory) (w : World) : World :=
  {| strategy := strategy w; memory := m; calls := calls w; logged := logged w;
     clockReads := clockReads w; uuidReads := uuidReads w;
     goroutines := goroutines w |}.

Definition set_calls (c : list Call) (w : World) : World :=
  {| strategy := strategy w; memory := memory w; calls := c; logged := logged w;
     clockReads := clockReads w; uuidReads := uuidReads w;
     goroutines := goroutines w |}.

Definition set_logged (l : list Entry) (w : World) : World :=
  {| strategy := strategy w; memory := memory w; calls := calls w; logged := l;
     clockReads := clockReads w; uuidReads := uuidReads w;
     goroutines := goroutines w |}.

Definition set_clockReads (n : nat) (w : World) : World :=
  {| strategy := strategy w; memory := memory w; calls := calls w;
     logged := logged w; clockReads := n; uuidReads := uuidReads w;
     goroutines := goroutines w |}.

Definition set_uuidReads (n : nat) (w : World) : World :=
  {| strategy := strategy w; memory := memory w; calls := calls w;
     logged := logged w; clockReads := clockReads w; uuidReads := n;
     goroutines := goroutines w |}.

Definition set_goroutines (g : list (string * StrategySpec)) (w : World) : World :=
  {| strategy := strategy w; memory := memory w; calls := calls w;
     logged := logged w; clockReads := clockReads w; uuidReads := uuidReads w;
     goroutines := g |}.

Definition set_dq (d : gmap string (workqueue.DelayingQueue ptr))
    (p : ParallelOrchestrationStrategy) : ParallelOrchestrationStrategy :=
  {| dq := d; wg := wg p; rescheduleDelay := rescheduleDelay p;
     processingNum := processingNum p |}.

Definition set_wg (g : gmap string sync.WaitGroup)
    (p : ParallelOrchestrationStrategy) : ParallelOrchestrationStrategy :=
  {| dq := dq p; wg := g; rescheduleDelay := rescheduleDelay p;
     processingNum := processingNum p |}.

Definition set_rescheduleDelay (d : Duration)
    (p : ParallelOrchestrationStrategy) : ParallelOrchestrationStrategy :=
  {| dq := dq p; wg := wg p; rescheduleDelay := d;
     processingNum := processingNum p |}.

Definition set_processingNum (n : gmap string Z)
    (p : ParallelOrchestrationStrategy) : ParallelOrchestrationStrategy :=
  {| dq := dq p; wg := wg p; rescheduleDelay := rescheduleDelay p;
     processingNum := n |}.

(** *** Computations: a function returns a value or panics, and leaves a
    world behind either way. *)

Inductive Result (A : Type) : Type :=
| Return (a : A) (w : World)
| Panic (v : string) (w : World).

Arguments Return {A} a w.
Arguments Panic {A} v w.

Definition M (A : Type) : Type := World -> Result A.

Definition ret {A : Type} (a : A) : M A := fun w => Return a w.

Definition bind {A B : Type} (m : M A) (k : A -> M B) : M B :=
  fun w =>
    match m w with
    | Return a w' => k a w'
    | Panic v w' => Panic v w'
    end.

Declare Scope go_scope.
Delimit Scope go_scope with go.
Notation "x <- m ;; k" := (bind m (fun x => k))
  (at level 100, m at next level, right associativity) : go_scope.
Notation "m ;; k" := (bind m (fun _ => k))
  (at level 100, right associativity) : go_scope.

(** What the runtime panics with on a method call through a nil pointer or
    a nil interface. *)
Definition nilDereference : string :=
  "runtime error: invalid memory address or nil pointer dereference".

(** [defer func() { ... recover() ... }()] around [body]: the deferred
    function runs when the body has returned and when it has panicked; it is
    given what its [recover()] yields, and having recovered, the function
    returns normally. *)
Definition deferRecover (body : M unit) (deferred : option string -> M unit)
  : M unit :=
  fun w =>
    match body w with
    | Return _ w' => deferred None w'
    | Panic v w' => deferred (Some v) w'
    end.

Definition getStrategy : M ParallelOrchestrationStrategy :=
  fun w => Return (strategy w) w.

Definition modifyStrategy
    (f : ParallelOrchestrationStrategy -> ParallelOrchestrationStrategy) : M unit :=
  fun w => Return tt (set_strategy (f (strategy w)) w).

(** [p.log.Infof(...)], [p.log.Errorf(...)] *)
Definition logf (l : Level) (format : string) : M unit :=
  fun w => Return tt (set_logged (logged w ++ [{| level := l; message := format |}]) w).

(** [err == nil] *)
Definition isNil (err : option error) : bool :=
  match err with
  | None => true
  | Some _ => false
  end.

(** [*op] *)
Definition deref (op : ptr) : M RuntimeOperation :=
  fun w =>
    match load (memory w) op with
    | Some o => Return o w
    | None => Panic nilDereference w
    end.

(** [*op = o] *)
Definition assign (op : ptr) (o : RuntimeOperation) : M unit :=
  fun w => Return tt (set_memory (store (memory w) op o) w).

Section Strategy.

Variable env : Env.

(** [time.Now()] *)
Definition time_now : M Time :=
  fun w => Return (time_Now env (clockReads w)) (set_clockReads (S (clockReads w)) w).

(** [uuid.New().String()] *)
Definition uuid_new : M string :=
  fun w => Return (uuid_New env (uuidReads w)) (set_uuidReads (S (uuidReads w)) w).

(** [p.executor.Execute(id)] *)
Definition executor_execute (id : string) : M (Duration * option error) :=
  fun w =>
    let w' := set_calls (calls w ++ [CallExecute id]) w in
    match executor_Execute env (calls w) id with
    | Returns when err => Return (when, err) w'
    | Panics v => Panic v w'
    end.

(** [p.executor.Reschedule(id, begin, end)] *)
Definition executor_reschedule (id : string) (windowBegin windowEnd : Time)
  : M (option error) :=
  fun w =>
    Return (executor_Reschedule env (calls w) id windowBegin windowEnd)
           (set_calls (calls w ++ [CallReschedule id windowBegin windowEnd]) w).

(** [p.dq[execID].AddAfter(item, duration)]: a missing key yields the nil
    interface, and the call through it panics. *)
Definition dq_AddAfter (execID : string) (item : ptr) (duration : Duration)
  : M unit :=
  fun w =>
    match dq (strategy w) !! execID with
    | Some q =>
        Return tt (set_strategy
          (set_dq (<[execID := workqueue.AddAfter q item duration]> (dq (strategy w)))
                  (strategy w)) w)
    | None => Panic nilDereference w
    end.

(** [p.dq[execID].Done(item)] *)
Definition dq_Done (execID : string) (item : ptr) : M unit :=
  fun w =>
    match dq (strategy w) !! execID with
    | Some q =>
        Return tt (set_strategy
          (set_dq (<[execID := workqueue.Done q item]> (dq (strategy w)))
                  (strategy w)) w)
    | None => Panic nilDereference w
    end.

(** [p.wg[execID].Add(delta)] *)
Definition wg_Add (execID : string) (delta : Z) : M unit :=
  fun w =>
    match wg (strategy w) !! execID with
    | Some g =>
        Return tt (set_strategy
          (set_wg (<[execID := sync.Add g delta]> (wg (strategy w)))
                  (strategy w)) w)
    | None => Panic nilDereference w
    end.

(** [go func() { p.scheduleOperationLoop(execID, strategy); ... }()] *)
Definition go_worker (execID : string) (strategy : StrategySpec) : M unit :=
  fun w => Return tt (set_goroutines (goroutines w ++ [(execID, strategy)]) w).

(** [p.processingNum[execID]--]: a missing key reads as 0. *)
Definition processingNum_dec (execID : string) : M unit :=
  modifyStrategy (fun p =>
    set_processingNum
      (<[execID := goint.dec (default 0 (processingNum p !! execID))]> (processingNum p))
      p).

(** [NewParallelOrchestrationStrategy(executor, log, rescheduleDelay)]; the
    executor is in [env] and the log in the world. *)
Definition NewParallelOrchestrationStrategy (rescheduleDelay : Duration)
  : ParallelOrchestrationStrategy :=
  let strategy :=
    {| dq := ∅; wg := ∅; rescheduleDelay := rescheduleDelay; processingNum := ∅ |} in
  if strategies.rescheduleDelay strategy <=? 0
  then set_rescheduleDelay (24 * Hour) strategy
  else strategy.

Definition setWindow (o : RuntimeOperation) (windowBegin windowEnd : Time)
  : RuntimeOperation :=
  {| ID := ID o;
     MaintenanceWindowBegin := windowBegin;
     MaintenanceWindowEnd := windowEnd;
     MaintenanceDays := MaintenanceDays o |}.

(** What the block [if p.rescheduleDelay > 0 { ... } else { ... }] of
    [updateMaintenanceWindow] leaves in [*op]. *)
Definition nextWindow (p : ParallelOrchestrationStrategy) (o : RuntimeOperation)
  : RuntimeOperation :=
  if 0 <? rescheduleDelay p then
    setWindow o
      (Add (MaintenanceWindowBegin o) (rescheduleDelay p))
      (Add (MaintenanceWindowEnd o) (rescheduleDelay p))
  else
    let currentDay := weekday (MaintenanceWindowBegin o) in
    let diff :=
      NextAvailableDayDiff currentDay (ConvertSliceOfDaysToMap (MaintenanceDays o)) in
    setWindow o
      (AddDate_days (MaintenanceWindowBegin o) diff)
      (AddDate_days (MaintenanceWindowEnd o) diff).

Local Open Scope go_scope.

(** [updateMaintenanceWindow] *)
Definition updateMaintenanceWindow (execID : string) (op : ptr)
    (strategy : StrategySpec) : M (Duration * option error) :=
  let duration : Duration := 0 in
  o <- deref op ;;
  let id := ID o in
  match Schedule strategy with
  | MaintenanceWindow =>
      (* [!End.IsZero() && End.Before(time.Now())]: the clock is read only
         when [End] is not zero *)
      elapsed <- (if IsZero (MaintenanceWindowEnd o) then ret false
                  else now <- time_now ;; ret (Before (MaintenanceWindowEnd o) now)) ;;
      (* the block of the [if]; [Some err] is its [return duration, err] *)
      returned <-
        (if elapsed then
           p <- getStrategy ;;
           assign op (nextWindow p o) ;;
           o' <- deref op ;;
           err <- executor_reschedule id
                    (MaintenanceWindowBegin o') (MaintenanceWindowEnd o') ;;
           match err with
           | Some e =>
               let _ := Wrap e
                 "while rescheduling operation by executor (still continuing with new schedule)" in
               ret (Some e)
           | None => ret None
           end
         else ret None) ;;
      match returned with
      | Some e => ret (duration, Some e)
      | None =>
          o' <- deref op ;;
          now <- time_now ;;
          ret (Sub (MaintenanceWindowBegin o') now, None)
      end
  | Immediate => ret (duration, None)
  end.

(** [handleRescheduleErrorOperation] *)
Definition handleRescheduleErrorOperation (execID : string) (op : ptr) : M unit :=
  dq_AddAfter execID op (24 * Hour).

(** [processOperation] *)
Definition processOperation (execID : string) (op : ptr) : M unit :=
  o <- deref op ;;
  let id := ID o in
  deferRecover
    (r <- executor_execute id ;;
     let '(when, err) := r in
     if isNil err && negb (when =? 0) then
       logf InfoLevel "Adding %q item after %v" ;;
       dq_AddAfter execID op when
     else
       (match err with
        | Some _ => logf ErrorLevel "Error from process: %v"
        | None => ret tt
        end) ;;
       processingNum_dec execID ;;
       logf InfoLevel "Finishing processing operation")
    (fun recovered =>
       (match recovered with
        | Some _ => logf ErrorLevel "panic error from process: %v. Stacktrace: %s"
        | None => ret tt
        end) ;;
       dq_Done execID op).

(** [createWorker] *)
Definition createWorker (execID : string) (strategy : StrategySpec) : M unit :=
  wg_Add execID 1 ;;
  go_worker execID strategy.

(** The caller's slice: [Execute] takes pointers into its backing array, so
    the array gets a place in the memory of the model. *)
Definition backingArray (operations : list RuntimeOperation) : M nat :=
  fun w =>
    Return (length (slices (memory w)))
      (set_memory {| slices := slices (memory w) ++ [operations];
                     rangeVars := rangeVars (memory w) |} w).

(** The zero value of [RuntimeOperation]. *)
Definition zeroOperation : RuntimeOperation :=
  {| ID := ""; MaintenanceWindowBegin := 0; MaintenanceWindowEnd := 0;
     MaintenanceDays := [] |}.

(** A new range variable [op], zero until the loop assigns it. *)
Definition newRangeVar : M ptr :=
  fun w =>
    Return (RangeVar (length (rangeVars (memory w))))
      (set_memory {| slices := slices (memory w);
                     rangeVars := rangeVars (memory w) ++ [zeroOperation] |} w).

(** The body of [for i, op := range operations], with [op] at address
    [opVar]. *)
Definition rangeBody (execID : string) (s : nat) (strategySpec : StrategySpec)
    (opVar : ptr) (i : nat) : M unit :=
  elem <- deref (SliceElem s i) ;;
  assign opVar elem ;;
  r <- updateMaintenanceWindow execID opVar strategySpec ;;
  let '(duration, err) := r in
  match err with
  | Some _ =>
      handleRescheduleErrorOperation execID opVar ;;
      logf ErrorLevel "while processing operation %s: %v, will reschedule it"
  | None =>
      dq_AddAfter execID (SliceElem s i) duration
  end.

(** The range loop over the indices still to visit; [shared] is the one
    variable of the loop under [PerLoop]. *)
Fixpoint rangeOperations (execID : string) (s : nat) (strategySpec : StrategySpec)
    (shared : option ptr) (indices : list nat) : M unit :=
  match indices with
  | [] => ret tt
  | i :: rest =>
      opVar <- (match shared with
                | Some v => ret v
                | None => newRangeVar
                end) ;;
      rangeBody execID s strategySpec opVar i ;;
      rangeOperations execID s strategySpec shared rest
  end.

Fixpoint times (n : nat) (m : M unit) : M unit :=
  match n with
  | O => ret tt
  | S n' => m ;; times n' m
  end.

(** [Execute] *)
Definition Execute (operations : list RuntimeOperation)
    (strategySpec : StrategySpec) : M (string * option error) :=
  if (length operations =? 0)%nat then ret ("", None)
  else
    execID <- uuid_new ;;
    modifyStrategy (fun p =>
      set_processingNum
        (<[execID := Z.of_nat (length operations)]> (processingNum p)) p) ;;
    modifyStrategy (fun p =>
      set_wg (<[execID := {| sync.counter := 0 |}]> (wg p)) p) ;;
    modifyStrategy (fun p =>
      set_dq (<[execID := workqueue.NewDelayingQueue]> (dq p)) p) ;;
    s <- backingArray operations ;;
    shared <- (match loopvar env with
               | PerLoop =>
                   v <- newRangeVar ;; ret (Some v)
               | PerIteration => ret None
               end) ;;
    rangeOperations execID s strategySpec shared (seq 0 (length operations)) ;;
    times (Z.to_nat (Workers (Parallel strategySpec)))
          (createWorker execID strategySpec) ;;
    ret (execID, None).

(** What [Wait] does to its caller. *)
Inductive WaitOutcome : Type := WaitReturns | WaitBlocks.

(** [Wait]: [wg.Wait()] returns at once on a counter of zero and blocks on
    any other. *)
Definition Wait (executionID : string) : M WaitOutcome :=
  p <- getStrategy ;;
  match wg p !! executionID with
  | Some g => if sync.counter g =? 0 then ret WaitReturns else ret WaitBlocks
  | None => ret WaitReturns
  end.

(** [Cancel] *)
Definition Cancel (executionID : string) : M unit :=
  if String.eqb executionID "" then ret tt
  else
    logf InfoLevel "Cancelling strategy execution %s" ;;
    p <- getStrategy ;;
    match dq p !! executionID with
    | Some q =>
        modifyStrategy (fun p =>
          set_dq (<[executionID := workqueue.ShutDown q]> (dq p)) p)
    | None => ret tt
    end.

(** *** The worker: [scheduleOperationLoop] and the goroutine of
    [createWorker] *)

(** [dq.ShutDown()] on the queue of [execID]; on a nil queue the call
    panics. *)
Definition dq_ShutDown (execID : string) : M unit :=
  fun w =>
    match dq (strategy w) !! execID with
    | Some q =>
        Return tt (set_strategy
          (set_dq (<[execID := workqueue.ShutDown q]> (dq (strategy w)))
                  (strategy w)) w)
    | None => Panic nilDereference w
    end.

(** [dq.ShuttingDown()] *)
Definition dq_ShuttingDown (execID : string) : M bool :=
  fun w =>
    match dq (strategy w) !! execID with
    | Some q => Return (workqueue.shuttingDown q) w
    | None => Panic nilDereference w
    end.

(** [p.wg[execID].Done()]: the counter goes down by one, and the library
    panics on a counter below zero. *)
Definition wg_Done (execID : string) : M unit :=
  fun w =>
    match wg (strategy w) !! execID with
    | Some g =>
        if sync.counter g - 1 <? 0 then Panic "sync: negative WaitGroup counter" w
        else
          Return tt (set_strategy
            (set_wg (<[execID := sync.Add g (-1)]> (wg (strategy w)))
                    (strategy w)) w)
    | None => Panic nilDereference w
    end.

(** What [dq.Get()] hands the worker: an item that is due, or the news that
    the queue has shut down.  Which, and when, is the library's business; the
    loop is given the answers of its calls of [Get] in order. *)
Inductive GetResult : Type :=
| Got (item : ptr)
| GotShutdown.

(** How a run of the loop over finitely many answers ends: the loop has left
    through one of its [break]s, or it sits in a [Get] that has not answered
    yet. *)
Inductive LoopExit : Type := Exited | BlockedInGet.

(** [scheduleOperationLoop].  The local [dq] is the queue registered for
    [execID], which nothing replaces while the loop runs. *)
Fixpoint scheduleOperationLoop (execID : string) (strategy : StrategySpec)
    (gets : list GetResult) : M LoopExit :=
  p <- getStrategy ;;
  if default 0 (processingNum p !! execID) <=? 0 then
    dq_ShutDown execID ;;
    ret Exited
  else
    down <- dq_ShuttingDown execID ;;
    if down then ret Exited
    else
      match gets with
      | [] => ret BlockedInGet
      | GotShutdown :: _ =>
          logf InfoLevel "schedule delaying queue is shutdown" ;;
          ret Exited
      | Got op :: rest =>
          r <- updateMaintenanceWindow execID op strategy ;;
          let '(duration, err) := r in
          match err with
          | Some _ =>
              handleRescheduleErrorOperation execID op ;;
              dq_Done execID op ;;
              scheduleOperationLoop execID strategy rest
          | None =>
              (if duration <=? 0 then
                 logf InfoLevel "operation is scheduled now" ;;
                 processOperation execID op
               else
                 logf InfoLevel "operation will be scheduled in %v" ;;
                 dq_AddAfter execID op duration ;;
                 dq_Done execID op) ;;
              scheduleOperationLoop execID strategy rest
          end
      end.

(** The goroutine [createWorker] starts: the loop, then [wg.Done()]. *)
Definition workerBody (execID : string) (strategy : StrategySpec)
    (gets : list GetResult) : M LoopExit :=
  exit <- scheduleOperationLoop execID strategy gets ;;
  match exit with
  | Exited => wg_Done execID ;; ret Exited
  | BlockedInGet => ret BlockedInGet
  end.

End Strategy.

(** *** Vocabulary of the properties in Part II *)

(** The words of the spec for the weekday rule: [n] is "the smallest
    positive number of days" that lands [t] on a weekday in [days]. *)
Definition smallestShiftOnto (days : list Weekday) (t : Time) (n : Z) : Prop :=
  0 < n /\
  In (weekday (AddDate_days t n)) days /\
  forall m, 0 < m < n -> ~ In (weekday (AddDate_days t m)) days.

(** The window has elapsed at the instant [now]. *)
Definition elapsedAt (o : RuntimeOperation) (now : Time) : Prop :=
  MaintenanceWindowEnd o <> 0 /\ MaintenanceWindowEnd o < now.

(** The world the elapsed branch leaves once it has called the executor. *)
Definition rescheduledWorld (op : ptr) (o : RuntimeOperation) (w : World) : World :=
  let o' := nextWindow (strategy w) o in
  set_calls
    (calls w ++ [CallReschedule (ID o) (MaintenanceWindowBegin o')
                                (MaintenanceWindowEnd o')])%list
    (set_memory (store (memory w) op o')
       (set_clockReads (S (clockReads w)) w)).

(** What the range loop of [Execute] leaves alone while it runs for
    execution [execID]: the counters and wait groups, the caller's slices,
    the goroutines; range variables may be added, and the queue of [execID]
    has received [k] more requests. *)
Definition loopFrame (execID : string) (k : nat) (w w' : World) : Prop :=
  processingNum (strategy w') = processingNum (strategy w) /\
  wg (strategy w') = wg (strategy w) /\
  slices (memory w') = slices (memory w) /\
  (length (rangeVars (memory w)) <= length (rangeVars (memory w')))%nat /\
  goroutines w' = goroutines w /\
  uuidReads w' = uuidReads w /\
  exists q q',
    dq (strategy w) !! execID = Some q /\
    dq (strategy w') !! execID = Some q' /\
    length (workqueue.requested q') = (length (workqueue.requested q) + k)%nat /\
    workqueue.shuttingDown q' = workqueue.shuttingDown q.

(** The variable the loop uses is there. *)
Definition sharedOk (shared : option ptr) (w : World) : Prop :=
  match shared with
  | Some (RangeVar v) => (v < length (rangeVars (memory w)))%nat
  | Some (SliceElem _ _) => False
  | None => True
  end.

(** The IDs the executor was asked to execute, in the order of the calls. *)
Definition executeCalls (c : list Call) : list string :=
  omap (fun call => match call with
                    | CallExecute id => Some id
                    | CallReschedule _ _ _ => None
                    end) c.

(** The queue [q'] is [q] with the requests [added] made after the ones it
    had. *)
Definition queueGrownBy (added : list (ptr * Duration))
    (q q' : workqueue.DelayingQueue ptr) : Prop :=
  workqueue.requested q' = (workqueue.requested q ++ added)%list /\
  workqueue.finished q' = workqueue.finished q /\
  workqueue.shuttingDown q' = workqueue.shuttingDown q.

(** What a stretch of the range loop of [Execute] for execution [execID]
    does to the world: the queue of [execID] grows by [added] and nothing
    else of the strategy changes; the slices and the first [n0] range
    variables are not written to; [Executor.Execute] is not called. *)
Definition loopKeeps (execID : string) (n0 : nat)
    (added : list (ptr * Duration)) (w w' : World) : Prop :=
  (exists q q',
     dq (strategy w) !! execID = Some q /\
     queueGrownBy added q q' /\
     strategy w' = set_dq (<[execID := q']> (dq (strategy w))) (strategy w)) /\
  slices (memory w') = slices (memory w) /\
  take n0 (rangeVars (memory w')) = take n0 (rangeVars (memory w)) /\
  (length (rangeVars (memory w)) <= length (rangeVars (memory w')))%nat /\
  goroutines w' = goroutines w /\
  uuidReads w' = uuidReads w /\
  executeCalls (calls w') = executeCalls (calls w).

(** The request [Execute] makes for the operation at index [i] of slice [s]:
    the address of the element, or the address of a range variable allocated
    by this call, with the 24-hour delay. *)
Definition requestFor (s n0 i : nat) (request : ptr * Duration) : Prop :=
  fst request = SliceElem s i \/
  exists v, fst request = RangeVar v /\ (n0 <= v)%nat /\ snd request = 24 * Hour.

(** The loop variable in use is one allocated by this call. *)
Definition sharedFrom (n0 : nat) (shared : option ptr) (w : World) : Prop :=
  match shared with
  | Some (RangeVar v) => (n0 <= v < length (rangeVars (memory w)))%nat
  | Some (SliceElem _ _) => False
  | None => (n0 <= length (rangeVars (memory w)))%nat
  end.

(** What a stretch of the worker loop for execution [execID] does to the
    world: the counter of [execID] does not go up, does not go below zero
    from above it, and goes down by no more than the number of calls of
    [Executor.Execute] made; wait groups, the configured delay and the other
    executions are left alone; pointers stay valid. *)
Definition workerKeeps (execID : string) (w w' : World) : Prop :=
  let c := default 0 (processingNum (strategy w) !! execID) in
  let c' := default 0 (processingNum (strategy w') !! execID) in
  let e := length (executeCalls (calls w)) in
  let e' := length (executeCalls (calls w')) in
  c' <= c /\
  (0 < c -> 0 <= c') /\
  (c <= 0 -> c' = c) /\
  (e <= e')%nat /\
  c - c' <= Z.of_nat e' - Z.of_nat e /\
  wg (strategy w') = wg (strategy w) /\
  rescheduleDelay (strategy w') = rescheduleDelay (strategy w) /\
  (forall other, other <> execID ->
     dq (strategy w') !! other = dq (strategy w) !! other /\
     processingNum (strategy w') !! other = processingNum (strategy w) !! other) /\
  (is_Some (dq (strategy w) !! execID) -> is_Some (dq (strategy w') !! execID)) /\
  (forall a, is_Some (load (memory w) a) -> is_Some (load (memory w') a)) /\
  goroutines w' = goroutines w /\
  uuidReads w' = uuidReads w.

(** Every item the queue hands out points to an operation. *)
Definition getsValid (m : Memory) (gets : list GetResult) : Prop :=
  Forall (fun g => match g with
                   | Got op => is_Some (load m op)
                   | GotShutdown => True
                   end) gets.

(** Two worlds that differ in the lines logged at most. *)
Definition sameButLog (w w' : World) : Prop :=
  strategy w' = strategy w /\ memory w' = memory w /\ calls w' = calls w /\
  clockReads w' = clockReads w /\ uuidReads w' = uuidReads w /\
  goroutines w' = goroutines w.

End strategies.

(** ** Package [handlers]: endpoints of [orchestration_handler.go] *)

Module handlers.

Import errors logrus.

(** [net/http] status codes *)
Definition StatusAccepted : Z := 202.
Definition StatusBadRequest : Z := 400.
Definition StatusNotFound : Z := 404.
Definition StatusUnsupportedMediaType : Z := 415.
Definition StatusInternalServerError : Z := 500.

(** [o.Type]: the two kinds the handler knows, and any other string. *)
Inductive OrchestrationType : Type :=
| UpgradeKymaOrchestration
| UpgradeClusterOrchestration
| OtherType (name : string).

Record Orchestration : Type := {
  OrchestrationID : string;
  Type_ : OrchestrationType
}.

(** Modelled from the spec: the states of an operation, of which the handler
    names [Failed] and [InProgress] in its filter. *)
Inductive OperationState : Type :=
| Pending | InProgress | Succeeded | Failed | Retrying | Canceled.

Record OperationFilter : Type := { States : list OperationState }.

(** The fields of [commonOrchestration.RetryResponse] the handler touches. *)
Record RetryResponse : Type := {
  RetryOperations : list string;
  Msg : string
}.

(** [h.kymaQueue] and [h.clusterQueue] *)
Inductive Queue : Type := kymaQueue | clusterQueue.

(** The [Retryer] as the handler sees it: the queue field it sets and the
    response it reads back. *)
Record Retryer : Type := {
  queue : option Queue;
  resp : RetryResponse
}.

(** What the handler reads of the request. *)
Record Request : Type := {
  header_ContentType : string;      (* [r.Header.Get("Content-type")] *)
  hasBody : bool;                   (* [r.Body != nil] *)
  parseForm : option error;         (* what [r.ParseForm()] returns *)
  form_operation_id : list string;  (* [r.Form["operation-id"]] once parsed *)
  vars_orchestration_id : string    (* [mux.Vars(r)["orchestration_id"]] *)
}.

(** What [httputil.WriteResponse] and [httputil.WriteErrorResponse] are
    given. *)
Inductive Payload : Type :=
| ErrorPayload (err : error)
| RetryPayload (r : RetryResponse).

Record Response : Type := { status : Z; payload : Payload }.

(** A run of the handler: the retryer it leaves, the lines it logged and the
    response it wrote. *)
Record Outcome : Type := {
  retryer : Retryer;
  log : list Entry;
  written : Response
}.

Definition WriteErrorResponse (h : Retryer) (l : list Entry) (code : Z)
    (err : error) : Outcome :=
  {| retryer := h; log := l;
     written := {| status := code; payload := ErrorPayload err |} |}.

Definition WriteResponse (h : Retryer) (l : list Entry) (code : Z)
    (r : RetryResponse) : Outcome :=
  {| retryer := h; log := l;
     written := {| status := code; payload := RetryPayload r |} |}.

Definition errorf (format : string) : Entry :=
  {| level := ErrorLevel; message := format |}.

Definition infof (format : string) : Entry :=
  {| level := InfoLevel; message := format |}.

(** *** The endpoints that read

    [getOrchestration], [cancelOrchestrationByID] and [getOperation] write a
    status and a body: the error handed to [httputil.WriteErrorResponse], or
    the value handed to [httputil.WriteResponse]. *)

Definition StatusOK : Z := 200.

Record Reply (A : Type) : Type := { code : Z; body : error + A }.

Arguments code {A} _.
Arguments body {A} _.

(** A run of such an endpoint: the lines it logged, in order, and what it
    wrote. *)
Record Answer (A : Type) : Type := { lines : list Entry; reply : Reply A }.

Arguments lines {A} _.
Arguments reply {A} _.

Definition replyError {A : Type} (l : list Entry) (c : Z) (err : error)
  : Answer A :=
  {| lines := l; reply := {| code := c; body := inl err |} |}.

Definition replyWith {A : Type} (l : list Entry) (c : Z) (response : A)
  : Answer A :=
  {| lines := l; reply := {| code := c; body := inr response |} |}.

(** [commonOrchestration.UpgradeResponse] *)
Record UpgradeResponse : Type := { UpgradeResponse_OrchestrationID : string }.

Section Handler.

(** The storage and the retryer are not among the sources; the handler is
    read against any of them. *)
Variables UpgradeKymaOperation UpgradeClusterOperation : Type.
Variable IsNotFound : error -> bool.          (* [dberr.IsNotFound] *)
Variable IsBadRequest : error -> bool.        (* [apiErrors.IsBadRequest] *)
Variable orchestrations_GetByID : string -> error + Orchestration.
Variable operations_ListUpgradeKymaOperationsByOrchestrationID :
  string -> OperationFilter -> error + list UpgradeKymaOperation.
Variable operations_ListUpgradeClusterOperationsByOrchestrationID :
  string -> OperationFilter -> error + list UpgradeClusterOperation.
Variable kymaUpgradeRetry :
  Retryer -> Orchestration -> list UpgradeKymaOperation -> list string ->
  Retryer * option error.
Variable clusterUpgradeRetry :
  Retryer -> Orchestration -> list UpgradeClusterOperation -> list string ->
  Retryer * option error.

(** [resolveErrorStatus] *)
Definition resolveErrorStatus (err : error) : Z :=
  let cause := Cause err in
  if IsNotFound cause then StatusNotFound
  else if IsBadRequest cause then StatusBadRequest
  else StatusInternalServerError.

(** The two statements after the [switch]. *)
Definition queued (h : Retryer) : Outcome :=
  let r := {| RetryOperations := RetryOperations (resp h);
              Msg := "retry operations are queued for processing" |} in
  WriteResponse {| queue := queue h; resp := r |} [] StatusAccepted r.

(** [retryOrchestrationByID] *)
Definition retryOrchestrationByID (h : Retryer) (r : Request) : Outcome :=
  let contentType := header_ContentType r in
  if negb (String.eqb contentType "application/x-www-form-urlencoded") then
    WriteErrorResponse h
      [errorf "invalide content type %s for retrying orchestration"]
      StatusUnsupportedMediaType (New "invalide content type %s")
  else
    let orchestrationID := vars_orchestration_id r in
    let parsed : error + list string :=
      if hasBody r then
        match parseForm r with
        | Some err => inl err
        | None => inr (form_operation_id r)
        end
      else inr [] in
    match parsed with
    | inl err =>
        WriteErrorResponse h
          [errorf "cannot parse form while retrying orchestration: %s: %v"]
          (resolveErrorStatus err)
          (Wrap err "while retrying orchestration %s")
    | inr operationIDs =>
        match orchestrations_GetByID orchestrationID with
        | inl err =>
            WriteErrorResponse h
              [errorf "while retrying orchestration %s: %v"]
              (resolveErrorStatus err)
              (Wrap err "while retrying orchestration %s")
        | inr o =>
            let filter := {| States := [Failed; InProgress] |} in
            match Type_ o with
            | UpgradeKymaOrchestration =>
                match operations_ListUpgradeKymaOperationsByOrchestrationID
                        (OrchestrationID o) filter with
                | inl err =>
                    WriteErrorResponse h [errorf "while getting operations: %v"]
                      StatusInternalServerError
                      (Wrap err "while getting operations")
                | inr allOps =>
                    let h1 := {| queue := Some kymaQueue; resp := resp h |} in
                    let '(h2, err) := kymaUpgradeRetry h1 o allOps operationIDs in
                    match err with
                    | Some e =>
                        WriteErrorResponse h2 [] StatusInternalServerError e
                    | None =>
                        if (length (RetryOperations (resp h2)) =? 0)%nat then
                          WriteResponse h2
                            [infof "no valid operations to retry for orchestration %s"]
                            StatusAccepted (resp h2)
                        else queued h2
                    end
                end
            | UpgradeClusterOrchestration =>
                match operations_ListUpgradeClusterOperationsByOrchestrationID
                        (OrchestrationID o) filter with
                | inl err =>
                    WriteErrorResponse h [errorf "while getting operations: %v"]
                      StatusInternalServerError
                      (Wrap err "while getting operations")
                | inr allOps =>
                    let h1 := {| queue := Some clusterQueue; resp := resp h |} in
                    let '(h2, err) := clusterUpgradeRetry h1 o allOps operationIDs in
                    match err with
                    | Some e =>
                        WriteErrorResponse h2 [] StatusInternalServerError e
                    | None =>
                        if (length (RetryOperations (resp h2)) =? 0)%nat then
                          WriteResponse h2
                            [infof "no valid operations to retry for orchestration %s"]
                            StatusAccepted (resp h2)
                        else queued h2
                    end
                end
            | OtherType _ =>
                WriteErrorResponse h [] StatusInternalServerError
                  (New "unsupported orchestration type: %s")
            end
        end
    end.

(** The retryer ran for request [r] on orchestration [o] and left [h2] with
    no error: the path of [retryOrchestrationByID] up to the test of
    [len(h.retryer.resp.RetryOperations)]. *)
Definition retried (h : Retryer) (r : Request) (o : Orchestration)
    (h2 : Retryer) : Prop :=
  header_ContentType r = "application/x-www-form-urlencoded" /\
  (hasBody r = true -> parseForm r = None) /\
  orchestrations_GetByID (vars_orchestration_id r) = inr o /\
  let operationIDs := if hasBody r then form_operation_id r else [] in
  let filter := {| States := [Failed; InProgress] |} in
  match Type_ o with
  | UpgradeKymaOrchestration =>
      exists allOps,
        operations_ListUpgradeKymaOperationsByOrchestrationID
          (OrchestrationID o) filter = inr allOps /\
        kymaUpgradeRetry {| queue := Some kymaQueue; resp := resp h |}
          o allOps operationIDs = (h2, None)
  | UpgradeClusterOrchestration =>
      exists allOps,
        operations_ListUpgradeClusterOperationsByOrchestrationID
          (OrchestrationID o) filter = inr allOps /\
        clusterUpgradeRetry {| queue := Some clusterQueue; resp := resp h |}
          o allOps operationIDs = (h2, None)
  | OtherType _ => False
  end.

(** *** [getOrchestration], [cancelOrchestrationByID], [getOperation]

    The handlers are given what they read of the request: the variables
    [orchestration_id] and [operation_id] of the route.  The storage, the
    canceler and the converter are not among the sources. *)
Variables OperationStats StatusResponse : Type.
Variable operations_GetOperationStatsForOrchestration :
  string -> error + OperationStats.
Variable converter_OrchestrationToDTO :
  Orchestration -> OperationStats -> error + StatusResponse.
Variable canceler_CancelForID : string -> option error.
Variables RuntimeState KymaConfig ClusterConfig OperationDetailResponse : Type.
(* [GetByOperationID] returns a state and an error; the handler goes on with
   the state whatever the error *)
Variable runtimeStates_GetByOperationID : string -> RuntimeState * option error.
Variable GetKymaConfig : RuntimeState -> KymaConfig.
Variable upgradeState_ClusterConfig : RuntimeState -> ClusterConfig.
Variable operations_GetUpgradeKymaOperationByID :
  string -> error + UpgradeKymaOperation.
Variable operations_GetUpgradeClusterOperationByID :
  string -> error + UpgradeClusterOperation.
Variable converter_UpgradeKymaOperationToDetailDTO :
  UpgradeKymaOperation -> KymaConfig -> error + OperationDetailResponse.
Variable converter_UpgradeClusterOperationToDetailDTO :
  UpgradeClusterOperation -> ClusterConfig -> error + OperationDetailResponse.

(** [getOrchestration] *)
Definition getOrchestration (orchestrationID : string) : Answer StatusResponse :=
  match orchestrations_GetByID orchestrationID with
  | inl err =>
      replyError [errorf "while getting orchestration %s: %v"]
        (resolveErrorStatus err) (Wrap err "while getting orchestration %s")
  | inr o =>
      match operations_GetOperationStatsForOrchestration orchestrationID with
      | inl err =>
          replyError
            [errorf "while getting orchestration %s operation statistics: %v"]
            (resolveErrorStatus err)
            (Wrap err "while getting orchestration %s operation stats")
      | inr stats =>
          match converter_OrchestrationToDTO o stats with
          | inl err =>
              replyError [errorf "while converting orchestration: %v"]
                StatusInternalServerError
                (Wrap err "while converting orchestration")
          | inr response => replyWith [] StatusOK response
          end
      end
  end.

(** [cancelOrchestrationByID] *)
Definition cancelOrchestrationByID (orchestrationID : string)
  : Answer UpgradeResponse :=
  match canceler_CancelForID orchestrationID with
  | Some err =>
      replyError [errorf "while canceling orchestration %s: %v"]
        (resolveErrorStatus err) (Wrap err "while canceling orchestration %s")
  | None =>
      replyWith [] StatusOK
        {| UpgradeResponse_OrchestrationID := orchestrationID |}
  end.

(** The line [getOperation] logs after the runtime state was asked for: one
    for an error that is not "not found", none otherwise. *)
Definition runtimeStateLine (err : option error) : list Entry :=
  match err with
  | Some e =>
      if negb (IsNotFound e)
      then [errorf "while getting runtime state for upgrade operation %s: %v"]
      else []
  | None => []
  end.

(** [getOperation] *)
Definition getOperation (orchestrationID operationID : string)
  : Answer OperationDetailResponse :=
  match orchestrations_GetByID orchestrationID with
  | inl err =>
      replyError [errorf "while getting orchestration %s: %v"]
        (resolveErrorStatus err) (Wrap err "while getting orchestration %s")
  | inr o =>
      let '(upgradeState, err) := runtimeStates_GetByOperationID operationID in
      let l := runtimeStateLine err in
      let kymaConfig := GetKymaConfig upgradeState in
      match Type_ o with
      | UpgradeKymaOrchestration =>
          match operations_GetUpgradeKymaOperationByID operationID with
          | inl err =>
              replyError
                (l ++ [errorf "while getting upgrade operation %s: %v"])
                (resolveErrorStatus err) (Wrap err "while getting operation %s")
          | inr operation =>
              match converter_UpgradeKymaOperationToDetailDTO operation
                      kymaConfig with
              | inl err =>
                  replyError (l ++ [errorf "while converting operation: %v"])
                    StatusInternalServerError
                    (Wrap err "while converting operation")
              | inr response => replyWith l StatusOK response
              end
          end
      | UpgradeClusterOrchestration =>
          match operations_GetUpgradeClusterOperationByID operationID with
          | inl err =>
              replyError
                (l ++ [errorf "while getting upgrade operation %s: %v"])
                (resolveErrorStatus err) (Wrap err "while getting operation %s")
          | inr operation =>
              match converter_UpgradeClusterOperationToDetailDTO operation
                      (upgradeState_ClusterConfig upgradeState) with
              | inl err =>
                  replyError (l ++ [errorf "while converting operation: %v"])
                    StatusInternalServerError
                    (Wrap err "while converting operation")
              | inr response => replyWith l StatusOK response
              end
          end
      | OtherType _ =>
          replyError l StatusInternalServerError
            (New "unsupported orchestration type: %s")
      end
  end.

End Handler.

End handlers.

(** ** Sample worlds, for the closed statements of Part II *)

Module samples.

Import time errors logrus orchestration strategies.

Definition emptyMemory : Memory := {| slices := []; rangeVars := [] |}.

(** A strategy fresh from its constructor, in a world where nothing has
    happened yet. *)
Definition freshWorld (configuredDelay : Duration) : World :=
  {| strategy := NewParallelOrchestrationStrategy configuredDelay;
     memory := emptyMemory; calls := []; logged := [];
     clockReads := 0; uuidReads := 0; goroutines := [] |}.

(** Midnight (UTC) of the day [n] days after January 1 of year 1. *)
Definition midnight (n : Z) : Time := n * nanosPerDay.

(** Sunday 2026-11-01, Monday 2026-10-26 and Monday 2026-11-02. *)
Definition day_2026_11_01 : Time := midnight 739920.
Definition day_2026_10_26 : Time := midnight 739914.
Definition day_2026_11_02 : Time := midnight 739921.

(** An executor that finishes every operation at once and persists every
    window, under a clock that stands at Sunday 2026-11-01. *)
Definition calmEnv : Env :=
  {| time_Now := fun _ => day_2026_11_01;
     uuid_New := fun _ => "exec-1";
     executor_Execute := fun _ _ => Returns 0 None;
     executor_Reschedule := fun _ _ _ _ => None;
     loopvar := PerLoop |}.

(** The same, but the executor cannot persist the window of operation
    "rt-a". *)
Definition storageDownEnv (lv : LoopVar) : Env :=
  {| time_Now := fun _ => day_2026_11_01;
     uuid_New := fun _ => "exec-1";
     executor_Execute := fun _ _ => Returns 0 None;
     executor_Reschedule := fun _ id _ _ =>
       if String.eqb id "rt-a" then Some (New "storage is down") else None;
     loopvar := lv |}.

(** An executor that answers every [Execute] with [answer]. *)
Definition answeringEnv (answer : ExecuteResult) : Env :=
  {| time_Now := fun _ => day_2026_11_01;
     uuid_New := fun _ => "exec-1";
     executor_Execute := fun _ _ => answer;
     executor_Reschedule := fun _ _ _ _ => None;
     loopvar := PerLoop |}.

(** An operation with no window ("any time"). *)
Definition anytimeOp : RuntimeOperation :=
  {| ID := "rt-0"; MaintenanceWindowBegin := 0; MaintenanceWindowEnd := 0;
     MaintenanceDays := [] |}.

(** Operation "rt-a": its window was Monday 2026-10-26, 09:00 to 10:00, and
    Thursday is its only maintenance day. *)
Definition mondayOp : RuntimeOperation :=
  {| ID := "rt-a";
     MaintenanceWindowBegin := day_2026_10_26 + 9 * Hour;
     MaintenanceWindowEnd := day_2026_10_26 + 10 * Hour;
     MaintenanceDays := [Thursday] |}.

(** Operation "rt-b": its window is Monday 2026-11-02, 09:00 to 10:00. *)
Definition nextMondayOp : RuntimeOperation :=
  {| ID := "rt-b";
     MaintenanceWindowBegin := day_2026_11_02 + 9 * Hour;
     MaintenanceWindowEnd := day_2026_11_02 + 10 * Hour;
     MaintenanceDays := [Thursday] |}.

(** A world whose memory holds the one slice [operations]; execution
    "exec-1" is registered with an empty queue and [outstanding] operations
    to go. *)
Definition runningWorld (configuredDelay : Duration)
    (operations : list RuntimeOperation) (outstanding : Z) : World :=
  {| strategy :=
       {| dq := {[ "exec-1" := workqueue.NewDelayingQueue ]};
          wg := {[ "exec-1" := {| sync.counter := 2 |} ]};
          rescheduleDelay :=
            rescheduleDelay (NewParallelOrchestrationStrategy configuredDelay);
          processingNum := {[ "exec-1" := outstanding ]} |};
     memory := {| slices := [operations]; rangeVars := [] |};
     calls := []; logged := []; clockReads := 0; uuidReads := 1;
     goroutines := [] |}.

(** For the retry endpoint: a storage that knows every orchestration as a
    Kyma upgrade without operations to retry, and a retryer that accepts
    nothing. *)
Definition sampleGetByID_orchestration (id : string) : handlers.Orchestration :=
  {| handlers.OrchestrationID := id;
     handlers.Type_ := handlers.UpgradeKymaOrchestration |}.

Definition sampleGetByID (id : string) : error + handlers.Orchestration :=
  inr (sampleGetByID_orchestration id).

Definition sampleRetry (h : handlers.Retryer) (o : handlers.Orchestration)
    (allOps : list unit) (operationIDs : list string)
  : handlers.Retryer * option error :=
  ({| handlers.queue := handlers.queue h;
      handlers.resp := {| handlers.RetryOperations := [];
                          handlers.Msg := "no operations can be retried" |} |},
   None).

Definition sampleRetryer : handlers.Retryer :=
  {| handlers.queue := None;
     handlers.resp := {| handlers.RetryOperations := []; handlers.Msg := "" |} |}.

Definition sampleRequest : handlers.Request :=
  {| handlers.header_ContentType := "application/x-www-form-urlencoded";
     handlers.hasBody := true;
     handlers.parseForm := None;
     handlers.form_operation_id := ["op-1"];
     handlers.vars_orchestration_id := "orch-1" |}.

(** A retryer that accepts every operation asked for. *)
Definition acceptingRetry (h : handlers.Retryer) (o : handlers.Orchestration)
    (allOps : list unit) (operationIDs : list string)
  : handlers.Retryer * option error :=
  ({| handlers.queue := handlers.queue h;
      handlers.resp := {| handlers.RetryOperations := operationIDs;
                          handlers.Msg := "" |} |},
   None).

(** A request with a JSON body. *)
Definition jsonRequest : handlers.Request :=
  {| handlers.header_ContentType := "application/json";
     handlers.hasBody := true;
     handlers.parseForm := None;
     handlers.form_operation_id := [];
     handlers.vars_orchestration_id := "orch-1" |}.

Definition immediateSpec : StrategySpec :=
  {| Schedule := Immediate; Parallel := {| Workers := 2 |} |}.

Definition windowSpec : StrategySpec :=
  {| Schedule := MaintenanceWindow; Parallel := {| Workers := 2 |} |}.

End samples.

(** * Part II: properties *)

Import time errors logrus orchestration strategies samples.

(** ** Integers, instants and errors *)

Lemma goint_wrap_id z : goint.min <= z <= goint.max -> goint.wrap z = z.
Proof.
  unfold goint.wrap, goint.min, goint.max. intros H.
  rewrite Z.mod_small by lia. lia.
Qed.

Lemma goint_dec_pred n : goint.min < n <= goint.max -> goint.dec n = n - 1.
Proof.
  intros H. unfold goint.dec. apply goint_wrap_id.
  unfold goint.min, goint.max in *. lia.
Qed.

Lemma Sub_exact t u :
  minDuration <= t - u <= maxDuration -> Sub t u = t - u.
Proof.
  intros [Hlo Hhi]. unfold Sub.
  destruct (Z.ltb_spec (t - u) minDuration); [lia |].
  destruct (Z.ltb_spec maxDuration (t - u)); [lia | reflexivity].
Qed.

Lemma Sub_range t u : minDuration <= Sub t u <= maxDuration.
Proof.
  unfold Sub.
  destruct (Z.ltb_spec (t - u) minDuration);
    [unfold minDuration, maxDuration; lia |].
  destruct (Z.ltb_spec maxDuration (t - u));
    [unfold minDuration, maxDuration; lia | lia].
Qed.

(** Saturation keeps the sign: the delay is "due now" exactly when the
    instant is not after the clock. *)
Lemma Sub_nonpos t u : Sub t u <= 0 <-> t <= u.
Proof.
  unfold Sub.
  destruct (Z.ltb_spec (t - u) minDuration) as [H | H];
    [unfold minDuration in *; lia |].
  destruct (Z.ltb_spec maxDuration (t - u)) as [H' | H'];
    unfold maxDuration in *; lia.
Qed.

Lemma nanosPerDay_pos : 0 < nanosPerDay.
Proof. unfold nanosPerDay, Hour, Minute, Second, Nanosecond. lia. Qed.

Lemma weekday_AddDate t days :
  weekday (AddDate_days t days) = (weekday t + days) mod 7.
Proof.
  unfold weekday, AddDate_days.
  pose proof nanosPerDay_pos as Hd.
  rewrite Z.div_add by lia.
  rewrite Zplus_mod_idemp_l. f_equal. lia.
Qed.

Lemma weekday_range t : 0 <= weekday t < 7.
Proof. unfold weekday. apply Z.mod_pos_bound. lia. Qed.

(** A day is 24 hours: shifting by the default delay is shifting by one
    calendar day. *)
Lemma Add_24h_AddDate t : Add t (24 * Hour) = AddDate_days t 1.
Proof. unfold Add, AddDate_days, nanosPerDay. lia. Qed.

Lemma Wrap_neq err message : Wrap err message <> err.
Proof.
  intros H. apply (f_equal depth) in H. simpl in H. lia.
Qed.

(** ** Memory *)

Lemma load_store_eq m a o o' :
  load m a = Some o -> load (store m a o') a = Some o'.
Proof.
  destruct a as [s i | v]; simpl.
  - destruct (slices m !! s) as [l |] eqn:Hs; [| discriminate].
    intros Hi. rewrite list_lookup_alter_eq, Hs. simpl.
    apply list_lookup_insert_eq. eapply lookup_lt_Some; eauto.
  - intros Hv. apply list_lookup_insert_eq. eapply lookup_lt_Some; eauto.
Qed.

(** ** The constructor *)

Lemma NewParallelOrchestrationStrategy_delay d :
  rescheduleDelay (NewParallelOrchestrationStrategy d) =
    if d <=? 0 then 24 * Hour else d.
Proof.
  unfold NewParallelOrchestrationStrategy. simpl.
  destruct (d <=? 0); reflexivity.
Qed.

Lemma NewParallelOrchestrationStrategy_delay_pos d :
  0 < rescheduleDelay (NewParallelOrchestrationStrategy d).
Proof.
  rewrite NewParallelOrchestrationStrategy_delay.
  destruct (Z.leb_spec d 0); [unfold Hour, Minute, Second, Nanosecond |]; lia.
Qed.

(** ** [Execute] on no operations *)

(** C9: for the empty list of operations and any strategy spec, [Execute]
    returns the empty string and a nil error and leaves the world as it
    found it: no queue, wait group or counter is registered for any
    execution ID. *)
Theorem Execute_empty env strategySpec w :
  Execute env [] strategySpec w = Return ("", None) w /\
  forall r w',
    Execute env [] strategySpec w = Return r w' ->
    r = ("", None) /\
    uuidReads w' = uuidReads w /\
    goroutines w' = goroutines w /\
    forall executionID,
      dq (strategy w') !! executionID = dq (strategy w) !! executionID /\
      wg (strategy w') !! executionID = wg (strategy w) !! executionID /\
      processingNum (strategy w') !! executionID =
        processingNum (strategy w) !! executionID.
Proof.
  assert (Hrun : Execute env [] strategySpec w = Return ("", None) w)
    by reflexivity.
  split; [exact Hrun |].
  intros r w' Hr. rewrite Hrun in Hr. inversion Hr; subst r w'.
  repeat split.
Qed.

(** ** [Wait] *)

(** C10: for an execution ID with no wait group registered, [Wait] returns
    without blocking and leaves the world unchanged. *)
Theorem Wait_unregistered executionID w :
  wg (strategy w) !! executionID = None ->
  Wait executionID w = Return WaitReturns w.
Proof.
  intros Hwg. unfold Wait, bind, getStrategy. rewrite Hwg. reflexivity.
Qed.

Lemma Wait_unregistered_witness :
  Wait "" (freshWorld 0) = Return WaitReturns (freshWorld 0) /\
  Wait "never-returned" (freshWorld 0) = Return WaitReturns (freshWorld 0).
Proof.
  split; apply Wait_unregistered; reflexivity.
Defined.

(** A registered wait group with workers still running blocks the caller. *)
Lemma Wait_registered_blocks executionID w g :
  wg (strategy w) !! executionID = Some g ->
  sync.counter g <> 0 ->
  Wait executionID w = Return WaitBlocks w.
Proof.
  intros Hwg Hc. unfold Wait, bind, getStrategy. rewrite Hwg.
  destruct (Z.eqb_spec (sync.counter g) 0); [contradiction | reflexivity].
Qed.

(** ** [Cancel] *)

Lemma ShutDown_idempotent (q : workqueue.DelayingQueue ptr) :
  workqueue.ShutDown (workqueue.ShutDown q) = workqueue.ShutDown q.
Proof. reflexivity. Qed.

Lemma sameButLog_refl w : sameButLog w w.
Proof. repeat split. Qed.

(** [Cancel] never panics, and says what it leaves behind. *)
Lemma Cancel_run executionID w :
  exists w1,
    Cancel executionID w = Return tt w1 /\
    strategy w1 =
      (if String.eqb executionID "" then strategy w
       else match dq (strategy w) !! executionID with
            | Some q =>
                set_dq (<[executionID := workqueue.ShutDown q]> (dq (strategy w)))
                       (strategy w)
            | None => strategy w
            end) /\
    memory w1 = memory w /\ calls w1 = calls w /\
    clockReads w1 = clockReads w /\ uuidReads w1 = uuidReads w /\
    goroutines w1 = goroutines w.
Proof.
  unfold Cancel.
  destruct (String.eqb executionID "") eqn:He.
  - exists w. repeat split.
  - unfold bind, logf, getStrategy, modifyStrategy, ret. simpl.
    destruct (dq (strategy w) !! executionID) as [q |] eqn:Hq;
      eexists; repeat split.
Qed.

(** C7: [Cancel] returns for every execution ID; a second [Cancel] of the
    same ID leaves the strategy (and everything but the log) as the first
    left it; with the empty ID it changes nothing at all, and with an ID
    that has no queue it changes nothing but the log.  (With any other ID
    the first [Cancel] shuts the queue of that ID down.) *)
Theorem Cancel_idempotent executionID w :
  exists w1 w2,
    Cancel executionID w = Return tt w1 /\
    Cancel executionID w1 = Return tt w2 /\
    strategy w2 = strategy w1 /\
    sameButLog w1 w2 /\
    (executionID = "" -> w1 = w) /\
    (dq (strategy w) !! executionID = None -> sameButLog w w1) /\
    (forall q, executionID <> "" -> dq (strategy w) !! executionID = Some q ->
               dq (strategy w1) !! executionID = Some (workqueue.ShutDown q)).
Proof.
  destruct (Cancel_run executionID w)
    as (w1 & Hrun1 & Hs1 & Hm1 & Hc1 & Hk1 & Hu1 & Hg1).
  destruct (Cancel_run executionID w1)
    as (w2 & Hrun2 & Hs2 & Hm2 & Hc2 & Hk2 & Hu2 & Hg2).
  assert (Hsame : strategy w2 = strategy w1).
  { rewrite Hs2. destruct (String.eqb executionID ""); [reflexivity |].
    rewrite Hs1.
    destruct (dq (strategy w) !! executionID) as [q |] eqn:Hq.
    - simpl. rewrite lookup_insert_eq. unfold set_dq. simpl.
      rewrite insert_insert_eq. reflexivity.
    - rewrite Hq. reflexivity. }
  exists w1, w2. split; [exact Hrun1 |]. split; [exact Hrun2 |].
  split; [exact Hsame |]. split; [repeat split; assumption |].
  split; [| split].
  - intros ->. unfold Cancel, ret in Hrun1. simpl in Hrun1. congruence.
  - intros Hq. rewrite Hq in Hs1.
    assert (Hs : strategy w1 = strategy w)
      by (destruct (String.eqb executionID ""); exact Hs1).
    repeat split; assumption.
  - intros q Hne Hq. rewrite Hs1, Hq.
    destruct (String.eqb_spec executionID ""); [contradiction |].
    simpl. apply lookup_insert_eq.
Qed.

Lemma Cancel_idempotent_witness :
  exists w1 w2,
    Cancel "" (freshWorld 0) = Return tt w1 /\
    Cancel "" w1 = Return tt w2 /\
    strategy w2 = strategy w1 /\
    sameButLog w1 w2 /\
    w1 = freshWorld 0 /\
    sameButLog (freshWorld 0) w1.
Proof.
  destruct (Cancel_idempotent "" (freshWorld 0))
    as (w1 & w2 & H1 & H2 & H3 & H4 & H5 & H6 & _).
  exists w1, w2.
  split; [exact H1 |]. split; [exact H2 |]. split; [exact H3 |].
  split; [exact H4 |]. split; [apply H5 | apply H6]; reflexivity.
Defined.

(** Cancelling a running execution twice: the queue is shut down by the
    first call and the second finds it so. *)
Example Cancel_running_twice :
  exists w1 w2 q,
    Cancel "exec-1" (runningWorld 0 [anytimeOp] 1) = Return tt w1 /\
    Cancel "exec-1" w1 = Return tt w2 /\
    dq (strategy w1) !! "exec-1" = Some q /\
    workqueue.shuttingDown q = true /\
    strategy w2 = strategy w1.
Proof.
  eexists _, _, _. split; [reflexivity |]. split; [reflexivity |].
  split; [vm_compute; reflexivity |]. split; [reflexivity |].
  vm_compute. reflexivity.
Qed.

(** ** [updateMaintenanceWindow] *)

Ltac run_go :=
  unfold updateMaintenanceWindow, bind, ret, deref, assign, getStrategy,
    modifyStrategy, time_now, executor_reschedule, logf.

Lemma updateMaintenanceWindow_Immediate env execID op strategySpec w o :
  load (memory w) op = Some o ->
  Schedule strategySpec = Immediate ->
  updateMaintenanceWindow env execID op strategySpec w = Return (0, None) w.
Proof.
  intros Hload Hs. run_go. rewrite Hload, Hs. reflexivity.
Qed.

Lemma updateMaintenanceWindow_not_elapsed env execID op strategySpec w o :
  load (memory w) op = Some o ->
  Schedule strategySpec = MaintenanceWindow ->
  ~ elapsedAt o (time_Now env (clockReads w)) ->
  let k := if IsZero (MaintenanceWindowEnd o) then clockReads w
           else S (clockReads w) in
  updateMaintenanceWindow env execID op strategySpec w =
    Return (Sub (MaintenanceWindowBegin o) (time_Now env k), None)
           (set_clockReads (S k) w).
Proof.
  intros Hload Hs Hne. run_go. rewrite Hload, Hs.
  unfold IsZero. destruct (Z.eqb_spec (MaintenanceWindowEnd o) 0) as [Hz | Hz].
  - simpl. rewrite Hload. reflexivity.
  - simpl. unfold Before.
    destruct (Z.ltb_spec (MaintenanceWindowEnd o) (time_Now env (clockReads w)))
      as [Hlt | Hge].
    + exfalso. apply Hne. split; assumption.
    + simpl. rewrite Hload. reflexivity.
Qed.

Lemma updateMaintenanceWindow_elapsed env execID op strategySpec w o :
  load (memory w) op = Some o ->
  Schedule strategySpec = MaintenanceWindow ->
  elapsedAt o (time_Now env (clockReads w)) ->
  let o' := nextWindow (strategy w) o in
  let w1 := rescheduledWorld op o w in
  updateMaintenanceWindow env execID op strategySpec w =
    match executor_Reschedule env (calls w) (ID o)
            (MaintenanceWindowBegin o') (MaintenanceWindowEnd o') with
    | Some e => Return (0, Some e) w1
    | None =>
        Return (Sub (MaintenanceWindowBegin o') (time_Now env (S (clockReads w))),
                None)
               (set_clockReads (S (S (clockReads w))) w1)
    end.
Proof.
  intros Hload Hs [Hnz Hlt]. run_go. rewrite Hload, Hs.
  unfold IsZero. destruct (Z.eqb_spec (MaintenanceWindowEnd o) 0) as [Hz | _];
    [contradiction |].
  simpl. unfold Before.
  destruct (Z.ltb_spec (MaintenanceWindowEnd o) (time_Now env (clockReads w)))
    as [_ | Hge]; [| lia].
  simpl. rewrite (load_store_eq _ _ _ _ Hload).
  unfold rescheduledWorld. destruct w as [p m c l k u g]. simpl in *.
  destruct (executor_Reschedule env c (ID o) _ _) as [e |]; simpl.
  - reflexivity.
  - rewrite (load_store_eq _ _ _ _ Hload). reflexivity.
Qed.

(** C5, as amended: under [Immediate] the policy answers a zero delay and a
    nil error and touches nothing.  Under [MaintenanceWindow] with a window
    that has not elapsed it answers a nil error and the delay
    [MaintenanceWindowBegin] minus the clock as [time.Until] reads it,
    saturated to the range of a [Duration]: the very difference when that
    fits in 64 bits of nanoseconds, and at most zero exactly when the window
    has begun.  Nothing but the clock is touched. *)
Theorem updateMaintenanceWindow_delay env execID op strategySpec w o :
  load (memory w) op = Some o ->
  (Schedule strategySpec = MaintenanceWindow ->
   ~ elapsedAt o (time_Now env (clockReads w))) ->
  match Schedule strategySpec with
  | Immediate =>
      updateMaintenanceWindow env execID op strategySpec w = Return (0, None) w
  | MaintenanceWindow =>
      (* the reading [time.Until] makes: the first of the call when [End] is
         zero, the second when [End] was compared with the clock *)
      let k := if IsZero (MaintenanceWindowEnd o) then clockReads w
               else S (clockReads w) in
      let now := time_Now env k in
      exists delay,
        updateMaintenanceWindow env execID op strategySpec w =
          Return (delay, None) (set_clockReads (S k) w) /\
        delay = Sub (MaintenanceWindowBegin o) now /\
        minDuration <= delay <= maxDuration /\
        (minDuration <= MaintenanceWindowBegin o - now <= maxDuration ->
         delay = MaintenanceWindowBegin o - now) /\
        (delay <= 0 <-> MaintenanceWindowBegin o <= now)
  end.
Proof.
  intros Hload Hne.
  destruct (Schedule strategySpec) eqn:Hs.
  - apply (updateMaintenanceWindow_Immediate env execID op strategySpec w o Hload Hs).
  - specialize (Hne eq_refl).
    pose proof (updateMaintenanceWindow_not_elapsed env execID op strategySpec w o
                  Hload Hs Hne) as Hrun.
    cbv zeta in *.
    eexists. split; [exact Hrun |].
    split; [reflexivity |]. split; [apply Sub_range |]. split.
    + apply Sub_exact.
    + apply Sub_nonpos.
Qed.

(** Under [Immediate] the window of the operation is not looked at. *)
Example updateMaintenanceWindow_Immediate_example :
  updateMaintenanceWindow calmEnv "exec-1" (SliceElem 0 0) immediateSpec
    (runningWorld 0 [mondayOp] 1)
  = Return (0, None) (runningWorld 0 [mondayOp] 1).
Proof. reflexivity. Qed.

Lemma updateMaintenanceWindow_delay_witness :
  load (memory (runningWorld 0 [nextMondayOp] 1)) (SliceElem 0 0) = Some nextMondayOp /\
  ~ elapsedAt nextMondayOp (time_Now calmEnv 0) /\
  exists w',
    updateMaintenanceWindow calmEnv "exec-1" (SliceElem 0 0) windowSpec
      (runningWorld 0 [nextMondayOp] 1) = Return (33 * Hour, None) w'.
Proof.
  assert (Hne : ~ elapsedAt nextMondayOp (time_Now calmEnv 0))
    by (intros [_ H]; vm_compute in H; discriminate).
  split; [reflexivity |]. split; [exact Hne |].
  destruct (updateMaintenanceWindow_delay calmEnv "exec-1" (SliceElem 0 0)
              windowSpec (runningWorld 0 [nextMondayOp] 1) nextMondayOp
              eq_refl (fun _ => Hne))
    as (delay & Hrun & Hdelay & _).
  eexists. rewrite Hrun, Hdelay. reflexivity.
Defined.

(** C5 as stated fails for an operation without a window: in 2026 the zero
    instant lies more than 292 years back, [time.Until] answers the least
    [Duration], and that is not the difference of the two instants. *)
Lemma updateMaintenanceWindow_delay_counterexample :
  ~ elapsedAt anytimeOp (time_Now calmEnv 0) /\
  exists w',
    updateMaintenanceWindow calmEnv "exec-1" (SliceElem 0 0) windowSpec
      (runningWorld 0 [anytimeOp] 1) = Return (minDuration, None) w' /\
    minDuration <> MaintenanceWindowBegin anytimeOp - time_Now calmEnv 0.
Proof.
  split.
  - intros [H _]. apply H. reflexivity.
  - eexists. split; [vm_compute; reflexivity |].
    vm_compute. discriminate.
Qed.

(** C6: when the window has elapsed and [Executor.Reschedule] fails with
    [e], [updateMaintenanceWindow] returns the zero duration and [e] itself;
    the error that [errors.Wrap] builds on that path is not what comes
    back. *)
Theorem updateMaintenanceWindow_reschedule_error env execID op strategySpec w o e :
  load (memory w) op = Some o ->
  Schedule strategySpec = MaintenanceWindow ->
  elapsedAt o (time_Now env (clockReads w)) ->
  executor_Reschedule env (calls w) (ID o)
    (MaintenanceWindowBegin (nextWindow (strategy w) o))
    (MaintenanceWindowEnd (nextWindow (strategy w) o)) = Some e ->
  updateMaintenanceWindow env execID op strategySpec w =
    Return (0, Some e) (rescheduledWorld op o w) /\
  forall message, e <> Wrap e message.
Proof.
  intros Hload Hs Hel Hre. split.
  - pose proof (updateMaintenanceWindow_elapsed env execID op strategySpec w o
                  Hload Hs Hel) as Hrun.
    cbv zeta in Hrun. rewrite Hre in Hrun. exact Hrun.
  - intros message H. symmetry in H. exact (Wrap_neq _ _ H).
Qed.

Lemma elapsed_mondayOp : elapsedAt mondayOp day_2026_11_01.
Proof. split; [vm_compute; discriminate | vm_compute; reflexivity]. Qed.

Lemma updateMaintenanceWindow_reschedule_error_witness :
  exists w',
    updateMaintenanceWindow (storageDownEnv PerLoop) "exec-1" (SliceElem 0 0)
      windowSpec (runningWorld 0 [mondayOp] 1)
    = Return (0, Some (New "storage is down")) w'.
Proof.
  eexists.
  apply (updateMaintenanceWindow_reschedule_error (storageDownEnv PerLoop)
           "exec-1" (SliceElem 0 0) windowSpec (runningWorld 0 [mondayOp] 1)
           mondayOp (New "storage is down") eq_refl eq_refl elapsed_mondayOp eq_refl).
Defined.

(** ** The weekday rule and the constructor's default *)

(** The weekday branch of [nextWindow] is taken only by a strategy whose
    delay is not positive, and the constructor never builds one. *)
Lemma nextWindow_constructed configured p o :
  rescheduleDelay p =
    rescheduleDelay (NewParallelOrchestrationStrategy configured) ->
  nextWindow p o =
    setWindow o
      (Add (MaintenanceWindowBegin o) (rescheduleDelay p))
      (Add (MaintenanceWindowEnd o) (rescheduleDelay p)).
Proof.
  intros Hp. unfold nextWindow.
  pose proof (NewParallelOrchestrationStrategy_delay_pos configured) as Hpos.
  rewrite <- Hp in Hpos.
  destruct (Z.ltb_spec 0 (rescheduleDelay p)); [reflexivity | lia].
Qed.

(** C2, as amended: when no positive reschedule delay is configured the
    constructor puts 24 hours in its place, and for an operation whose
    window has elapsed under [MaintenanceWindow] the policy moves both
    [MaintenanceWindowBegin] and [MaintenanceWindowEnd] forward by 24 hours
    and passes that window to [Executor.Reschedule]. *)
Theorem updateMaintenanceWindow_default_shift
    env execID op strategySpec w o configured :
  configured <= 0 ->
  rescheduleDelay (strategy w) =
    rescheduleDelay (NewParallelOrchestrationStrategy configured) ->
  load (memory w) op = Some o ->
  Schedule strategySpec = MaintenanceWindow ->
  elapsedAt o (time_Now env (clockReads w)) ->
  let newBegin := Add (MaintenanceWindowBegin o) (24 * Hour) in
  let newEnd := Add (MaintenanceWindowEnd o) (24 * Hour) in
  exists r w',
    updateMaintenanceWindow env execID op strategySpec w = Return r w' /\
    load (memory w') op = Some (setWindow o newBegin newEnd) /\
    calls w' = (calls w ++ [CallReschedule (ID o) newBegin newEnd])%list.
Proof.
  intros Hc Hp Hload Hs Hel newBegin newEnd.
  pose proof (updateMaintenanceWindow_elapsed env execID op strategySpec w o
                Hload Hs Hel) as Hrun.
  cbv zeta in Hrun.
  assert (Hnext : nextWindow (strategy w) o = setWindow o newBegin newEnd).
  { rewrite (nextWindow_constructed configured) by exact Hp.
    rewrite Hp, NewParallelOrchestrationStrategy_delay.
    destruct (Z.leb_spec configured 0); [reflexivity | lia]. }
  unfold rescheduledWorld in Hrun. rewrite Hnext in Hrun. simpl in Hrun.
  destruct (executor_Reschedule env (calls w) (ID o) newBegin newEnd);
    eexists _, _; (split; [exact Hrun |]); simpl;
    (split; [exact (load_store_eq _ _ _ _ Hload) | reflexivity]).
Qed.

Lemma updateMaintenanceWindow_default_shift_witness :
  exists r w',
    updateMaintenanceWindow calmEnv "exec-1" (SliceElem 0 0) windowSpec
      (runningWorld 0 [mondayOp] 1) = Return r w' /\
    load (memory w') (SliceElem 0 0) =
      Some (setWindow mondayOp (day_2026_10_26 + 33 * Hour)
                               (day_2026_10_26 + 34 * Hour)).
Proof.
  destruct (updateMaintenanceWindow_default_shift calmEnv "exec-1"
              (SliceElem 0 0) windowSpec (runningWorld 0 [mondayOp] 1)
              mondayOp 0 ltac:(lia) eq_refl eq_refl eq_refl elapsed_mondayOp)
    as (r & w' & Hrun & Hmem & _).
  exists r, w'. split; [exact Hrun |]. rewrite Hmem. reflexivity.
Defined.

(** A day is in the map exactly when it is among the days converted. *)
Lemma ConvertSliceOfDaysToMap_lookup days d :
  ConvertSliceOfDaysToMap days !! d = Some true <-> In d days.
Proof.
  assert (Hval : forall v, ConvertSliceOfDaysToMap days !! d = Some v ->
                           v = true /\ In d days).
  { intros v Hv. unfold ConvertSliceOfDaysToMap in Hv.
    apply elem_of_list_to_map_2 in Hv.
    apply list_elem_of_fmap in Hv. destruct Hv as (y & Heq & Hy).
    inversion Heq; subst. split; [reflexivity |]. apply list_elem_of_In. exact Hy. }
  split.
  - intros H. apply (Hval true H).
  - intros Hin.
    destruct (ConvertSliceOfDaysToMap days !! d) as [v |] eqn:Hl.
    + destruct (Hval v eq_refl) as [-> _]. reflexivity.
    + unfold ConvertSliceOfDaysToMap in Hl.
      apply not_elem_of_list_to_map in Hl. exfalso. apply Hl.
      rewrite <- list_fmap_compose. apply list_elem_of_fmap.
      exists d. split; [reflexivity |]. apply list_elem_of_In. exact Hin.
Qed.

(** For a set with a weekday in it, the offset found is between 1 and 7,
    lands on a day of the set, and no smaller positive offset does. *)
Lemma NextAvailableDayDiff_smallest cur days :
  0 <= cur < 7 ->
  (exists d, In d days /\ 0 <= d < 7) ->
  let n := NextAvailableDayDiff cur (ConvertSliceOfDaysToMap days) in
  1 <= n <= 7 /\
  In ((cur + n) mod 7) days /\
  forall m, 0 < m < n -> ~ In ((cur + m) mod 7) days.
Proof.
  intros Hcur (d & Hd & Hdr) n. subst n. unfold NextAvailableDayDiff.
  set (f := fun diff : Z =>
              bool_decide (ConvertSliceOfDaysToMap days !! ((cur + diff) mod 7)
                           = Some true)).
  assert (Hf : forall m, f m = true <-> In ((cur + m) mod 7) days).
  { intros m. unfold f. rewrite bool_decide_eq_true.
    apply ConvertSliceOfDaysToMap_lookup. }
  assert (Hex : exists m, 1 <= m <= 7 /\ f m = true).
  { destruct (Z.eq_dec d cur) as [-> | Hne].
    - exists 7. split; [lia |]. apply Hf.
      replace ((cur + 7) mod 7) with cur; [exact Hd |].
      rewrite <- (Z.mul_1_l 7) at 1. rewrite Z_mod_plus_full.
      symmetry. apply Z.mod_small. lia.
    - exists ((d - cur) mod 7).
      pose proof (Z.mod_pos_bound (d - cur) 7 ltac:(lia)) as Hb.
      assert (Hnz : (d - cur) mod 7 <> 0).
      { intros Hz. apply Z.mod_divide in Hz; [| lia].
        destruct Hz as [c Hc]. lia. }
      split; [lia |]. apply Hf.
      rewrite Zplus_mod_idemp_r.
      replace (cur + (d - cur)) with d by lia.
      rewrite Z.mod_small by lia. exact Hd. }
  assert (Hmin : forall k,
            (forall m, 0 < m < k -> f m = false) ->
            forall m, 0 < m < k -> ~ In ((cur + m) mod 7) days).
  { intros k Hk m Hm Hin. apply Hf in Hin. rewrite (Hk m Hm) in Hin. discriminate. }
  simpl List.find.
  destruct (f 1) eqn:H1; [simpl; split; [lia |]; split; [apply Hf, H1 |];
    apply Hmin; intros m Hm; lia |].
  destruct (f 2) eqn:H2; [simpl; split; [lia |]; split; [apply Hf, H2 |];
    apply Hmin; intros m Hm; assert (m = 1) as -> by lia; assumption |].
  destruct (f 3) eqn:H3; [simpl; split; [lia |]; split; [apply Hf, H3 |];
    apply Hmin; intros m Hm; assert (m = 1 \/ m = 2) as [-> | ->] by lia;
    assumption |].
  destruct (f 4) eqn:H4; [simpl; split; [lia |]; split; [apply Hf, H4 |];
    apply Hmin; intros m Hm;
    assert (m = 1 \/ m = 2 \/ m = 3) as [-> | [-> | ->]] by lia; assumption |].
  destruct (f 5) eqn:H5; [simpl; split; [lia |]; split; [apply Hf, H5 |];
    apply Hmin; intros m Hm;
    assert (m = 1 \/ m = 2 \/ m = 3 \/ m = 4) as [-> | [-> | [-> | ->]]] by lia;
    assumption |].
  destruct (f 6) eqn:H6; [simpl; split; [lia |]; split; [apply Hf, H6 |];
    apply Hmin; intros m Hm;
    assert (m = 1 \/ m = 2 \/ m = 3 \/ m = 4 \/ m = 5)
      as [-> | [-> | [-> | [-> | ->]]]] by lia;
    assumption |].
  destruct (f 7) eqn:H7; [simpl; split; [lia |]; split; [apply Hf, H7 |];
    apply Hmin; intros m Hm;
    assert (m = 1 \/ m = 2 \/ m = 3 \/ m = 4 \/ m = 5 \/ m = 6)
      as [-> | [-> | [-> | [-> | [-> | ->]]]]] by lia;
    assumption |].
  exfalso. destruct Hex as (m & Hm & Hfm).
  assert (m = 1 \/ m = 2 \/ m = 3 \/ m = 4 \/ m = 5 \/ m = 6 \/ m = 7)
    as [-> | [-> | [-> | [-> | [-> | [-> | ->]]]]]] by lia; congruence.
Qed.

(** The branch the constructor rules out does what the spec says of it, on
    the model of [NextAvailableDayDiff] made from the spec: a strategy value
    with a delay that is not positive (none comes out of the constructor)
    moves the window by the smallest positive number of days that lands its
    beginning on a maintenance day. *)
Lemma nextWindow_weekday_rule p o :
  rescheduleDelay p <= 0 ->
  (exists d, In d (MaintenanceDays o) /\ 0 <= d < 7) ->
  exists n,
    smallestShiftOnto (MaintenanceDays o) (MaintenanceWindowBegin o) n /\
    nextWindow p o =
      setWindow o (AddDate_days (MaintenanceWindowBegin o) n)
                  (AddDate_days (MaintenanceWindowEnd o) n).
Proof.
  intros Hp Hdays.
  pose proof (NextAvailableDayDiff_smallest
                (weekday (MaintenanceWindowBegin o)) (MaintenanceDays o)
                (weekday_range _) Hdays) as (Hn & Hin & Hmin).
  exists (NextAvailableDayDiff (weekday (MaintenanceWindowBegin o))
            (ConvertSliceOfDaysToMap (MaintenanceDays o))).
  split.
  - split; [lia |]. split.
    + rewrite weekday_AddDate. exact Hin.
    + intros m Hm. rewrite weekday_AddDate. apply Hmin. exact Hm.
  - unfold nextWindow.
    destruct (Z.ltb_spec 0 (rescheduleDelay p)); [lia | reflexivity].
Qed.

(** C2 as stated fails: with no delay configured, an operation whose window
    was on a Monday and whose only maintenance day is Thursday is moved to
    Tuesday, one day on, where the smallest shift onto a maintenance day is
    three days. *)
Lemma updateMaintenanceWindow_weekday_counterexample :
  elapsedAt mondayOp (time_Now calmEnv 0) /\
  smallestShiftOnto (MaintenanceDays mondayOp) (MaintenanceWindowBegin mondayOp) 3 /\
  exists r w' o',
    updateMaintenanceWindow calmEnv "exec-1" (SliceElem 0 0) windowSpec
      (runningWorld 0 [mondayOp] 1) = Return r w' /\
    load (memory w') (SliceElem 0 0) = Some o' /\
    calls w' = [CallReschedule "rt-a" (MaintenanceWindowBegin o')
                                      (MaintenanceWindowEnd o')] /\
    MaintenanceWindowBegin o' = AddDate_days (MaintenanceWindowBegin mondayOp) 1 /\
    MaintenanceWindowBegin o' <> AddDate_days (MaintenanceWindowBegin mondayOp) 3 /\
    weekday (MaintenanceWindowBegin o') = Tuesday /\
    ~ In (weekday (MaintenanceWindowBegin o')) (MaintenanceDays mondayOp).
Proof.
  split; [exact elapsed_mondayOp |]. split.
  - split; [lia |]. split; [vm_compute; auto |].
    intros m Hm Hin. assert (Hcases : m = 1 \/ m = 2) by lia.
    destruct Hcases as [-> | ->]; vm_compute in Hin;
      destruct Hin as [Hin | []]; discriminate.
  - eexists _, _, _. split; [vm_compute; reflexivity |].
    split; [vm_compute; reflexivity |]. simpl.
    split; [reflexivity |]. split; [vm_compute; reflexivity |].
    split; [vm_compute; discriminate |]. split; [vm_compute; reflexivity |].
    vm_compute. intros [H | []]. discriminate.
Qed.

(** ** [processOperation] *)

Ltac run_process :=
  unfold processOperation, deferRecover, bind, ret, deref, executor_execute,
    dq_AddAfter, dq_Done, processingNum_dec, modifyStrategy, logf.

(** The executor returned a delay and no error: the operation goes back into
    the queue and the counter stays. *)
Lemma processOperation_deferred env execID op w o q when :
  load (memory w) op = Some o ->
  dq (strategy w) !! execID = Some q ->
  executor_Execute env (calls w) (ID o) = Returns when None ->
  when <> 0 ->
  exists w',
    processOperation env execID op w = Return tt w' /\
    dq (strategy w') =
      <[execID := workqueue.Done (workqueue.AddAfter q op when) op]>
        (dq (strategy w)) /\
    processingNum (strategy w') = processingNum (strategy w) /\
    calls w' = (calls w ++ [CallExecute (ID o)])%list.
Proof.
  intros Hload Hq Hex Hwhen. run_process.
  rewrite Hload, Hex. simpl.
  destruct (Z.eqb_spec when 0) as [? | _]; [contradiction |]. simpl.
  rewrite Hq. simpl. rewrite lookup_insert_eq.
  eexists. split; [reflexivity |]. simpl.
  rewrite insert_insert_eq. repeat split.
Qed.

(** The executor finished the operation, with an error or without: the
    counter goes down and nothing is added to the queue. *)
Lemma processOperation_finished env execID op w o q when err :
  load (memory w) op = Some o ->
  dq (strategy w) !! execID = Some q ->
  executor_Execute env (calls w) (ID o) = Returns when err ->
  err <> None \/ when = 0 ->
  exists w',
    processOperation env execID op w = Return tt w' /\
    dq (strategy w') = <[execID := workqueue.Done q op]> (dq (strategy w)) /\
    processingNum (strategy w') =
      <[execID := goint.dec (default 0 (processingNum (strategy w) !! execID))]>
        (processingNum (strategy w)) /\
    calls w' = (calls w ++ [CallExecute (ID o)])%list.
Proof.
  intros Hload Hq Hex Hcase. run_process.
  rewrite Hload, Hex. simpl.
  assert (Hcond : isNil err && negb (when =? 0) = false).
  { destruct err as [e |]; [reflexivity |]. simpl.
    destruct Hcase as [H | ->]; [congruence | reflexivity]. }
  rewrite Hcond.
  destruct err as [e |]; simpl; rewrite Hq;
    (eexists; split; [reflexivity |]); simpl; repeat split.
Qed.

(** C1, where the code departs from it: when the call of the executor
    panics, [processOperation] traps the panic, marks the item done and
    returns, so the worker goes on; but the outstanding counter of the
    execution is left as it was.  The decrement sits after the call in the
    body and the deferred function does not make up for it. *)
Theorem processOperation_panic_keeps_counter env execID op w o q v :
  load (memory w) op = Some o ->
  dq (strategy w) !! execID = Some q ->
  executor_Execute env (calls w) (ID o) = Panics v ->
  exists w',
    processOperation env execID op w = Return tt w' /\
    dq (strategy w') = <[execID := workqueue.Done q op]> (dq (strategy w)) /\
    processingNum (strategy w') = processingNum (strategy w) /\
    calls w' = (calls w ++ [CallExecute (ID o)])%list.
Proof.
  intros Hload Hq Hex. run_process.
  rewrite Hload, Hex. simpl. rewrite Hq.
  eexists. split; [reflexivity |]. simpl. repeat split.
Qed.

(** The two cases of [processOperation] after the executor has returned. *)
Lemma classic_case (err : option error) (when : Duration) :
  (err = None /\ when <> 0) \/ (err <> None \/ when = 0).
Proof.
  destruct err as [e |]; [right; left; discriminate |].
  destruct (Z.eq_dec when 0); [right; right; assumption | left; split; auto].
Qed.

(** C4: when the executor returns a nonzero delay and a nil error,
    [processOperation] adds the operation to the queue with that delay and
    leaves the outstanding counter alone; when it returns an error, or a
    zero delay and a nil error, the counter is decremented once (by one, for
    a counter above the least [int]) and nothing is added to the queue.
    Either way the item is marked done and the function returns. *)
Theorem processOperation_accounting env execID op w o q when err :
  load (memory w) op = Some o ->
  dq (strategy w) !! execID = Some q ->
  executor_Execute env (calls w) (ID o) = Returns when err ->
  exists w' q',
    processOperation env execID op w = Return tt w' /\
    dq (strategy w') = <[execID := q']> (dq (strategy w)) /\
    workqueue.finished q' = (workqueue.finished q ++ [op])%list /\
    let n := default 0 (processingNum (strategy w) !! execID) in
    (err = None /\ when <> 0 ->
     workqueue.requested q' = (workqueue.requested q ++ [(op, when)])%list /\
     processingNum (strategy w') = processingNum (strategy w)) /\
    (err <> None \/ when = 0 ->
     workqueue.requested q' = workqueue.requested q /\
     processingNum (strategy w') =
       <[execID := goint.dec n]> (processingNum (strategy w)) /\
     (goint.min < n <= goint.max -> goint.dec n = n - 1)).
Proof.
  intros Hload Hq Hex.
  destruct (classic_case err when) as [[-> Hw] | Hfin].
  - destruct (processOperation_deferred env execID op w o q when
                Hload Hq Hex Hw) as (w' & Hrun & Hdq & Hnum & _).
    exists w', (workqueue.Done (workqueue.AddAfter q op when) op).
    split; [exact Hrun |]. split; [exact Hdq |]. split; [reflexivity |].
    split.
    + intros _. split; [reflexivity | exact Hnum].
    + intros [H | H]; [congruence | contradiction].
  - destruct (processOperation_finished env execID op w o q when err
                Hload Hq Hex Hfin) as (w' & Hrun & Hdq & Hnum & _).
    exists w', (workqueue.Done q op).
    split; [exact Hrun |]. split; [exact Hdq |]. split; [reflexivity |].
    split.
    + intros [-> Hw]. destruct Hfin as [H | H]; [congruence | contradiction].
    + intros _. split; [reflexivity |]. split; [exact Hnum |].
      apply goint_dec_pred.
Qed.

Lemma processOperation_accounting_witness :
  exists w',
    processOperation (answeringEnv (Returns 0 None)) "exec-1" (SliceElem 0 0)
      (runningWorld 0 [anytimeOp] 1) = Return tt w' /\
    processingNum (strategy w') !! "exec-1" = Some 0.
Proof.
  destruct (processOperation_accounting (answeringEnv (Returns 0 None)) "exec-1"
              (SliceElem 0 0) (runningWorld 0 [anytimeOp] 1) anytimeOp
              workqueue.NewDelayingQueue 0 None eq_refl eq_refl eq_refl)
    as (w' & q' & Hrun & _ & _ & _ & Hfin).
  destruct (Hfin (or_intror eq_refl)) as (_ & Hnum & _).
  exists w'. split; [exact Hrun |].
  rewrite Hnum. rewrite lookup_insert_eq. reflexivity.
Defined.

(** The other case of C4, run: an executor that asks to be called again in
    five minutes. *)
Example processOperation_deferred_example :
  exists w' q',
    processOperation (answeringEnv (Returns (5 * Minute) None)) "exec-1"
      (SliceElem 0 0) (runningWorld 0 [anytimeOp] 1) = Return tt w' /\
    dq (strategy w') !! "exec-1" = Some q' /\
    workqueue.requested q' = [(SliceElem 0 0, 5 * Minute)] /\
    processingNum (strategy w') !! "exec-1" = Some 1.
Proof.
  eexists _, _. split; [vm_compute; reflexivity |].
  split; [vm_compute; reflexivity |]. split; reflexivity.
Qed.

Lemma processOperation_panic_keeps_counter_witness :
  exists w',
    processOperation (answeringEnv (Panics "boom")) "exec-1" (SliceElem 0 0)
      (runningWorld 0 [anytimeOp] 1) = Return tt w' /\
    processingNum (strategy w') !! "exec-1" = Some 1.
Proof.
  destruct (processOperation_panic_keeps_counter (answeringEnv (Panics "boom"))
              "exec-1" (SliceElem 0 0) (runningWorld 0 [anytimeOp] 1) anytimeOp
              workqueue.NewDelayingQueue "boom" eq_refl eq_refl eq_refl)
    as (w' & Hrun & _ & Hnum & _).
  exists w'. split; [exact Hrun |]. rewrite Hnum. reflexivity.
Defined.

(** The sibling path: a terminal error of the executor brings the same
    counter down to zero. *)
Example processOperation_error_example :
  exists w',
    processOperation (answeringEnv (Returns 0 (Some (New "upgrade failed"))))
      "exec-1" (SliceElem 0 0) (runningWorld 0 [anytimeOp] 1) = Return tt w' /\
    processingNum (strategy w') !! "exec-1" = Some 0.
Proof.
  eexists. split; [vm_compute; reflexivity |]. reflexivity.
Qed.

(** ** [Execute] *)

(** C3, where the code departs from it: two operations are supplied, and
    the executor cannot persist the new window of the first, "rt-a".
    [Execute] returns an execution ID and a nil error and the counter stands
    at 2, but what it put in the queue with a 24-hour delay is [&op], the
    address of the range variable, and when the loop is over that variable
    holds the second operation.  The workers start after the loop, so by the
    time one of them takes an item, no item of the queue leads to "rt-a" any
    more and two lead to "rt-b". *)
Theorem Execute_drops_rescheduled_operation :
  exists w' q,
    Execute (storageDownEnv PerLoop) [mondayOp; nextMondayOp] windowSpec
      (freshWorld 0) = Return ("exec-1", None) w' /\
    processingNum (strategy w') !! "exec-1" = Some 2 /\
    dq (strategy w') !! "exec-1" = Some q /\
    workqueue.requested q = [(RangeVar 0, 24 * Hour); (SliceElem 0 1, 33 * Hour)] /\
    ID <$> load (memory w') (RangeVar 0) = Some "rt-b" /\
    ID <$> load (memory w') (SliceElem 0 1) = Some "rt-b" /\
    forall item delay o,
      In (item, delay) (workqueue.requested q) ->
      load (memory w') item = Some o ->
      ID o <> "rt-a".
Proof.
  eexists _, _. split; [vm_compute; reflexivity |].
  split; [reflexivity |]. split; [vm_compute; reflexivity |].
  split; [reflexivity |]. split; [reflexivity |]. split; [reflexivity |].
  intros item delay o [H | [H | []]] Hload; inversion H; subst item delay;
    vm_compute in Hload; inversion Hload; subst o; discriminate.
Qed.

(** With a range variable for each iteration (Go 1.22 and later) the same
    call keeps "rt-a": the item queued with the 24-hour delay still leads
    to it. *)
Example Execute_per_iteration_keeps_operation :
  exists w' q,
    Execute (storageDownEnv PerIteration) [mondayOp; nextMondayOp] windowSpec
      (freshWorld 0) = Return ("exec-1", None) w' /\
    dq (strategy w') !! "exec-1" = Some q /\
    workqueue.requested q = [(RangeVar 0, 24 * Hour); (SliceElem 0 1, 33 * Hour)] /\
    ID <$> load (memory w') (RangeVar 0) = Some "rt-a".
Proof.
  eexists _, _. split; [vm_compute; reflexivity |].
  split; [vm_compute; reflexivity |]. split; reflexivity.
Qed.

(** When the operation that fails the policy is the last one supplied, the
    range variable still holds it when [Execute] returns. *)
Example Execute_last_operation_rescheduled :
  exists w' q,
    Execute (storageDownEnv PerLoop) [nextMondayOp; mondayOp] windowSpec
      (freshWorld 0) = Return ("exec-1", None) w' /\
    dq (strategy w') !! "exec-1" = Some q /\
    workqueue.requested q = [(SliceElem 0 0, 33 * Hour); (RangeVar 0, 24 * Hour)] /\
    ID <$> load (memory w') (RangeVar 0) = Some "rt-a".
Proof.
  eexists _, _. split; [vm_compute; reflexivity |].
  split; [vm_compute; reflexivity |]. split; reflexivity.
Qed.

(** ** [Execute] on a list that is not empty *)

Lemma elapsedAt_dec o now : {elapsedAt o now} + {~ elapsedAt o now}.
Proof.
  unfold elapsedAt.
  destruct (Z.eq_dec (MaintenanceWindowEnd o) 0) as [Hz | Hz].
  - right. intros [H _]. contradiction.
  - destruct (Z_lt_dec (MaintenanceWindowEnd o) now) as [Hlt | Hge].
    + left. split; assumption.
    + right. intros [_ H]. contradiction.
Qed.

(** The policy always answers for a range variable, and writes to nothing
    but that variable, the clock and the executor. *)
Lemma updateMaintenanceWindow_frame env execID v strategySpec w :
  (v < length (rangeVars (memory w)))%nat ->
  exists r w',
    updateMaintenanceWindow env execID (RangeVar v) strategySpec w = Return r w' /\
    strategy w' = strategy w /\
    slices (memory w') = slices (memory w) /\
    length (rangeVars (memory w')) = length (rangeVars (memory w)) /\
    goroutines w' = goroutines w /\
    uuidReads w' = uuidReads w.
Proof.
  intros Hv.
  destruct (lookup_lt_is_Some_2 _ _ Hv) as [o Ho].
  assert (Hload : load (memory w) (RangeVar v) = Some o) by exact Ho.
  destruct (Schedule strategySpec) eqn:Hs.
  - rewrite (updateMaintenanceWindow_Immediate env execID _ strategySpec w o Hload Hs).
    eexists _, _. repeat split.
  - destruct (elapsedAt_dec o (time_Now env (clockReads w))) as [Hel | Hne].
    + pose proof (updateMaintenanceWindow_elapsed env execID _ strategySpec w o
                    Hload Hs Hel) as Hrun.
      cbv zeta in Hrun. rewrite Hrun.
      destruct (executor_Reschedule env (calls w) (ID o) _ _);
        eexists _, _; (split; [reflexivity |]); simpl;
        repeat split; apply length_insert.
    + pose proof (updateMaintenanceWindow_not_elapsed env execID _ strategySpec w o
                    Hload Hs Hne) as Hrun.
      cbv zeta in Hrun. rewrite Hrun.
      eexists _, _. repeat split.
Qed.

Lemma loopFrame_refl execID w q :
  dq (strategy w) !! execID = Some q -> loopFrame execID 0 w w.
Proof.
  intros Hq. repeat split; [lia |].
  exists q, q. repeat split; [assumption | assumption | lia].
Qed.

Lemma loopFrame_trans execID j k w1 w2 w3 :
  loopFrame execID j w1 w2 -> loopFrame execID k w2 w3 ->
  loopFrame execID (j + k) w1 w3.
Proof.
  intros (Hn1 & Hg1 & Hs1 & Hr1 & Hgo1 & Hu1 & q1 & q2 & Hq1 & Hq2 & Hl1 & Hd1)
         (Hn2 & Hg2 & Hs2 & Hr2 & Hgo2 & Hu2 & q2' & q3 & Hq2' & Hq3 & Hl2 & Hd2).
  rewrite Hq2 in Hq2'. inversion Hq2'; subst q2'.
  repeat split; try congruence; [lia |].
  exists q1, q3. repeat split; [assumption | assumption | lia | congruence].
Qed.

(** One round of the range loop. *)
Lemma rangeBody_frame env execID s strategySpec v i w operations :
  slices (memory w) !! s = Some operations ->
  (i < length operations)%nat ->
  (v < length (rangeVars (memory w)))%nat ->
  is_Some (dq (strategy w) !! execID) ->
  exists w',
    rangeBody env execID s strategySpec (RangeVar v) i w = Return tt w' /\
    loopFrame execID 1 w w'.
Proof.
  intros Hs Hi Hv [q Hq].
  destruct (lookup_lt_is_Some_2 _ _ Hi) as [elem Helem].
  unfold rangeBody, bind, deref, assign. simpl. rewrite Hs, Helem.
  set (w1 := set_memory _ w).
  assert (Hv1 : (v < length (rangeVars (memory w1)))%nat)
    by (subst w1; simpl; rewrite length_insert; exact Hv).
  destruct (updateMaintenanceWindow_frame env execID v strategySpec w1 Hv1)
    as ([duration err] & w2 & Hrun & Hst & Hsl & Hrv & Hgo & Hu).
  rewrite Hrun.
  assert (Hq2 : dq (strategy w2) !! execID = Some q)
    by (rewrite Hst; subst w1; exact Hq).
  assert (Hframe : forall w3 q3,
            strategy w3 = set_dq (<[execID := q3]> (dq (strategy w2))) (strategy w2) ->
            memory w3 = memory w2 -> goroutines w3 = goroutines w2 ->
            uuidReads w3 = uuidReads w2 ->
            length (workqueue.requested q3) = S (length (workqueue.requested q)) ->
            workqueue.shuttingDown q3 = workqueue.shuttingDown q ->
            loopFrame execID 1 w w3).
  { intros w3 q3 Hst3 Hm3 Hgo3 Hu3 Hlen Hsd.
    unfold loopFrame. rewrite Hst3, Hm3, Hgo3, Hu3, Hsl, Hrv, Hgo, Hu, Hst.
    subst w1. simpl. rewrite length_insert.
    repeat split; [lia |].
    exists q, q3. rewrite lookup_insert_eq.
    repeat split; [assumption | lia | assumption]. }
  destruct err as [e |].
  - unfold handleRescheduleErrorOperation, dq_AddAfter, logf, bind.
    rewrite Hq2. eexists. split; [reflexivity |].
    eapply Hframe; simpl; try reflexivity.
    unfold workqueue.AddAfter. simpl. rewrite length_app. simpl. lia.
  - unfold dq_AddAfter. rewrite Hq2. eexists. split; [reflexivity |].
    eapply Hframe; simpl; try reflexivity.
    unfold workqueue.AddAfter. simpl. rewrite length_app. simpl. lia.
Qed.

Lemma rangeOperations_frame env execID s strategySpec shared operations indices :
  Forall (fun i => (i < length operations)%nat) indices ->
  forall w,
    slices (memory w) !! s = Some operations ->
    sharedOk shared w ->
    is_Some (dq (strategy w) !! execID) ->
    exists w',
      rangeOperations env execID s strategySpec shared indices w = Return tt w' /\
      loopFrame execID (length indices) w w'.
Proof.
  induction 1 as [| i rest Hi _ IH]; intros w Hs Hshared Hq.
  - exists w. split; [reflexivity |].
    destruct Hq as [q Hq]. exact (loopFrame_refl execID w q Hq).
  - simpl rangeOperations. unfold bind at 1.
    assert (Hvar : exists v w0,
              (match shared with Some p => ret p | None => newRangeVar end) w
                = Return (RangeVar v) w0 /\
              (v < length (rangeVars (memory w0)))%nat /\
              slices (memory w0) = slices (memory w) /\
              strategy w0 = strategy w /\
              goroutines w0 = goroutines w /\ uuidReads w0 = uuidReads w /\
              (length (rangeVars (memory w)) <= length (rangeVars (memory w0)))%nat).
    { destruct shared as [[? ? | v] |]; simpl in Hshared.
      - contradiction.
      - exists v, w. repeat split; [exact Hshared | lia].
      - exists (length (rangeVars (memory w))), (set_memory
          {| slices := slices (memory w);
             rangeVars := rangeVars (memory w) ++ [zeroOperation] |} w).
        simpl. rewrite length_app. simpl. repeat split; lia. }
    destruct Hvar as (v & w0 & Hvar & Hv & Hsl0 & Hst0 & Hgo0 & Hu0 & Hrv0).
    rewrite Hvar. unfold bind at 1.
    assert (Hs0 : slices (memory w0) !! s = Some operations) by (rewrite Hsl0; exact Hs).
    assert (Hq0 : is_Some (dq (strategy w0) !! execID)) by (rewrite Hst0; exact Hq).
    destruct (rangeBody_frame env execID s strategySpec v i w0 operations
                Hs0 Hi Hv Hq0) as (w1 & Hbody & Hf1).
    rewrite Hbody.
    assert (Hf01 : loopFrame execID 1 w w1).
    { destruct Hf1 as (Hn & Hg & Hsl & Hr & Hgo & Hu & q & q' & Ha & Hb & Hc & Hd).
      unfold loopFrame. rewrite Hn, Hg, Hsl, Hgo, Hu, Hst0, Hsl0, Hgo0, Hu0.
      repeat split; [lia |]. exists q, q'. rewrite <- Hst0. repeat split; assumption. }
    destruct Hf01 as (Hn & Hg & Hsl & Hr & Hgo & Hu & q & q' & Ha & Hb & Hc & Hd).
    assert (Hs1 : slices (memory w1) !! s = Some operations) by (rewrite Hsl; exact Hs).
    assert (Hshared1 : sharedOk shared w1).
    { destruct shared as [[? ? | v'] |]; simpl in *; [contradiction | lia | exact I]. }
    destruct (IH w1 Hs1 Hshared1 (ex_intro _ q' Hb)) as (w2 & Hrest & Hf2).
    exists w2. split; [exact Hrest |].
    change (length (i :: rest)) with (1 + length rest)%nat.
    eapply loopFrame_trans; [| exact Hf2].
    unfold loopFrame. repeat split; try assumption.
    exists q, q'. repeat split; assumption.
Qed.

Lemma times_createWorker execID strategySpec n :
  forall w g,
    wg (strategy w) !! execID = Some g ->
    exists w',
      times n (createWorker execID strategySpec) w = Return tt w' /\
      wg (strategy w') =
        <[execID := {| sync.counter := sync.counter g + Z.of_nat n |}]>
          (wg (strategy w)) /\
      dq (strategy w') = dq (strategy w) /\
      processingNum (strategy w') = processingNum (strategy w) /\
      memory w' = memory w /\
      goroutines w' = (goroutines w ++ repeat (execID, strategySpec) n)%list.
Proof.
  induction n as [| n IH]; intros w g Hg.
  - exists w. split; [reflexivity |]. simpl.
    rewrite app_nil_r, Z.add_0_r. repeat split.
    destruct g as [c]. simpl. symmetry. apply insert_id. exact Hg.
  - simpl times. unfold bind at 1, createWorker, bind at 1, wg_Add, go_worker.
    rewrite Hg.
    match goal with
    | |- context [times n _ ?w1] =>
        destruct (IH w1 (sync.Add g 1)) as (w' & Hrun & Hwg & Hdq & Hnum & Hmem & Hgo);
          [simpl; apply lookup_insert_eq |]
    end.
    exists w'. split; [exact Hrun |].
    rewrite Hwg, Hdq, Hnum, Hmem, Hgo. simpl.
    rewrite insert_insert_eq, <- app_assoc. simpl.
    replace (sync.counter g + 1 + Z.of_nat n)
      with (sync.counter g + Z.pos (Pos.of_succ_nat n)) by lia.
    repeat split.
Qed.

(** On a list that is not empty [Execute] never panics and never returns an
    error: it returns the execution ID it drew, with the counter at the
    number of operations, one request in the new queue for each operation,
    and one goroutine for each worker asked for. *)
Lemma Execute_nonempty env operations strategySpec w :
  operations <> [] ->
  let execID := uuid_New env (uuidReads w) in
  let workers := Z.to_nat (Workers (Parallel strategySpec)) in
  exists w' q g,
    Execute env operations strategySpec w = Return (execID, None) w' /\
    processingNum (strategy w') !! execID = Some (Z.of_nat (length operations)) /\
    dq (strategy w') !! execID = Some q /\
    length (workqueue.requested q) = length operations /\
    workqueue.shuttingDown q = false /\
    wg (strategy w') !! execID = Some g /\
    sync.counter g = Z.of_nat workers /\
    goroutines w' = (goroutines w ++ repeat (execID, strategySpec) workers)%list.
Proof.
  intros Hne execID workers.
  unfold Execute.
  destruct operations as [| o0 rest] eqn:Hops; [contradiction |].
  rewrite <- Hops in *. assert (Hlen : (length operations =? 0)%nat = false)
    by (rewrite Hops; reflexivity).
  rewrite Hlen.
  unfold bind at 1, uuid_new. fold execID.
  unfold bind at 1, modifyStrategy at 1.
  unfold bind at 1, modifyStrategy at 1.
  unfold bind at 1, modifyStrategy at 1.
  unfold bind at 1, backingArray.
  unfold bind at 1.
  match goal with
  | |- context [match loopvar env with _ => _ end ?w4] => set (w0 := w4)
  end.
  assert (Hshared : exists shared w1,
            (match loopvar env with
             | PerLoop => bind newRangeVar (fun v => ret (Some v))
             | PerIteration => ret None
             end) w0 = Return shared w1 /\
            sharedOk shared w1 /\
            strategy w1 = strategy w0 /\
            slices (memory w1) = slices (memory w0) /\
            goroutines w1 = goroutines w0).
  { destruct (loopvar env).
    - eexists _, _. split; [reflexivity |]. simpl.
      rewrite length_app. simpl. repeat split. lia.
    - exists None, w0. repeat split. }
  destruct Hshared as (shared & w1 & Hsh & Hok & Hst1 & Hsl1 & Hgo1).
  rewrite Hsh.
  assert (Hslice : slices (memory w1) !! length (slices (memory w)) = Some operations).
  { rewrite Hsl1. subst w0. simpl. apply list_lookup_middle. reflexivity. }
  assert (Hq1 : dq (strategy w1) !! execID = Some workqueue.NewDelayingQueue).
  { rewrite Hst1. subst w0. simpl. apply lookup_insert_eq. }
  assert (Hidx : Forall (fun i => (i < length operations)%nat) (seq 0 (length operations))).
  { apply Forall_forall. intros i Hi. apply elem_of_seq in Hi. lia. }
  cbv beta iota. unfold bind at 1.
  match goal with
  | |- context [rangeOperations env ?id ?s ?sp ?sh ?idx ?wx] =>
      destruct (rangeOperations_frame env id s sp sh operations idx Hidx wx
                  Hslice Hok (ex_intro _ _ Hq1))
        as (w2 & Hloop & Hn2 & Hg2 & Hsl2 & Hr2 & Hgo2 & Hu2
            & q & q' & Ha & Hb & Hc & Hd)
  end.
  rewrite Hloop.
  rewrite Hq1 in Ha. inversion Ha; subst q. clear Ha.
  assert (Hwg2 : wg (strategy w2) !! execID = Some {| sync.counter := 0 |}).
  { rewrite Hg2, Hst1. subst w0. simpl. apply lookup_insert_eq. }
  destruct (times_createWorker execID strategySpec workers w2 _ Hwg2)
    as (w3 & Htimes & Hwg3 & Hdq3 & Hnum3 & Hmem3 & Hgo3).
  unfold bind at 1. fold workers. rewrite Htimes.
  exists w3, q', {| sync.counter := 0 + Z.of_nat workers |}.
  split; [reflexivity |]. split.
  { rewrite Hnum3, Hn2, Hst1. subst w0. simpl. apply lookup_insert_eq. }
  split; [rewrite Hdq3; exact Hb |].
  split; [rewrite Hc, length_seq; reflexivity |].
  split; [rewrite Hd; reflexivity |].
  split; [rewrite Hwg3; apply lookup_insert_eq |].
  split; [simpl; lia |].
  rewrite Hgo3, Hgo2, Hgo1. subst w0. reflexivity.
Qed.

(** ** The retry endpoint *)

Section RetryEndpoint.

Import handlers.

Variables UpgradeKymaOperation UpgradeClusterOperation : Type.
Variable IsNotFound : error -> bool.
Variable IsBadRequest : error -> bool.
Variable GetByID : string -> error + Orchestration.
Variable ListKyma : string -> OperationFilter -> error + list UpgradeKymaOperation.
Variable ListCluster : string -> OperationFilter -> error + list UpgradeClusterOperation.
Variable kymaUpgradeRetry :
  Retryer -> Orchestration -> list UpgradeKymaOperation -> list string ->
  Retryer * option error.
Variable clusterUpgradeRetry :
  Retryer -> Orchestration -> list UpgradeClusterOperation -> list string ->
  Retryer * option error.

Local Abbreviation handle :=
  (retryOrchestrationByID UpgradeKymaOperation UpgradeClusterOperation
     IsNotFound IsBadRequest GetByID ListKyma ListCluster
     kymaUpgradeRetry clusterUpgradeRetry).

Local Abbreviation reached :=
  (retried UpgradeKymaOperation UpgradeClusterOperation
     GetByID ListKyma ListCluster kymaUpgradeRetry clusterUpgradeRetry).

(** C8: when the retryer has run for a request and accepted no operation,
    the endpoint answers 202 (Accepted), not an error status; the body is the
    retryer's response as the retryer left it, with its empty list of
    accepted operations and its message, and the handler logs the line
    "no valid operations to retry". *)
Theorem retryOrchestrationByID_none_accepted h r o h2 :
  reached h r o h2 ->
  RetryOperations (resp h2) = [] ->
  written (handle h r) =
    {| status := 202; payload := RetryPayload (resp h2) |} /\
  log (handle h r) =
    [infof "no valid operations to retry for orchestration %s"] /\
  retryer (handle h r) = h2.
Proof.
  intros (Hct & Hparse & Hget & Hkind) Hnone.
  unfold retryOrchestrationByID. rewrite Hct. simpl.
  assert (Hparsed :
    (if hasBody r
     then match parseForm r with
          | Some err => inl err
          | None => inr (form_operation_id r)
          end
     else inr []) =
    (inr (if hasBody r then form_operation_id r else []) : error + list string)).
  { destruct (hasBody r); [rewrite Hparse by reflexivity |]; reflexivity. }
  rewrite Hparsed, Hget.
  destruct (Type_ o); cbv zeta in Hkind.
  - destruct Hkind as (allOps & Hlist & Hretry).
    rewrite Hlist, Hretry, Hnone. simpl. repeat split.
  - destruct Hkind as (allOps & Hlist & Hretry).
    rewrite Hlist, Hretry, Hnone. simpl. repeat split.
  - contradiction.
Qed.

(** When something was accepted the answer is 202 as well, with the
    handler's own message in the body. *)
Lemma retryOrchestrationByID_some_accepted h r o h2 :
  reached h r o h2 ->
  RetryOperations (resp h2) <> [] ->
  written (handle h r) =
    {| status := 202;
       payload := RetryPayload
         {| RetryOperations := RetryOperations (resp h2);
            Msg := "retry operations are queued for processing" |} |}.
Proof.
  intros (Hct & Hparse & Hget & Hkind) Hsome.
  unfold retryOrchestrationByID. rewrite Hct. simpl.
  assert (Hparsed :
    (if hasBody r
     then match parseForm r with
          | Some err => inl err
          | None => inr (form_operation_id r)
          end
     else inr []) =
    (inr (if hasBody r then form_operation_id r else []) : error + list string)).
  { destruct (hasBody r); [rewrite Hparse by reflexivity |]; reflexivity. }
  rewrite Hparsed, Hget.
  assert (Hlen : (length (RetryOperations (resp h2)) =? 0)%nat = false).
  { destruct (RetryOperations (resp h2)); [contradiction | reflexivity]. }
  destruct (Type_ o); cbv zeta in Hkind.
  - destruct Hkind as (allOps & Hlist & Hretry).
    rewrite Hlist, Hretry, Hlen. reflexivity.
  - destruct Hkind as (allOps & Hlist & Hretry).
    rewrite Hlist, Hretry, Hlen. reflexivity.
  - contradiction.
Qed.

End RetryEndpoint.

Lemma retryOrchestrationByID_none_accepted_witness :
  handlers.written
    (handlers.retryOrchestrationByID unit unit
       (fun _ => false) (fun _ => false)
       sampleGetByID (fun _ _ => inr []) (fun _ _ => inr [])
       sampleRetry sampleRetry sampleRetryer sampleRequest) =
  {| handlers.status := 202;
     handlers.payload := handlers.RetryPayload
       {| handlers.RetryOperations := [];
          handlers.Msg := "no operations can be retried" |} |}.
Proof.
  apply (retryOrchestrationByID_none_accepted unit unit
           (fun _ => false) (fun _ => false)
           sampleGetByID (fun _ _ => inr []) (fun _ _ => inr [])
           sampleRetry sampleRetry sampleRetryer sampleRequest
           (sampleGetByID_orchestration "orch-1")
           (fst (sampleRetry
                   {| handlers.queue := Some handlers.kymaQueue;
                      handlers.resp := handlers.resp sampleRetryer |}
                   (sampleGetByID_orchestration "orch-1") [] []))).
  - split; [reflexivity |]. split; [reflexivity |]. split; [reflexivity |].
    exists []. split; reflexivity.
  - reflexivity.
Defined.

(** * Part III: further properties of the code *)

(** ** Memory *)

Lemma load_store_ne m a b o : a <> b -> load (store m a o) b = load m b.
Proof.
  intros Hne. destruct a as [s i | v], b as [s' i' | v']; simpl; try reflexivity.
  - destruct (decide (s = s')) as [<- | Hs].
    + rewrite list_lookup_alter_eq.
      destruct (slices m !! s) as [l |]; simpl; [| reflexivity].
      apply list_lookup_insert_ne. congruence.
    + rewrite list_lookup_alter_ne by exact Hs. reflexivity.
  - apply list_lookup_insert_ne. congruence.
Qed.

(** ** [updateMaintenanceWindow]: what a call can do *)

Lemma nextWindow_shape p o :
  ID (nextWindow p o) = ID o /\
  MaintenanceDays (nextWindow p o) = MaintenanceDays o /\
  MaintenanceWindowEnd (nextWindow p o) - MaintenanceWindowBegin (nextWindow p o)
    = MaintenanceWindowEnd o - MaintenanceWindowBegin o.
Proof.
  unfold nextWindow. destruct (0 <? rescheduleDelay p); simpl;
    unfold Add, AddDate_days; repeat split; lia.
Qed.

(** Every call on a valid pointer returns, and either touches nothing but the
    clock, or writes the next window to [*op] and calls [Reschedule] once. *)
Lemma updateMaintenanceWindow_effects env execID op strategySpec w o :
  load (memory w) op = Some o ->
  exists duration err w',
    updateMaintenanceWindow env execID op strategySpec w
      = Return (duration, err) w' /\
    strategy w' = strategy w /\ logged w' = logged w /\
    goroutines w' = goroutines w /\ uuidReads w' = uuidReads w /\
    ((memory w' = memory w /\ calls w' = calls w /\ err = None) \/
     (let o' := nextWindow (strategy w) o in
      Schedule strategySpec = MaintenanceWindow /\
      elapsedAt o (time_Now env (clockReads w)) /\
      memory w' = store (memory w) op o' /\
      calls w' = (calls w ++ [CallReschedule (ID o) (MaintenanceWindowBegin o')
                                (MaintenanceWindowEnd o')])%list /\
      err = executor_Reschedule env (calls w) (ID o)
              (MaintenanceWindowBegin o') (MaintenanceWindowEnd o') /\
      (err <> None -> duration = 0))).
Proof.
  intros Hload.
  destruct (Schedule strategySpec) eqn:Hs.
  - rewrite (updateMaintenanceWindow_Immediate env execID op strategySpec w o Hload Hs).
    eexists _, _, _. split; [reflexivity |]. repeat split. left. repeat split.
  - destruct (elapsedAt_dec o (time_Now env (clockReads w))) as [Hel | Hne].
    + pose proof (updateMaintenanceWindow_elapsed env execID op strategySpec w o
                    Hload Hs Hel) as Hrun.
      cbv zeta in Hrun. rewrite Hrun.
      destruct (executor_Reschedule env (calls w) (ID o) _ _) as [e |] eqn:Hre;
        eexists _, _, _; (split; [reflexivity |]); simpl;
        (split; [reflexivity |]); (split; [reflexivity |]);
        (split; [reflexivity |]); (split; [reflexivity |]);
        right; cbv zeta;
        (split; [reflexivity |]); (split; [exact Hel |]);
        (split; [reflexivity |]); (split; [reflexivity |]);
        (split; [symmetry; exact Hre |]); intros H; [reflexivity | congruence].
    + pose proof (updateMaintenanceWindow_not_elapsed env execID op strategySpec w o
                    Hload Hs Hne) as Hrun.
      cbv zeta in Hrun. rewrite Hrun.
      eexists _, _, _. split; [reflexivity |]. repeat split. left. repeat split.
Qed.

(** Whatever the schedule, the clock and the executor: a call of
    [updateMaintenanceWindow] on an operation returns, leaves the operation
    its ID, its maintenance days and the length of its window, writes to no
    other place of the memory, and does not touch the strategy. *)
Theorem updateMaintenanceWindow_keeps_operation env execID op strategySpec w o :
  load (memory w) op = Some o ->
  exists r w' o',
    updateMaintenanceWindow env execID op strategySpec w = Return r w' /\
    load (memory w') op = Some o' /\
    ID o' = ID o /\
    MaintenanceDays o' = MaintenanceDays o /\
    MaintenanceWindowEnd o' - MaintenanceWindowBegin o'
      = MaintenanceWindowEnd o - MaintenanceWindowBegin o /\
    (forall other, other <> op -> load (memory w') other = load (memory w) other) /\
    strategy w' = strategy w.
Proof.
  intros Hload.
  destruct (updateMaintenanceWindow_effects env execID op strategySpec w o Hload)
    as (duration & err & w' & Hrun & Hst & _ & _ & _ & Hcase).
  destruct Hcase as [(Hmem & _ & _) | Hcase].
  - exists (duration, err), w', o. rewrite Hmem.
    split; [exact Hrun |]. split; [exact Hload |]. repeat split. exact Hst.
  - cbv zeta in Hcase. destruct Hcase as (_ & _ & Hmem & _).
    destruct (nextWindow_shape (strategy w) o) as (Hid & Hdays & Hlen).
    exists (duration, err), w', (nextWindow (strategy w) o). rewrite Hmem.
    split; [exact Hrun |].
    split; [exact (load_store_eq _ _ _ _ Hload) |].
    split; [exact Hid |]. split; [exact Hdays |]. split; [exact Hlen |].
    split; [| exact Hst].
    intros other Hne. apply load_store_ne. congruence.
Qed.

Lemma updateMaintenanceWindow_keeps_operation_witness :
  exists r w' o',
    updateMaintenanceWindow calmEnv "exec-1" (SliceElem 0 0) windowSpec
      (runningWorld 0 [mondayOp; nextMondayOp] 2) = Return r w' /\
    load (memory w') (SliceElem 0 0) = Some o' /\
    ID o' = "rt-a" /\
    MaintenanceWindowEnd o' - MaintenanceWindowBegin o' = Hour /\
    load (memory w') (SliceElem 0 1) = Some nextMondayOp.
Proof.
  destruct (updateMaintenanceWindow_keeps_operation calmEnv "exec-1"
              (SliceElem 0 0) windowSpec
              (runningWorld 0 [mondayOp; nextMondayOp] 2) mondayOp eq_refl)
    as (r & w' & o' & Hrun & Hload & Hid & _ & Hlen & Hother & _).
  exists r, w', o'. split; [exact Hrun |]. split; [exact Hload |].
  split; [exact Hid |]. split; [rewrite Hlen; reflexivity |].
  rewrite (Hother (SliceElem 0 1)) by discriminate. reflexivity.
Defined.

(** An error comes out of [updateMaintenanceWindow] only from a failed
    [Reschedule]: the schedule is [MaintenanceWindow], the window had
    elapsed, the executor answered that very error to the call with the
    shifted window, and the duration returned with it is zero. *)
Theorem updateMaintenanceWindow_error_origin
    env execID op strategySpec w o duration e w' :
  load (memory w) op = Some o ->
  updateMaintenanceWindow env execID op strategySpec w
    = Return (duration, Some e) w' ->
  Schedule strategySpec = MaintenanceWindow /\
  elapsedAt o (time_Now env (clockReads w)) /\
  executor_Reschedule env (calls w) (ID o)
    (MaintenanceWindowBegin (nextWindow (strategy w) o))
    (MaintenanceWindowEnd (nextWindow (strategy w) o)) = Some e /\
  duration = 0.
Proof.
  intros Hload Hrun.
  destruct (updateMaintenanceWindow_effects env execID op strategySpec w o Hload)
    as (d & err & w1 & Hrun1 & _ & _ & _ & _ & Hcase).
  rewrite Hrun in Hrun1. inversion Hrun1; subst d err w1.
  destruct Hcase as [(_ & _ & Hnone) | Hcase]; [discriminate |].
  cbv zeta in Hcase. destruct Hcase as (Hs & Hel & _ & _ & Herr & Hzero).
  repeat split; try assumption; try (apply Hel).
  - symmetry. exact Herr.
  - apply Hzero. discriminate.
Qed.

Lemma updateMaintenanceWindow_error_origin_witness :
  Schedule windowSpec = MaintenanceWindow /\
  elapsedAt mondayOp (time_Now (storageDownEnv PerLoop) 0) /\
  executor_Reschedule (storageDownEnv PerLoop) [] "rt-a"
    (day_2026_10_26 + 33 * Hour) (day_2026_10_26 + 34 * Hour)
    = Some (New "storage is down") /\
  (0 : Duration) = 0.
Proof.
  exact (updateMaintenanceWindow_error_origin (storageDownEnv PerLoop)
           "exec-1" (SliceElem 0 0) windowSpec (runningWorld 0 [mondayOp] 1)
           mondayOp 0 (New "storage is down")
           (rescheduledWorld (SliceElem 0 0) mondayOp
              (runningWorld 0 [mondayOp] 1))
           eq_refl eq_refl).
Defined.

(** When the window has elapsed and the executor persists the shifted one,
    the delay returned is the time until the shifted beginning: the answer
    is "due now" as soon as that beginning is not in the future, whether or
    not the shifted window has elapsed in its turn.  One call shifts the
    window once. *)
Theorem updateMaintenanceWindow_rescheduled_delay env execID op strategySpec w o :
  load (memory w) op = Some o ->
  Schedule strategySpec = MaintenanceWindow ->
  elapsedAt o (time_Now env (clockReads w)) ->
  executor_Reschedule env (calls w) (ID o)
    (MaintenanceWindowBegin (nextWindow (strategy w) o))
    (MaintenanceWindowEnd (nextWindow (strategy w) o)) = None ->
  let o' := nextWindow (strategy w) o in
  let now := time_Now env (S (clockReads w)) in
  exists delay,
    updateMaintenanceWindow env execID op strategySpec w =
      Return (delay, None)
             (set_clockReads (S (S (clockReads w))) (rescheduledWorld op o w)) /\
    delay = Sub (MaintenanceWindowBegin o') now /\
    (delay <= 0 <-> MaintenanceWindowBegin o' <= now).
Proof.
  intros Hload Hs Hel Hre o' now.
  pose proof (updateMaintenanceWindow_elapsed env execID op strategySpec w o
                Hload Hs Hel) as Hrun.
  cbv zeta in Hrun. rewrite Hre in Hrun.
  eexists. split; [exact Hrun |]. split; [reflexivity |]. apply Sub_nonpos.
Qed.

(** The window of "rt-a" elapsed six days before the clock: after one call
    it is one day later, still elapsed, and the answer is "due now". *)
Lemma updateMaintenanceWindow_rescheduled_delay_witness :
  exists delay w',
    updateMaintenanceWindow calmEnv "exec-1" (SliceElem 0 0) windowSpec
      (runningWorld 0 [mondayOp] 1) = Return (delay, None) w' /\
    delay <= 0 /\
    elapsedAt (nextWindow (strategy (runningWorld 0 [mondayOp] 1)) mondayOp)
              day_2026_11_01.
Proof.
  destruct (updateMaintenanceWindow_rescheduled_delay calmEnv "exec-1"
              (SliceElem 0 0) windowSpec (runningWorld 0 [mondayOp] 1) mondayOp
              eq_refl eq_refl elapsed_mondayOp eq_refl)
    as (delay & Hrun & Hdelay & _).
  eexists delay, _. split; [exact Hrun |]. split.
  - rewrite Hdelay. vm_compute. discriminate.
  - split; [vm_compute; discriminate | vm_compute; reflexivity].
Defined.

(** ** [processOperation]: what a call can do *)

(** Everything a call of [processOperation] does on a registered
    execution. *)
Lemma processOperation_effects env execID op w o q :
  load (memory w) op = Some o ->
  dq (strategy w) !! execID = Some q ->
  exists w' q' n',
    processOperation env execID op w = Return tt w' /\
    calls w' = (calls w ++ [CallExecute (ID o)])%list /\
    strategy w' =
      set_processingNum n' (set_dq (<[execID := q']> (dq (strategy w))) (strategy w)) /\
    (n' = processingNum (strategy w) \/
     n' = <[execID := goint.dec (default 0 (processingNum (strategy w) !! execID))]>
            (processingNum (strategy w))) /\
    workqueue.finished q' = (workqueue.finished q ++ [op])%list /\
    workqueue.shuttingDown q' = workqueue.shuttingDown q /\
    memory w' = memory w /\
    clockReads w' = clockReads w /\
    uuidReads w' = uuidReads w /\
    goroutines w' = goroutines w.
Proof.
  intros Hload Hq. run_process. rewrite Hload.
  assert (Hsame : forall p : ParallelOrchestrationStrategy,
            p = set_processingNum (processingNum p) p)
    by (intros [? ? ? ?]; reflexivity).
  destruct (executor_Execute env (calls w) (ID o)) as [when err | v] eqn:Hex;
    simpl.
  - destruct (isNil err && negb (when =? 0)) eqn:Hcond.
    + simpl. rewrite Hq. simpl. rewrite lookup_insert_eq.
      eexists _, _, _. split; [reflexivity |]. simpl.
      rewrite insert_insert_eq.
      split; [reflexivity |]. split; [apply Hsame |].
      split; [left; reflexivity |]. repeat split.
    + destruct err as [e |]; simpl; rewrite Hq;
        (eexists _, _, _; split; [reflexivity |]); simpl;
        (split; [reflexivity |]); (split; [reflexivity |]);
        (split; [right; reflexivity |]); repeat split.
  - rewrite Hq. eexists _, _, _. split; [reflexivity |]. simpl.
    split; [reflexivity |]. split; [apply Hsame |].
    split; [left; reflexivity |]. repeat split.
Qed.

(** On an execution with a registered queue, whatever the executor does
    (return a delay, return an error, finish, panic): [processOperation]
    returns, calls the executor once, with the ID of the operation, marks
    the item done once, and leaves the memory, the wait groups, the
    configured delay, and the queue and counter of every other execution as
    they were. *)
Theorem processOperation_frame env execID op w o q :
  load (memory w) op = Some o ->
  dq (strategy w) !! execID = Some q ->
  exists w' q',
    processOperation env execID op w = Return tt w' /\
    calls w' = (calls w ++ [CallExecute (ID o)])%list /\
    dq (strategy w') = <[execID := q']> (dq (strategy w)) /\
    workqueue.finished q' = (workqueue.finished q ++ [op])%list /\
    workqueue.shuttingDown q' = workqueue.shuttingDown q /\
    memory w' = memory w /\
    wg (strategy w') = wg (strategy w) /\
    rescheduleDelay (strategy w') = rescheduleDelay (strategy w) /\
    (forall other, other <> execID ->
       dq (strategy w') !! other = dq (strategy w) !! other /\
       processingNum (strategy w') !! other = processingNum (strategy w) !! other).
Proof.
  intros Hload Hq.
  destruct (processOperation_effects env execID op w o q Hload Hq)
    as (w' & q' & n' & Hrun & Hcalls & Hst & Hn & Hfin & Hdown & Hmem & _).
  exists w', q'. rewrite Hst. simpl.
  split; [exact Hrun |]. split; [exact Hcalls |]. split; [reflexivity |].
  split; [exact Hfin |]. split; [exact Hdown |]. split; [exact Hmem |].
  split; [reflexivity |]. split; [reflexivity |].
  intros other Hne. split.
  - apply lookup_insert_ne. congruence.
  - destruct Hn as [-> | ->]; [reflexivity |].
    apply lookup_insert_ne. congruence.
Qed.

Lemma processOperation_frame_witness :
  exists w',
    processOperation (answeringEnv (Panics "boom")) "exec-1" (SliceElem 0 0)
      (runningWorld 0 [anytimeOp] 1) = Return tt w' /\
    calls w' = [CallExecute "rt-0"] /\
    memory w' = memory (runningWorld 0 [anytimeOp] 1).
Proof.
  destruct (processOperation_frame (answeringEnv (Panics "boom")) "exec-1"
              (SliceElem 0 0) (runningWorld 0 [anytimeOp] 1) anytimeOp
              workqueue.NewDelayingQueue eq_refl eq_refl)
    as (w' & q' & Hrun & Hcalls & _ & _ & _ & Hmem & _).
  exists w'. split; [exact Hrun |]. split; [exact Hcalls | exact Hmem].
Defined.

(** On an execution ID with no queue registered, [processOperation] does not
    return: the call through the nil queue panics, in the body or in the
    deferred function, where no [recover] is left to stop it.  The executor
    has been called by then. *)
Theorem processOperation_unregistered_panics env execID op w o :
  load (memory w) op = Some o ->
  dq (strategy w) !! execID = None ->
  exists w',
    processOperation env execID op w = Panic nilDereference w' /\
    calls w' = (calls w ++ [CallExecute (ID o)])%list.
Proof.
  intros Hload Hq. run_process. rewrite Hload.
  destruct (executor_Execute env (calls w) (ID o)) as [when err | v] eqn:Hex;
    simpl.
  - destruct (isNil err && negb (when =? 0)) eqn:Hcond.
    + simpl. rewrite Hq. simpl. rewrite Hq.
      eexists. split; reflexivity.
    + destruct err as [e |]; simpl; rewrite Hq;
        eexists; split; reflexivity.
  - rewrite Hq. eexists. split; reflexivity.
Qed.

Lemma processOperation_unregistered_panics_witness :
  exists w',
    processOperation calmEnv "no-such-execution" (SliceElem 0 0)
      (runningWorld 0 [anytimeOp] 1) = Panic nilDereference w' /\
    calls w' = [CallExecute "rt-0"].
Proof.
  exact (processOperation_unregistered_panics calmEnv "no-such-execution"
           (SliceElem 0 0) (runningWorld 0 [anytimeOp] 1) anytimeOp
           eq_refl eq_refl).
Defined.

(** ** [Execute]: what a call leaves behind *)

Lemma executeCalls_app c1 c2 :
  executeCalls (c1 ++ c2) = (executeCalls c1 ++ executeCalls c2)%list.
Proof. apply omap_app. Qed.

Lemma loopKeeps_nil execID n0 w q :
  dq (strategy w) !! execID = Some q -> loopKeeps execID n0 [] w w.
Proof.
  intros Hq. split; [| repeat split; lia].
  exists q, q. split; [exact Hq |]. split.
  - split; [rewrite app_nil_r; reflexivity | split; reflexivity].
  - destruct w as [p m c l k u g], p as [d g' r n]. simpl in *.
    unfold set_strategy, set_dq. simpl. rewrite insert_id by exact Hq. reflexivity.
Qed.

Lemma loopKeeps_trans execID n0 a1 a2 w1 w2 w3 :
  loopKeeps execID n0 a1 w1 w2 -> loopKeeps execID n0 a2 w2 w3 ->
  loopKeeps execID n0 (a1 ++ a2) w1 w3.
Proof.
  intros ((q1 & q2 & Hq1 & (Hr1 & Hf1 & Hd1) & Hst1) & Hsl1 & Htk1 & Hlen1 & Hgo1 & Hu1 & He1)
         ((q2' & q3 & Hq2 & (Hr2 & Hf2 & Hd2) & Hst2) & Hsl2 & Htk2 & Hlen2 & Hgo2 & Hu2 & He2).
  assert (q2' = q2) as ->.
  { rewrite Hst1 in Hq2. simpl in Hq2. rewrite lookup_insert_eq in Hq2. congruence. }
  split; [| repeat split; try congruence; lia].
  exists q1, q3. split; [exact Hq1 |]. split.
  - split; [| split; congruence].
    rewrite Hr2, Hr1, app_assoc. reflexivity.
  - rewrite Hst2, Hst1. unfold set_dq. simpl. rewrite insert_insert_eq. reflexivity.
Qed.

(** One round of the loop, with the range variable at [RangeVar v]. *)
Lemma rangeBody_keeps env execID s strategySpec n0 v i w operations :
  slices (memory w) !! s = Some operations ->
  (i < length operations)%nat ->
  (n0 <= v < length (rangeVars (memory w)))%nat ->
  is_Some (dq (strategy w) !! execID) ->
  exists w' request,
    rangeBody env execID s strategySpec (RangeVar v) i w = Return tt w' /\
    requestFor s n0 i request /\
    loopKeeps execID n0 [request] w w'.
Proof.
  intros Hs Hi Hv [q Hq].
  destruct (lookup_lt_is_Some_2 _ _ Hi) as [elem Helem].
  unfold rangeBody, bind at 1, deref. simpl. rewrite Hs, Helem.
  unfold bind at 1, assign.
  set (w1 := set_memory _ w).
  assert (Hload1 : load (memory w1) (RangeVar v) = Some elem).
  { subst w1. simpl. apply list_lookup_insert_eq. lia. }
  destruct (updateMaintenanceWindow_effects env execID (RangeVar v) strategySpec
              w1 elem Hload1)
    as (duration & err & w2 & Hrun & Hst & _ & Hgo & Hu & Hcase).
  unfold bind at 1. rewrite Hrun.
  assert (Hmem2 : slices (memory w2) = slices (memory w) /\
                  take n0 (rangeVars (memory w2)) = take n0 (rangeVars (memory w)) /\
                  length (rangeVars (memory w2)) = length (rangeVars (memory w)) /\
                  executeCalls (calls w2) = executeCalls (calls w)).
  { destruct Hcase as [(Hm & Hc & _) | Hcase].
    - rewrite Hm, Hc. subst w1. simpl. rewrite take_insert_ge by lia.
      rewrite length_insert. repeat split.
    - cbv zeta in Hcase. destruct Hcase as (_ & _ & Hm & Hc & _). rewrite Hm, Hc.
      subst w1. simpl. rewrite !take_insert_ge by lia.
      rewrite !length_insert, executeCalls_app. simpl. rewrite app_nil_r.
      repeat split. }
  destruct Hmem2 as (Hsl2 & Htk2 & Hlen2 & Hex2).
  assert (Hq2 : dq (strategy w2) !! execID = Some q)
    by (rewrite Hst; subst w1; exact Hq).
  assert (Hst2 : strategy w2 = strategy w) by (rewrite Hst; subst w1; reflexivity).
  assert (Hkeep : forall w3 request,
            strategy w3 =
              set_dq (<[execID := workqueue.AddAfter q (fst request) (snd request)]>
                        (dq (strategy w2))) (strategy w2) ->
            memory w3 = memory w2 -> goroutines w3 = goroutines w2 ->
            uuidReads w3 = uuidReads w2 -> calls w3 = calls w2 ->
            loopKeeps execID n0 [request] w w3).
  { intros w3 [item d] Hst3 Hm3 Hgo3 Hu3 Hc3.
    split; [| rewrite Hm3, Hgo3, Hu3, Hc3, Hsl2, Htk2, Hlen2, Hex2, Hgo, Hu; subst w1;
              repeat split; lia].
    exists q, (workqueue.AddAfter q item d). split; [exact Hq |].
    split; [repeat split |]. rewrite Hst3, Hst2. reflexivity. }
  destruct err as [e |].
  - unfold handleRescheduleErrorOperation, dq_AddAfter, logf, bind.
    rewrite Hq2. eexists _, (RangeVar v, 24 * Hour).
    split; [reflexivity |]. split.
    + right. exists v. repeat split. lia.
    + apply Hkeep; reflexivity.
  - unfold dq_AddAfter. rewrite Hq2. eexists _, (SliceElem s i, duration).
    split; [reflexivity |]. split.
    + left. reflexivity.
    + apply Hkeep; reflexivity.
Qed.

Lemma rangeOperations_keeps env execID s strategySpec n0 shared operations indices :
  Forall (fun i => (i < length operations)%nat) indices ->
  forall w,
    slices (memory w) !! s = Some operations ->
    sharedFrom n0 shared w ->
    is_Some (dq (strategy w) !! execID) ->
    exists w' added,
      rangeOperations env execID s strategySpec shared indices w = Return tt w' /\
      Forall2 (requestFor s n0) indices added /\
      loopKeeps execID n0 added w w'.
Proof.
  induction 1 as [| i rest Hi _ IH]; intros w Hs Hshared Hq.
  - exists w, []. split; [reflexivity |]. split; [constructor |].
    destruct Hq as [q Hq]. exact (loopKeeps_nil execID n0 w q Hq).
  - simpl rangeOperations. unfold bind at 1.
    assert (Hvar : exists v w0,
              (match shared with Some p => ret p | None => newRangeVar end) w
                = Return (RangeVar v) w0 /\
              (n0 <= v < length (rangeVars (memory w0)))%nat /\
              slices (memory w0) = slices (memory w) /\
              take n0 (rangeVars (memory w0)) = take n0 (rangeVars (memory w)) /\
              strategy w0 = strategy w /\
              goroutines w0 = goroutines w /\ uuidReads w0 = uuidReads w /\
              calls w0 = calls w /\
              (length (rangeVars (memory w)) <= length (rangeVars (memory w0)))%nat).
    { destruct shared as [[? ? | v] |]; simpl in Hshared.
      - contradiction.
      - exists v, w. repeat split; lia.
      - exists (length (rangeVars (memory w))), (set_memory
          {| slices := slices (memory w);
             rangeVars := rangeVars (memory w) ++ [zeroOperation] |} w).
        simpl. rewrite length_app. simpl.
        rewrite take_app_le by lia. repeat split; lia. }
    destruct Hvar as (v & w0 & Hvar & Hv & Hsl0 & Htk0 & Hst0 & Hgo0 & Hu0 & Hc0 & Hrv0).
    rewrite Hvar. unfold bind at 1.
    assert (Hs0 : slices (memory w0) !! s = Some operations) by (rewrite Hsl0; exact Hs).
    assert (Hq0 : is_Some (dq (strategy w0) !! execID)) by (rewrite Hst0; exact Hq).
    destruct (rangeBody_keeps env execID s strategySpec n0 v i w0 operations
                Hs0 Hi Hv Hq0) as (w1 & request & Hbody & Hreq & Hk1).
    rewrite Hbody.
    assert (Hk01 : loopKeeps execID n0 [request] w w1).
    { destruct Hk1 as ((q & q' & Ha & Hb & Hc) & Hsl & Htk & Hlen & Hgo & Hu & He).
      split; [| repeat split; try congruence; lia].
      exists q, q'. rewrite <- Hst0. repeat split; try assumption; apply Hb. }
    destruct Hk01 as ((q & q' & Ha & Hb & Hc) & Hsl & Htk & Hlen & Hgo & Hu & He).
    assert (Hs1 : slices (memory w1) !! s = Some operations) by (rewrite Hsl; exact Hs).
    assert (Hshared1 : sharedFrom n0 shared w1).
    { destruct shared as [[? ? | v'] |]; simpl in *; [contradiction | lia | lia]. }
    assert (Hq1 : is_Some (dq (strategy w1) !! execID)).
    { rewrite Hc. simpl. rewrite lookup_insert_eq. eauto. }
    destruct (IH w1 Hs1 Hshared1 Hq1) as (w2 & added & Hrest & Hall & Hk2).
    exists w2, ([request] ++ added)%list. split; [exact Hrest |].
    split; [constructor; assumption |].
    eapply loopKeeps_trans; [| exact Hk2].
    split; [| repeat split; assumption].
    exists q, q'. repeat split; try assumption; apply Hb.
Qed.

Lemma times_createWorker_strategy execID strategySpec n :
  forall w g,
    wg (strategy w) !! execID = Some g ->
    exists w',
      times n (createWorker execID strategySpec) w = Return tt w' /\
      strategy w' =
        set_wg (<[execID := {| sync.counter := sync.counter g + Z.of_nat n |}]>
                  (wg (strategy w))) (strategy w) /\
      memory w' = memory w /\
      uuidReads w' = uuidReads w /\
      calls w' = calls w /\ clockReads w' = clockReads w /\
      goroutines w' = (goroutines w ++ repeat (execID, strategySpec) n)%list.
Proof.
  induction n as [| n IH]; intros w g Hg.
  - exists w. split; [reflexivity |]. simpl.
    rewrite app_nil_r, Z.add_0_r. repeat split.
    destruct g as [c]. simpl. rewrite insert_id by exact Hg.
    destruct w as [p m c' l k u gs], p as [d g' r nn]. reflexivity.
  - simpl times. unfold bind at 1, createWorker, bind at 1, wg_Add, go_worker.
    rewrite Hg.
    match goal with
    | |- context [times n _ ?w1] =>
        destruct (IH w1 (sync.Add g 1))
          as (w' & Hrun & Hst & Hmem & Hu & Hc & Hk & Hgo);
          [simpl; apply lookup_insert_eq |]
    end.
    exists w'. split; [exact Hrun |].
    rewrite Hst, Hmem, Hu, Hc, Hk, Hgo. simpl.
    unfold set_wg. simpl.
    rewrite insert_insert_eq, <- app_assoc. simpl.
    replace (sync.counter g + 1 + Z.of_nat n)
      with (sync.counter g + Z.pos (Pos.of_succ_nat n)) by lia.
    repeat split.
Qed.

(** Everything a call of [Execute] on a list that is not empty does. *)
Lemma Execute_effects env operations strategySpec w :
  operations <> [] ->
  let execID := uuid_New env (uuidReads w) in
  let workers := Z.to_nat (Workers (Parallel strategySpec)) in
  let s := length (slices (memory w)) in
  let n0 := length (rangeVars (memory w)) in
  exists w' q,
    Execute env operations strategySpec w = Return (execID, None) w' /\
    strategy w' =
      {| dq := <[execID := q]> (dq (strategy w));
         wg := <[execID := {| sync.counter := Z.of_nat workers |}]> (wg (strategy w));
         rescheduleDelay := rescheduleDelay (strategy w);
         processingNum :=
           <[execID := Z.of_nat (length operations)]> (processingNum (strategy w)) |} /\
    Forall2 (requestFor s n0) (seq 0 (length operations)) (workqueue.requested q) /\
    workqueue.finished q = [] /\
    workqueue.shuttingDown q = false /\
    slices (memory w') = (slices (memory w) ++ [operations])%list /\
    take n0 (rangeVars (memory w')) = rangeVars (memory w) /\
    uuidReads w' = S (uuidReads w) /\
    goroutines w' = (goroutines w ++ repeat (execID, strategySpec) workers)%list /\
    executeCalls (calls w') = executeCalls (calls w).
Proof.
  intros Hne execID workers s n0.
  unfold Execute.
  destruct operations as [| o0 rest] eqn:Hops; [contradiction |].
  rewrite <- Hops in *. assert (Hlen : (length operations =? 0)%nat = false)
    by (rewrite Hops; reflexivity).
  rewrite Hlen.
  unfold bind at 1, uuid_new. fold execID.
  unfold bind at 1, modifyStrategy at 1.
  unfold bind at 1, modifyStrategy at 1.
  unfold bind at 1, modifyStrategy at 1.
  unfold bind at 1, backingArray.
  unfold bind at 1.
  match goal with
  | |- context [match loopvar env with _ => _ end ?w4] => set (w0 := w4)
  end.
  assert (Hshared : exists shared w1,
            (match loopvar env with
             | PerLoop => bind newRangeVar (fun v => ret (Some v))
             | PerIteration => ret None
             end) w0 = Return shared w1 /\
            sharedFrom n0 shared w1 /\
            strategy w1 = strategy w0 /\
            slices (memory w1) = slices (memory w0) /\
            take n0 (rangeVars (memory w1)) = rangeVars (memory w) /\
            goroutines w1 = goroutines w0 /\ uuidReads w1 = uuidReads w0 /\
            calls w1 = calls w0).
  { destruct (loopvar env).
    - eexists _, _. split; [reflexivity |]. subst w0 n0. simpl.
      rewrite length_app, take_app_length. simpl. repeat split; lia.
    - exists None, w0. subst w0 n0. simpl. rewrite firstn_all.
      repeat split. lia. }
  destruct Hshared as (shared & w1 & Hsh & Hok & Hst1 & Hsl1 & Htk1 & Hgo1 & Hu1 & Hc1).
  rewrite Hsh.
  assert (Hslice : slices (memory w1) !! s = Some operations).
  { rewrite Hsl1. subst w0 s. simpl. apply list_lookup_middle. reflexivity. }
  assert (Hq1 : dq (strategy w1) !! execID = Some workqueue.NewDelayingQueue).
  { rewrite Hst1. subst w0. simpl. apply lookup_insert_eq. }
  assert (Hidx : Forall (fun i => (i < length operations)%nat) (seq 0 (length operations))).
  { apply Forall_forall. intros i Hi. apply elem_of_seq in Hi. lia. }
  cbv beta iota. unfold bind at 1.
  match goal with
  | |- context [rangeOperations env ?id ?s' ?sp ?sh ?idx ?wx] =>
      destruct (rangeOperations_keeps env id s' sp n0 sh operations idx Hidx wx
                  Hslice Hok (ex_intro _ _ Hq1))
        as (w2 & added & Hloop & Hall
            & (q & q' & Ha & (Hr & Hf & Hd) & Hst2) & Hsl2 & Htk2 & Hlen2 & Hgo2 & Hu2
            & Hex2)
  end.
  rewrite Hloop.
  rewrite Hq1 in Ha. inversion Ha; subst q. clear Ha.
  assert (Hwg2 : wg (strategy w2) !! execID = Some {| sync.counter := 0 |}).
  { rewrite Hst2, Hst1. subst w0. simpl. apply lookup_insert_eq. }
  destruct (times_createWorker_strategy execID strategySpec workers w2 _ Hwg2)
    as (w3 & Htimes & Hst3 & Hmem3 & Hu3 & Hc3 & _ & Hgo3).
  unfold bind at 1. fold workers. rewrite Htimes.
  exists w3, q'.
  split; [reflexivity |]. split.
  { rewrite Hst3, Hst2, Hst1. subst w0. unfold set_wg, set_dq. simpl.
    rewrite !insert_insert_eq. reflexivity. }
  split; [rewrite Hr; exact Hall |].
  split; [rewrite Hf; reflexivity |].
  split; [rewrite Hd; reflexivity |].
  split; [rewrite Hmem3, Hsl2, Hsl1; subst w0; reflexivity |].
  split; [rewrite Hmem3, Htk2; exact Htk1 |].
  split; [rewrite Hu3, Hu2, Hu1; subst w0; reflexivity |].
  split; [rewrite Hgo3, Hgo2, Hgo1; subst w0; reflexivity |].
  rewrite Hc3, Hex2, Hc1. subst w0. reflexivity.
Qed.

(** [Execute] works for the one execution it registers: the registries of
    every other execution ID, the configured delay, and every operation that
    was in the memory before the call (the slices and range variables of
    earlier calls) are as they were when it returns. *)
Theorem Execute_isolated env operations strategySpec w :
  operations <> [] ->
  let execID := uuid_New env (uuidReads w) in
  exists w',
    Execute env operations strategySpec w = Return (execID, None) w' /\
    rescheduleDelay (strategy w') = rescheduleDelay (strategy w) /\
    (forall other, other <> execID ->
       dq (strategy w') !! other = dq (strategy w) !! other /\
       wg (strategy w') !! other = wg (strategy w) !! other /\
       processingNum (strategy w') !! other = processingNum (strategy w) !! other) /\
    (forall a o, load (memory w) a = Some o -> load (memory w') a = Some o).
Proof.
  intros Hne execID.
  destruct (Execute_effects env operations strategySpec w Hne)
    as (w' & q & Hrun & Hst & _ & _ & _ & Hsl & Htk & _).
  exists w'. split; [exact Hrun |]. rewrite Hst. simpl.
  split; [reflexivity |]. split.
  - intros other Hother. subst execID.
    rewrite !lookup_insert_ne by congruence. repeat split.
  - intros [s i | v] o; simpl.
    + rewrite Hsl.
      destruct (slices (memory w) !! s) as [l |] eqn:Hs; [| discriminate].
      rewrite (lookup_app_l_Some _ _ _ _ Hs). trivial.
    + intros Hv. rewrite <- Htk in Hv.
      apply lookup_take_Some in Hv. apply Hv.
Qed.

Lemma Execute_isolated_witness :
  exists w',
    Execute (storageDownEnv PerLoop) [mondayOp; nextMondayOp] windowSpec
      (runningWorld 0 [anytimeOp] 1) = Return ("exec-1", None) w' /\
    load (memory w') (SliceElem 0 0) = Some anytimeOp.
Proof.
  destruct (Execute_isolated (storageDownEnv PerLoop) [mondayOp; nextMondayOp]
              windowSpec (runningWorld 0 [anytimeOp] 1) ltac:(discriminate))
    as (w' & Hrun & _ & _ & Hmem).
  exists w'. split; [exact Hrun |]. apply Hmem. reflexivity.
Defined.

(** [Execute] makes one request to the new queue for each operation, in the
    order of the list: for the operation at index [i] either its address in
    the caller's slice or, with a delay of 24 hours, the address of a range
    variable of this call.  It does not write to the caller's slice: when it
    returns, every element holds the operation as it was supplied, also one
    whose window the call has moved and passed to [Executor.Reschedule]. *)
Theorem Execute_requests env operations strategySpec w :
  operations <> [] ->
  let execID := uuid_New env (uuidReads w) in
  let s := length (slices (memory w)) in
  let n0 := length (rangeVars (memory w)) in
  exists w' q,
    Execute env operations strategySpec w = Return (execID, None) w' /\
    dq (strategy w') !! execID = Some q /\
    Forall2 (requestFor s n0) (seq 0 (length operations)) (workqueue.requested q) /\
    workqueue.finished q = [] /\
    (forall i o, operations !! i = Some o ->
                 load (memory w') (SliceElem s i) = Some o).
Proof.
  intros Hne execID s n0.
  destruct (Execute_effects env operations strategySpec w Hne)
    as (w' & q & Hrun & Hst & Hall & Hfin & _ & Hsl & _).
  exists w', q. split; [exact Hrun |]. rewrite Hst. simpl.
  split; [apply lookup_insert_eq |]. split; [exact Hall |].
  split; [exact Hfin |].
  intros i o Hi. rewrite Hsl. subst s.
  rewrite list_lookup_middle by reflexivity. exact Hi.
Qed.

(** The window of "rt-a" is moved and the executor is told, yet the element
    of the slice still holds the window supplied. *)
Lemma Execute_requests_witness :
  exists w' q,
    Execute calmEnv [mondayOp] windowSpec (freshWorld 0)
      = Return ("exec-1", None) w' /\
    dq (strategy w') !! "exec-1" = Some q /\
    length (workqueue.requested q) = 1%nat /\
    load (memory w') (SliceElem 0 0) = Some mondayOp.
Proof.
  destruct (Execute_requests calmEnv [mondayOp] windowSpec (freshWorld 0)
              ltac:(discriminate))
    as (w' & q & Hrun & Hq & Hall & _ & Hmem).
  exists w', q. split; [exact Hrun |]. split; [exact Hq |].
  split; [symmetry; exact (Forall2_length _ _ _ Hall) |].
  apply Hmem. reflexivity.
Defined.

Example Execute_reschedules_the_copy :
  exists w',
    Execute calmEnv [mondayOp] windowSpec (freshWorld 0)
      = Return ("exec-1", None) w' /\
    calls w' = [CallReschedule "rt-a" (day_2026_10_26 + 33 * Hour)
                                      (day_2026_10_26 + 34 * Hour)] /\
    load (memory w') (SliceElem 0 0) = Some mondayOp.
Proof.
  eexists. split; [vm_compute; reflexivity |]. split; reflexivity.
Qed.

(** Right after [Execute], [Wait] on the returned ID waits for the workers:
    it blocks when at least one worker was asked for.  With a number of
    workers that is zero or negative no goroutine is started and [Wait]
    returns at once, with every operation still outstanding. *)
Theorem Execute_then_Wait env operations strategySpec w :
  operations <> [] ->
  let execID := uuid_New env (uuidReads w) in
  exists w',
    Execute env operations strategySpec w = Return (execID, None) w' /\
    Wait execID w' =
      Return (if 0 <? Workers (Parallel strategySpec) then WaitBlocks
              else WaitReturns) w' /\
    (Workers (Parallel strategySpec) <= 0 ->
     goroutines w' = goroutines w /\
     processingNum (strategy w') !! execID = Some (Z.of_nat (length operations))).
Proof.
  intros Hne execID.
  destruct (Execute_effects env operations strategySpec w Hne)
    as (w' & q & Hrun & Hst & _ & _ & _ & _ & _ & _ & Hgo & _).
  exists w'. split; [exact Hrun |]. split.
  - unfold Wait, bind, getStrategy. rewrite Hst. simpl.
    rewrite lookup_insert_eq. simpl.
    destruct (Z.ltb_spec 0 (Workers (Parallel strategySpec))) as [Hpos | Hle].
    + destruct (Z.eqb_spec (Z.of_nat (Z.to_nat (Workers (Parallel strategySpec)))) 0);
        [lia | reflexivity].
    + destruct (Z.eqb_spec (Z.of_nat (Z.to_nat (Workers (Parallel strategySpec)))) 0);
        [reflexivity | lia].
  - intros Hle. rewrite Hgo, Hst. simpl.
    replace (Z.to_nat (Workers (Parallel strategySpec))) with 0%nat by lia.
    simpl. rewrite app_nil_r. split; [reflexivity | apply lookup_insert_eq].
Qed.

Lemma Execute_then_Wait_witness :
  exists w',
    Execute calmEnv [anytimeOp] immediateSpec (freshWorld 0)
      = Return ("exec-1", None) w' /\
    Wait "exec-1" w' = Return WaitBlocks w'.
Proof.
  destruct (Execute_then_Wait calmEnv [anytimeOp] immediateSpec (freshWorld 0)
              ltac:(discriminate))
    as (w' & Hrun & Hwait & _).
  exists w'. split; [exact Hrun | exact Hwait].
Defined.

(** ** The worker loop *)

Lemma scheduleOperationLoop_eq env execID strategySpec gets :
  scheduleOperationLoop env execID strategySpec gets =
  bind getStrategy (fun p =>
    if default 0 (processingNum p !! execID) <=? 0 then
      bind (dq_ShutDown execID) (fun _ => ret Exited)
    else
      bind (dq_ShuttingDown execID) (fun down =>
        if down then ret Exited
        else
          match gets with
          | [] => ret BlockedInGet
          | GotShutdown :: _ =>
              bind (logf InfoLevel "schedule delaying queue is shutdown")
                   (fun _ => ret Exited)
          | Got op :: rest =>
              bind (updateMaintenanceWindow env execID op strategySpec) (fun r =>
                let '(duration, err) := r in
                match err with
                | Some _ =>
                    bind (handleRescheduleErrorOperation execID op) (fun _ =>
                    bind (dq_Done execID op) (fun _ =>
                    scheduleOperationLoop env execID strategySpec rest))
                | None =>
                    bind (if duration <=? 0 then
                            bind (logf InfoLevel "operation is scheduled now")
                                 (fun _ => processOperation env execID op)
                          else
                            bind (logf InfoLevel "operation will be scheduled in %v")
                                 (fun _ =>
                                    bind (dq_AddAfter execID op duration)
                                         (fun _ => dq_Done execID op)))
                         (fun _ => scheduleOperationLoop env execID strategySpec rest)
                end)
          end)).
Proof. destruct gets; reflexivity. Qed.

(** The loop up to its call of [Get]: with work outstanding and a queue that
    is not shutting down, the two checks at its head pass. *)
Lemma scheduleOperationLoop_head env execID strategySpec op rest w q :
  0 < default 0 (processingNum (strategy w) !! execID) ->
  dq (strategy w) !! execID = Some q ->
  workqueue.shuttingDown q = false ->
  scheduleOperationLoop env execID strategySpec (Got op :: rest) w =
  bind (updateMaintenanceWindow env execID op strategySpec) (fun r =>
    let '(duration, err) := r in
    match err with
    | Some _ =>
        bind (handleRescheduleErrorOperation execID op) (fun _ =>
        bind (dq_Done execID op) (fun _ =>
        scheduleOperationLoop env execID strategySpec rest))
    | None =>
        bind (if duration <=? 0 then
                bind (logf InfoLevel "operation is scheduled now")
                     (fun _ => processOperation env execID op)
              else
                bind (logf InfoLevel "operation will be scheduled in %v")
                     (fun _ =>
                        bind (dq_AddAfter execID op duration)
                             (fun _ => dq_Done execID op)))
             (fun _ => scheduleOperationLoop env execID strategySpec rest)
    end) w.
Proof.
  intros Hc Hq Hdown. rewrite scheduleOperationLoop_eq.
  unfold bind at 1, getStrategy.
  destruct (Z.leb_spec (default 0 (processingNum (strategy w) !! execID)) 0);
    [lia |].
  unfold bind at 1, dq_ShuttingDown. rewrite Hq, Hdown. reflexivity.
Qed.

(** With no work outstanding the worker shuts the queue down and leaves,
    whatever [Get] would have answered. *)
Lemma scheduleOperationLoop_drained_run env execID strategySpec gets w q :
  default 0 (processingNum (strategy w) !! execID) <= 0 ->
  dq (strategy w) !! execID = Some q ->
  scheduleOperationLoop env execID strategySpec gets w =
    Return Exited
      (set_strategy
         (set_dq (<[execID := workqueue.ShutDown q]> (dq (strategy w))) (strategy w))
         w).
Proof.
  intros Hc Hq. rewrite scheduleOperationLoop_eq.
  unfold bind at 1, getStrategy.
  destruct (Z.leb_spec (default 0 (processingNum (strategy w) !! execID)) 0);
    [| lia].
  unfold bind, dq_ShutDown. rewrite Hq. reflexivity.
Qed.

(** With work outstanding but the queue shutting down, the worker leaves at
    once and changes nothing. *)
Lemma scheduleOperationLoop_cancelled_run env execID strategySpec gets w q :
  0 < default 0 (processingNum (strategy w) !! execID) ->
  dq (strategy w) !! execID = Some q ->
  workqueue.shuttingDown q = true ->
  scheduleOperationLoop env execID strategySpec gets w = Return Exited w.
Proof.
  intros Hc Hq Hdown. rewrite scheduleOperationLoop_eq.
  unfold bind at 1, getStrategy.
  destruct (Z.leb_spec (default 0 (processingNum (strategy w) !! execID)) 0);
    [lia |].
  unfold bind, dq_ShuttingDown. rewrite Hq, Hdown. reflexivity.
Qed.

(** For an execution ID with no queue registered the worker panics at the
    head of its loop, whatever the counter says. *)
Theorem scheduleOperationLoop_unregistered env execID strategySpec gets w :
  dq (strategy w) !! execID = None ->
  scheduleOperationLoop env execID strategySpec gets w = Panic nilDereference w.
Proof.
  intros Hq. rewrite scheduleOperationLoop_eq.
  unfold bind at 1, getStrategy.
  destruct (default 0 (processingNum (strategy w) !! execID) <=? 0).
  - unfold bind, dq_ShutDown. rewrite Hq. reflexivity.
  - unfold bind, dq_ShuttingDown. rewrite Hq. reflexivity.
Qed.

Lemma scheduleOperationLoop_unregistered_witness :
  scheduleOperationLoop calmEnv "no-such-execution" immediateSpec []
    (runningWorld 0 [anytimeOp] 1)
  = Panic nilDereference (runningWorld 0 [anytimeOp] 1).
Proof.
  apply scheduleOperationLoop_unregistered. reflexivity.
Defined.


Lemma ptr_eq_or_ne (a b : ptr) : a = b \/ a <> b.
Proof.
  destruct a as [s i | v], b as [s' i' | v'];
    try (right; discriminate).
  - destruct (decide (s = s')) as [-> | Hs]; [| right; congruence].
    destruct (decide (i = i')) as [-> | Hi]; [left; reflexivity | right; congruence].
  - destruct (decide (v = v')) as [-> | Hv]; [left; reflexivity | right; congruence].
Qed.

Lemma load_store_is_Some m a o b :
  is_Some (load m a) -> is_Some (load m b) -> is_Some (load (store m a o) b).
Proof.
  intros [oa Ha] Hb. destruct (ptr_eq_or_ne a b) as [<- | Hne].
  - rewrite (load_store_eq _ _ _ _ Ha). eauto.
  - rewrite load_store_ne by exact Hne. exact Hb.
Qed.

Lemma workerKeeps_refl execID w : workerKeeps execID w w.
Proof. unfold workerKeeps. cbv zeta. repeat split; auto; lia. Qed.

Lemma workerKeeps_trans execID w1 w2 w3 :
  workerKeeps execID w1 w2 -> workerKeeps execID w2 w3 ->
  workerKeeps execID w1 w3.
Proof.
  unfold workerKeeps. cbv zeta.
  intros (A1 & A2 & A3 & A4 & A5 & A6 & A7 & A8 & A9 & A10 & A11 & A12)
         (B1 & B2 & B3 & B4 & B5 & B6 & B7 & B8 & B9 & B10 & B11 & B12).
  split; [lia |]. split; [lia |]. split; [lia |]. split; [lia |].
  split; [lia |]. split; [congruence |]. split; [congruence |].
  split.
  { intros other Hother. destruct (A8 other Hother), (B8 other Hother).
    split; congruence. }
  split; [auto |]. split; [auto |]. split; congruence.
Qed.

(** A step that only adds to the log, the queue of [execID], the clock and
    the [Reschedule] calls, and writes valid pointers. *)
Lemma workerKeeps_quiet execID w w' :
  processingNum (strategy w') = processingNum (strategy w) ->
  executeCalls (calls w') = executeCalls (calls w) ->
  wg (strategy w') = wg (strategy w) ->
  rescheduleDelay (strategy w') = rescheduleDelay (strategy w) ->
  (forall other, other <> execID ->
     dq (strategy w') !! other = dq (strategy w) !! other) ->
  (is_Some (dq (strategy w) !! execID) -> is_Some (dq (strategy w') !! execID)) ->
  (forall a, is_Some (load (memory w) a) -> is_Some (load (memory w') a)) ->
  goroutines w' = goroutines w ->
  uuidReads w' = uuidReads w ->
  workerKeeps execID w w'.
Proof.
  intros Hn He Hwg Hr Hdq Hq Hm Hgo Hu. unfold workerKeeps. cbv zeta.
  rewrite Hn, He. repeat split; auto; try lia.
Qed.

(** The policy, as the worker sees it. *)
Lemma updateMaintenanceWindow_workerKeeps env execID op strategySpec w o :
  load (memory w) op = Some o ->
  exists duration err w1 o1,
    updateMaintenanceWindow env execID op strategySpec w
      = Return (duration, err) w1 /\
    strategy w1 = strategy w /\
    load (memory w1) op = Some o1 /\ ID o1 = ID o /\
    executeCalls (calls w1) = executeCalls (calls w) /\
    workerKeeps execID w w1.
Proof.
  intros Hload.
  destruct (updateMaintenanceWindow_effects env execID op strategySpec w o Hload)
    as (duration & err & w1 & Hrun & Hst & _ & Hgo & Hu & Hcase).
  assert (Hfacts : exists o1,
            load (memory w1) op = Some o1 /\ ID o1 = ID o /\
            executeCalls (calls w1) = executeCalls (calls w) /\
            (forall a, is_Some (load (memory w) a) -> is_Some (load (memory w1) a))).
  { destruct Hcase as [(Hm & Hc & _) | Hcase].
    - exists o. rewrite Hm, Hc. repeat split; auto.
    - cbv zeta in Hcase. destruct Hcase as (_ & _ & Hm & Hc & _).
      exists (nextWindow (strategy w) o). rewrite Hm, Hc.
      split; [exact (load_store_eq _ _ _ _ Hload) |].
      split; [apply nextWindow_shape |].
      split; [rewrite executeCalls_app; simpl; apply app_nil_r |].
      intros a Ha. apply load_store_is_Some; [eauto | exact Ha]. }
  destruct Hfacts as (o1 & Hl1 & Hid & Hex & Hvalid).
  exists duration, err, w1, o1.
  split; [exact Hrun |]. split; [exact Hst |]. split; [exact Hl1 |].
  split; [exact Hid |]. split; [exact Hex |].
  apply workerKeeps_quiet; rewrite ?Hst; auto.
Qed.

(** One turn of the loop on an item that is not to be executed now: the
    policy failed, or the window has not begun. *)
Lemma scheduleOperationLoop_requeue_step env execID strategySpec op rest w q o
    duration err w1 :
  0 < default 0 (processingNum (strategy w) !! execID) ->
  dq (strategy w) !! execID = Some q ->
  workqueue.shuttingDown q = false ->
  load (memory w) op = Some o ->
  updateMaintenanceWindow env execID op strategySpec w
    = Return (duration, err) w1 ->
  err <> None \/ 0 < duration ->
  let delay := match err with Some _ => 24 * Hour | None => duration end in
  exists w2,
    scheduleOperationLoop env execID strategySpec (Got op :: rest) w =
      scheduleOperationLoop env execID strategySpec rest w2 /\
    strategy w2 =
      set_dq (<[execID := workqueue.Done (workqueue.AddAfter q op delay) op]>
                (dq (strategy w))) (strategy w) /\
    memory w2 = memory w1 /\
    calls w2 = calls w1 /\
    goroutines w2 = goroutines w1 /\ uuidReads w2 = uuidReads w1.
Proof.
  intros Hc Hq Hdown Hload Hrun Hcase delay.
  destruct (updateMaintenanceWindow_effects env execID op strategySpec w o Hload)
    as (d' & err' & w1' & Hrun' & Hst & _).
  rewrite Hrun in Hrun'. inversion Hrun'; subst d' err' w1'. clear Hrun'.
  rewrite (scheduleOperationLoop_head env execID strategySpec op rest w q Hc Hq Hdown).
  unfold bind at 1. rewrite Hrun.
  assert (Hq1 : dq (strategy w1) !! execID = Some q) by (rewrite Hst; exact Hq).
  destruct err as [e |].
  - unfold handleRescheduleErrorOperation, bind at 1, dq_AddAfter. rewrite Hq1.
    unfold bind at 1, dq_Done. simpl. rewrite lookup_insert_eq.
    eexists. split; [reflexivity |]. simpl. rewrite Hst.
    unfold set_dq. simpl. rewrite insert_insert_eq. repeat split.
  - destruct Hcase as [H | Hpos]; [congruence |].
    destruct (Z.leb_spec duration 0); [lia |].
    unfold bind at 1, bind at 1, logf. unfold bind at 1, dq_AddAfter. simpl.
    rewrite Hq1. unfold dq_Done. simpl. rewrite lookup_insert_eq.
    eexists. split; [reflexivity |]. simpl. rewrite Hst.
    unfold set_dq. simpl. rewrite insert_insert_eq. repeat split.
Qed.

(** One turn of the loop on an item that is due: it goes to
    [processOperation]. *)
Lemma scheduleOperationLoop_due_step env execID strategySpec op rest w q o
    duration w1 :
  0 < default 0 (processingNum (strategy w) !! execID) ->
  dq (strategy w) !! execID = Some q ->
  workqueue.shuttingDown q = false ->
  load (memory w) op = Some o ->
  updateMaintenanceWindow env execID op strategySpec w
    = Return (duration, None) w1 ->
  duration <= 0 ->
  scheduleOperationLoop env execID strategySpec (Got op :: rest) w =
    bind (processOperation env execID op)
         (fun _ => scheduleOperationLoop env execID strategySpec rest)
         (set_logged
            (logged w1 ++ [{| level := InfoLevel;
                              message := "operation is scheduled now" |}]) w1).
Proof.
  intros Hc Hq Hdown Hload Hrun Hdue.
  rewrite (scheduleOperationLoop_head env execID strategySpec op rest w q Hc Hq Hdown).
  unfold bind at 1. rewrite Hrun.
  destruct (Z.leb_spec duration 0); [| lia].
  unfold bind at 1, bind at 1, logf. reflexivity.
Qed.

(** An operation the worker takes from the queue is handed to the executor
    only when the policy says it is due.  When the policy fails, or answers
    a positive delay, the worker puts the operation back (after 24 hours,
    or after that delay), marks the item done and goes on with its loop:
    [Executor.Execute] is not called and the counter stays. *)
Theorem scheduleOperationLoop_requeues env execID strategySpec op rest w q o
    duration err w1 :
  0 < default 0 (processingNum (strategy w) !! execID) ->
  dq (strategy w) !! execID = Some q ->
  workqueue.shuttingDown q = false ->
  load (memory w) op = Some o ->
  updateMaintenanceWindow env execID op strategySpec w
    = Return (duration, err) w1 ->
  err <> None \/ 0 < duration ->
  let delay := match err with Some _ => 24 * Hour | None => duration end in
  exists w2,
    scheduleOperationLoop env execID strategySpec (Got op :: rest) w =
      scheduleOperationLoop env execID strategySpec rest w2 /\
    dq (strategy w2) !! execID =
      Some (workqueue.Done (workqueue.AddAfter q op delay) op) /\
    processingNum (strategy w2) = processingNum (strategy w) /\
    executeCalls (calls w2) = executeCalls (calls w).
Proof.
  intros Hc Hq Hdown Hload Hrun Hcase delay.
  destruct (scheduleOperationLoop_requeue_step env execID strategySpec op rest
              w q o duration err w1 Hc Hq Hdown Hload Hrun Hcase)
    as (w2 & Hloop & Hst & _ & Hcalls & _).
  destruct (updateMaintenanceWindow_workerKeeps env execID op strategySpec w o Hload)
    as (d' & err' & w1' & o1 & Hrun' & _ & _ & _ & Hex & _).
  rewrite Hrun in Hrun'. inversion Hrun'; subst d' err' w1'.
  exists w2. split; [exact Hloop |]. rewrite Hst, Hcalls. simpl.
  split; [apply lookup_insert_eq |]. split; [reflexivity | exact Hex].
Qed.

(** The window of "rt-b" begins in 33 hours: the worker puts it back for 33
    hours; the executor has not been called. *)
Lemma scheduleOperationLoop_requeues_witness :
  exists w2,
    scheduleOperationLoop calmEnv "exec-1" windowSpec [Got (SliceElem 0 0)]
      (runningWorld 0 [nextMondayOp] 1)
    = scheduleOperationLoop calmEnv "exec-1" windowSpec [] w2 /\
    workqueue.requested <$> (dq (strategy w2) !! "exec-1")
      = Some [(SliceElem 0 0, 33 * Hour)] /\
    executeCalls (calls w2) = [].
Proof.
  destruct (scheduleOperationLoop_requeues calmEnv "exec-1" windowSpec
              (SliceElem 0 0) [] (runningWorld 0 [nextMondayOp] 1)
              workqueue.NewDelayingQueue nextMondayOp (33 * Hour) None
              (set_clockReads 2 (runningWorld 0 [nextMondayOp] 1))
              ltac:(vm_compute; reflexivity) eq_refl eq_refl eq_refl eq_refl
              ltac:(right; vm_compute; reflexivity))
    as (w2 & Hloop & Hq & Hnum & Hcalls).
  exists w2. split; [exact Hloop |]. split.
  - rewrite Hq. reflexivity.
  - rewrite Hcalls. reflexivity.
Defined.

Lemma processOperation_workerKeeps env execID op w o q :
  load (memory w) op = Some o ->
  dq (strategy w) !! execID = Some q ->
  0 < default 0 (processingNum (strategy w) !! execID) <= goint.max ->
  exists w' q',
    processOperation env execID op w = Return tt w' /\
    dq (strategy w') !! execID = Some q' /\
    workqueue.shuttingDown q' = workqueue.shuttingDown q /\
    memory w' = memory w /\
    executeCalls (calls w') = (executeCalls (calls w) ++ [ID o])%list /\
    workerKeeps execID w w'.
Proof.
  intros Hload Hq Hc.
  destruct (processOperation_effects env execID op w o q Hload Hq)
    as (w' & q' & n' & Hrun & Hcalls & Hst & Hn & _ & Hdown & Hmem & _ & Hu & Hgo).
  exists w', q'. split; [exact Hrun |].
  split; [rewrite Hst; simpl; apply lookup_insert_eq |].
  split; [exact Hdown |]. split; [exact Hmem |].
  assert (Hex : executeCalls (calls w') = (executeCalls (calls w) ++ [ID o])%list)
    by (rewrite Hcalls, executeCalls_app; reflexivity).
  split; [exact Hex |].
  unfold workerKeeps. cbv zeta. rewrite Hex, length_app, Hst, Hmem. simpl.
  set (c := default 0 (processingNum (strategy w) !! execID)) in *.
  assert (Hc' : default 0 (n' !! execID) = c \/ default 0 (n' !! execID) = c - 1).
  { destruct Hn as [-> | ->]; [left; reflexivity |].
    right. rewrite lookup_insert_eq. simpl. apply goint_dec_pred.
    unfold goint.min. lia. }
  split; [lia |]. split; [lia |]. split; [lia |]. split; [lia |].
  split; [lia |]. split; [reflexivity |]. split; [reflexivity |].
  split.
  { intros other Hother. split.
    - apply lookup_insert_ne. congruence.
    - destruct Hn as [-> | ->]; [reflexivity |].
      apply lookup_insert_ne. congruence. }
  split; [intros _; rewrite lookup_insert_eq; eauto |].
  split; [auto |]. split; assumption.
Qed.

(** Every run of the loop over answers of [Get] that point to operations. *)
Lemma scheduleOperationLoop_run env execID strategySpec gets :
  forall w,
    is_Some (dq (strategy w) !! execID) ->
    getsValid (memory w) gets ->
    default 0 (processingNum (strategy w) !! execID) <= goint.max ->
    exists exit w',
      scheduleOperationLoop env execID strategySpec gets w = Return exit w' /\
      workerKeeps execID w w' /\
      (length (executeCalls (calls w'))
         <= length (executeCalls (calls w)) + length gets)%nat /\
      (exit = BlockedInGet ->
       0 < default 0 (processingNum (strategy w') !! execID)).
Proof.
  induction gets as [| g rest IH]; intros w [q Hq] Hvalid Hmax.
  - destruct (Z.leb_spec (default 0 (processingNum (strategy w) !! execID)) 0)
      as [Hc | Hc].
    + rewrite (scheduleOperationLoop_drained_run env execID strategySpec [] w q Hc Hq).
      eexists _, _. split; [reflexivity |]. split.
      * apply workerKeeps_quiet; simpl; auto.
        -- intros other Hother. apply lookup_insert_ne. congruence.
        -- intros _. rewrite lookup_insert_eq. eauto.
      * split; [simpl; lia | discriminate].
    + rewrite scheduleOperationLoop_eq. unfold bind at 1, getStrategy.
      destruct (Z.leb_spec (default 0 (processingNum (strategy w) !! execID)) 0);
        [lia |].
      unfold bind, dq_ShuttingDown. rewrite Hq.
      destruct (workqueue.shuttingDown q);
        eexists _, _; (split; [reflexivity |]);
        (split; [apply workerKeeps_refl |]); (split; [lia |]);
        intros; (discriminate || assumption).
  - destruct (Z.leb_spec (default 0 (processingNum (strategy w) !! execID)) 0)
      as [Hc | Hc].
    + rewrite (scheduleOperationLoop_drained_run env execID strategySpec _ w q Hc Hq).
      eexists _, _. split; [reflexivity |]. split.
      * apply workerKeeps_quiet; simpl; auto.
        -- intros other Hother. apply lookup_insert_ne. congruence.
        -- intros _. rewrite lookup_insert_eq. eauto.
      * split; [simpl; lia | discriminate].
    + destruct (workqueue.shuttingDown q) eqn:Hdown.
      * rewrite (scheduleOperationLoop_cancelled_run env execID strategySpec _ w q
                   Hc Hq Hdown).
        eexists _, _. split; [reflexivity |].
        split; [apply workerKeeps_refl |]. split; [lia | discriminate].
      * destruct g as [op |].
        -- unfold getsValid in Hvalid. apply Forall_cons in Hvalid.
           destruct Hvalid as [[o Hload] Hrest].
           destruct (updateMaintenanceWindow_workerKeeps env execID op
                       strategySpec w o Hload)
             as (duration & err & w1 & o1 & Hrun & Hst1 & Hl1 & Hid & Hex1 & Hk1).
           assert (Hvalid1 : forall m', (forall a, is_Some (load (memory w) a) ->
                                                   is_Some (load m' a)) ->
                                        getsValid m' rest).
           { intros m' Hm'. unfold getsValid in *.
             eapply Forall_impl; [exact Hrest |].
             intros [a |]; simpl; auto. }
           destruct (classic_case err (if duration <=? 0 then 0 else 1))
             as [[-> Hd] | Hd].
           ++ (* not due *)
              destruct (Z.leb_spec duration 0) as [Hle | Hpos]; [| clear Hd].
              ** contradiction.
              ** destruct (scheduleOperationLoop_requeue_step env execID
                             strategySpec op rest w q o duration None w1
                             Hc Hq Hdown Hload Hrun (or_intror Hpos))
                   as (w2 & Hloop & Hst2 & Hm2 & Hc2 & Hgo2 & Hu2).
                 rewrite Hloop.
                 assert (Hk12 : workerKeeps execID w1 w2).
                 { apply workerKeeps_quiet; rewrite ?Hst2, ?Hm2, ?Hc2, ?Hst1;
                     simpl; auto.
                   - intros other Hother. apply lookup_insert_ne. congruence.
                   - intros _. rewrite lookup_insert_eq. eauto. }
                 pose proof (workerKeeps_trans _ _ _ _ Hk1 Hk12) as Hk02.
                 destruct (IH w2) as (exit & w' & Hrest' & Hk & Hlen & Hblocked).
                 { rewrite Hst2. simpl. rewrite lookup_insert_eq. eauto. }
                 { apply Hvalid1. intros a Ha. rewrite Hm2. apply Hk1. exact Ha. }
                 { rewrite Hst2. exact Hmax. }
                 exists exit, w'. split; [exact Hrest' |].
                 split; [exact (workerKeeps_trans _ _ _ _ Hk02 Hk) |].
                 split; [| exact Hblocked].
                 rewrite Hc2, Hex1 in Hlen. cbn [length]. lia.
           ++ destruct err as [e |].
              ** assert (Hsome : Some e <> (None : option error)) by discriminate.
                 destruct (scheduleOperationLoop_requeue_step env execID
                             strategySpec op rest w q o duration (Some e) w1
                             Hc Hq Hdown Hload Hrun (or_introl Hsome))
                   as (w2 & Hloop & Hst2 & Hm2 & Hc2 & Hgo2 & Hu2).
                 rewrite Hloop.
                 assert (Hk12 : workerKeeps execID w1 w2).
                 { apply workerKeeps_quiet; rewrite ?Hst2, ?Hm2, ?Hc2, ?Hst1;
                     simpl; auto.
                   - intros other Hother. apply lookup_insert_ne. congruence.
                   - intros _. rewrite lookup_insert_eq. eauto. }
                 pose proof (workerKeeps_trans _ _ _ _ Hk1 Hk12) as Hk02.
                 destruct (IH w2) as (exit & w' & Hrest' & Hk & Hlen & Hblocked).
                 { rewrite Hst2. simpl. rewrite lookup_insert_eq. eauto. }
                 { apply Hvalid1. intros a Ha. rewrite Hm2. apply Hk1. exact Ha. }
                 { rewrite Hst2. exact Hmax. }
                 exists exit, w'. split; [exact Hrest' |].
                 split; [exact (workerKeeps_trans _ _ _ _ Hk02 Hk) |].
                 split; [| exact Hblocked].
                 rewrite Hc2, Hex1 in Hlen. cbn [length]. lia.
              ** (* due *)
                 destruct Hd as [Hd | Hd]; [exfalso; apply Hd; reflexivity |].
                 assert (Hdue : duration <= 0)
                   by (destruct (Z.leb_spec duration 0); [assumption | discriminate]).
                 rewrite (scheduleOperationLoop_due_step env execID strategySpec
                            op rest w q o duration w1 Hc Hq Hdown Hload Hrun Hdue).
                 set (w1' := set_logged _ w1).
                 assert (Hk11 : workerKeeps execID w1 w1')
                   by (apply workerKeeps_quiet; subst w1'; simpl; auto).
                 assert (Hq1 : dq (strategy w1') !! execID = Some q)
                   by (subst w1'; simpl; rewrite Hst1; exact Hq).
                 assert (Hc1 : 0 < default 0 (processingNum (strategy w1') !! execID)
                               <= goint.max).
                 { subst w1'. unfold set_logged. cbn [strategy].
                   rewrite Hst1. split; assumption. }
                 destruct (processOperation_workerKeeps env execID op w1' o1 q
                             Hl1 Hq1 Hc1)
                   as (w2 & q2 & Hproc & Hq2 & _ & Hm2 & Hex2 & Hk12).
                 unfold bind at 1. rewrite Hproc.
                 pose proof (workerKeeps_trans _ _ _ _
                               (workerKeeps_trans _ _ _ _ Hk1 Hk11) Hk12) as Hk02.
                 destruct (IH w2) as (exit & w' & Hrest' & Hk & Hlen & Hblocked).
                 { eauto. }
                 { apply Hvalid1. intros a Ha. apply Hk02. exact Ha. }
                 { destruct Hk02 as (Hle & _). lia. }
                 exists exit, w'. split; [exact Hrest' |].
                 split; [exact (workerKeeps_trans _ _ _ _ Hk02 Hk) |].
                 split; [| exact Hblocked].
                 rewrite Hex2, length_app in Hlen. subst w1'.
                 unfold set_logged in Hlen. cbn [calls length] in Hlen.
                 rewrite Hex1 in Hlen. cbn [length]. lia.
        -- rewrite scheduleOperationLoop_eq. unfold bind at 1, getStrategy.
           destruct (Z.leb_spec (default 0 (processingNum (strategy w) !! execID)) 0);
             [lia |].
           unfold bind, dq_ShuttingDown, logf. rewrite Hq, Hdown.
           eexists _, _. split; [reflexivity |].
           split; [apply workerKeeps_quiet; simpl; auto |].
           split; [simpl; lia | discriminate].
Qed.

(** Over any run of the worker loop on a registered execution, whatever the
    executor and the clock do: the outstanding counter never goes up and
    never goes below zero, every decrement is paid for by a call of
    [Executor.Execute], at most one such call is made for each item taken
    from the queue, and the wait groups and the other executions are left
    alone.  A run that ends waiting in [Get] has work outstanding. *)
Theorem scheduleOperationLoop_accounting env execID strategySpec gets w :
  is_Some (dq (strategy w) !! execID) ->
  getsValid (memory w) gets ->
  0 <= default 0 (processingNum (strategy w) !! execID) <= goint.max ->
  exists exit w',
    scheduleOperationLoop env execID strategySpec gets w = Return exit w' /\
    let c := default 0 (processingNum (strategy w) !! execID) in
    let c' := default 0 (processingNum (strategy w') !! execID) in
    let executed :=
      (length (executeCalls (calls w')) - length (executeCalls (calls w)))%nat in
    0 <= c' <= c /\
    c - c' <= Z.of_nat executed /\
    (executed <= length gets)%nat /\
    wg (strategy w') = wg (strategy w) /\
    (forall other, other <> execID ->
       dq (strategy w') !! other = dq (strategy w) !! other /\
       processingNum (strategy w') !! other = processingNum (strategy w) !! other) /\
    (exit = BlockedInGet -> 0 < c').
Proof.
  intros Hq Hvalid [Hlo Hhi].
  destruct (scheduleOperationLoop_run env execID strategySpec gets w Hq Hvalid Hhi)
    as (exit & w' & Hrun & Hk & Hlen & Hblocked).
  exists exit, w'. split; [exact Hrun |]. cbv zeta.
  unfold workerKeeps in Hk. cbv zeta in Hk.
  destruct Hk as (K1 & K2 & K3 & K4 & K5 & K6 & _ & K8 & _).
  split; [lia |]. split; [lia |]. split; [lia |].
  split; [exact K6 |]. split; [exact K8 | exact Hblocked].
Qed.

Lemma scheduleOperationLoop_accounting_witness :
  exists exit w',
    scheduleOperationLoop calmEnv "exec-1" immediateSpec [Got (SliceElem 0 0)]
      (runningWorld 0 [anytimeOp] 1) = Return exit w' /\
    0 <= default 0 (processingNum (strategy w') !! "exec-1") <= 1.
Proof.
  destruct (scheduleOperationLoop_accounting calmEnv "exec-1" immediateSpec
              [Got (SliceElem 0 0)] (runningWorld 0 [anytimeOp] 1))
    as (exit & w' & Hrun & Hc & _).
  - eexists. reflexivity.
  - repeat constructor. eexists. reflexivity.
  - split; vm_compute; discriminate.
  - exists exit, w'. split; [exact Hrun | exact Hc].
Defined.

(** *** [Execute] under [Immediate] *)

(** [Execute] up to its range loop. *)
Lemma Execute_unfold env operations strategySpec w :
  operations <> [] ->
  let execID := uuid_New env (uuidReads w) in
  let workers := Z.to_nat (Workers (Parallel strategySpec)) in
  let s := length (slices (memory w)) in
  let n0 := length (rangeVars (memory w)) in
  exists shared w1,
    Execute env operations strategySpec w =
      bind (rangeOperations env execID s strategySpec shared
              (seq 0 (length operations)))
           (fun _ => bind (times workers (createWorker execID strategySpec))
                          (fun _ => ret (execID, None))) w1 /\
    sharedFrom n0 shared w1 /\
    dq (strategy w1) !! execID = Some workqueue.NewDelayingQueue /\
    wg (strategy w1) !! execID = Some {| sync.counter := 0 |} /\
    processingNum (strategy w1) !! execID = Some (Z.of_nat (length operations)) /\
    slices (memory w1) = (slices (memory w) ++ [operations])%list /\
    calls w1 = calls w /\ clockReads w1 = clockReads w /\ logged w1 = logged w.
Proof.
  intros Hne execID workers s n0.
  unfold Execute.
  destruct operations as [| o0 rest] eqn:Hops; [contradiction |].
  rewrite <- Hops in *. assert (Hlen : (length operations =? 0)%nat = false)
    by (rewrite Hops; reflexivity).
  rewrite Hlen.
  unfold bind at 1, uuid_new. fold execID.
  unfold bind at 1, modifyStrategy at 1.
  unfold bind at 1, modifyStrategy at 1.
  unfold bind at 1, modifyStrategy at 1.
  unfold bind at 1, backingArray.
  unfold bind at 1.
  match goal with
  | |- context [match loopvar env with _ => _ end ?w4] => set (w0 := w4)
  end.
  destruct (loopvar env).
  - unfold bind at 1, newRangeVar, ret at 1. cbv beta iota.
    eexists _, _. split; [reflexivity |]. subst w0 n0. simpl.
    rewrite length_app. simpl. rewrite !lookup_insert_eq.
    split; [lia |]. repeat split.
  - unfold ret at 1. cbv beta iota.
    eexists _, _. split; [reflexivity |]. subst w0 n0. simpl.
    rewrite !lookup_insert_eq. split; [lia |]. repeat split.
Qed.

(** The range loop when the schedule is [Immediate]. *)
Lemma rangeOperations_Immediate env execID s strategySpec n0 shared operations indices :
  Schedule strategySpec = Immediate ->
  Forall (fun i => (i < length operations)%nat) indices ->
  forall w q,
    slices (memory w) !! s = Some operations ->
    sharedFrom n0 shared w ->
    dq (strategy w) !! execID = Some q ->
    exists w' q',
      rangeOperations env execID s strategySpec shared indices w = Return tt w' /\
      dq (strategy w') !! execID = Some q' /\
      workqueue.requested q' =
        (workqueue.requested q ++ ((fun i => (SliceElem s i, 0)) <$> indices))%list /\
      calls w' = calls w /\ clockReads w' = clockReads w /\ logged w' = logged w.
Proof.
  intros Hs. induction 1 as [| i rest Hi _ IH]; intros w q Hsl Hshared Hq.
  - exists w, q. split; [reflexivity |]. split; [exact Hq |].
    simpl. rewrite app_nil_r. repeat split.
  - simpl rangeOperations. unfold bind at 1.
    assert (Hvar : exists v w0,
              (match shared with Some p => ret p | None => newRangeVar end) w
                = Return (RangeVar v) w0 /\
              (n0 <= v < length (rangeVars (memory w0)))%nat /\
              slices (memory w0) = slices (memory w) /\
              strategy w0 = strategy w /\
              calls w0 = calls w /\ clockReads w0 = clockReads w /\
              logged w0 = logged w /\
              (length (rangeVars (memory w)) <= length (rangeVars (memory w0)))%nat).
    { destruct shared as [[? ? | v] |]; simpl in Hshared.
      - contradiction.
      - exists v, w. repeat split; lia.
      - exists (length (rangeVars (memory w))), (set_memory
          {| slices := slices (memory w);
             rangeVars := rangeVars (memory w) ++ [zeroOperation] |} w).
        simpl. rewrite length_app. simpl. repeat split; lia. }
    destruct Hvar as (v & w0 & Hvar & Hv & Hsl0 & Hst0 & Hc0 & Hk0 & Hl0 & Hrv0).
    rewrite Hvar. unfold bind at 1.
    destruct (lookup_lt_is_Some_2 _ _ Hi) as [elem Helem].
    unfold rangeBody, bind at 1, deref. simpl. rewrite Hsl0, Hsl, Helem.
    unfold bind at 1, assign.
    set (w1 := set_memory _ w0).
    assert (Hload1 : load (memory w1) (RangeVar v) = Some elem).
    { subst w1. simpl. apply list_lookup_insert_eq. lia. }
    unfold bind at 1.
    rewrite (updateMaintenanceWindow_Immediate env execID _ strategySpec w1 elem
               Hload1 Hs).
    unfold dq_AddAfter.
    assert (Hq1 : dq (strategy w1) !! execID = Some q)
      by (subst w1; simpl; rewrite Hst0; exact Hq).
    rewrite Hq1.
    match goal with
    | |- context [rangeOperations _ _ _ _ _ _ ?wx] =>
        destruct (IH wx (workqueue.AddAfter q (SliceElem s i) 0))
          as (w' & q' & Hrest & Hq' & Hreq & Hc' & Hk' & Hl')
    end.
    + subst w1. simpl. rewrite Hsl0. exact Hsl.
    + subst w1. destruct shared as [[? ? | v'] |]; simpl in *;
        rewrite ?length_insert; [contradiction | lia | lia].
    + simpl. apply lookup_insert_eq.
    + exists w', q'. split; [exact Hrest |]. split; [exact Hq' |].
      rewrite Hreq, Hc', Hk', Hl'. subst w1. simpl.
      rewrite <- app_assoc. simpl. repeat split; assumption.
Qed.

(** Under [Immediate], [Execute] asks nothing of the executor and does not
    read the clock: it queues the address of every element of the caller's
    slice, in order, each with a delay of zero. *)
Theorem Execute_Immediate env operations strategySpec w :
  Schedule strategySpec = Immediate ->
  operations <> [] ->
  let execID := uuid_New env (uuidReads w) in
  let s := length (slices (memory w)) in
  exists w' q,
    Execute env operations strategySpec w = Return (execID, None) w' /\
    dq (strategy w') !! execID = Some q /\
    workqueue.requested q =
      (fun i => (SliceElem s i, 0)) <$> seq 0 (length operations) /\
    calls w' = calls w /\
    clockReads w' = clockReads w.
Proof.
  intros Hs Hne execID s.
  destruct (Execute_unfold env operations strategySpec w Hne)
    as (shared & w1 & Hrun & Hshared & Hq1 & Hwg1 & _ & Hsl1 & Hc1 & Hk1 & _).
  fold execID s in Hrun, Hq1, Hwg1.
  assert (Hidx : Forall (fun i => (i < length operations)%nat) (seq 0 (length operations))).
  { apply Forall_forall. intros i Hi. apply elem_of_seq in Hi. lia. }
  assert (Hslice : slices (memory w1) !! s = Some operations).
  { rewrite Hsl1. subst s. apply list_lookup_middle. reflexivity. }
  destruct (rangeOperations_Immediate env execID s strategySpec _ shared operations
              _ Hs Hidx w1 _ Hslice Hshared Hq1)
    as (w2 & q2 & Hloop & Hq2 & Hreq & Hc2 & Hk2 & _).
  assert (Hwg2 : is_Some (wg (strategy w2) !! execID)).
  { destruct (rangeOperations_keeps env execID s strategySpec _ shared operations
                _ Hidx w1 Hslice Hshared (ex_intro _ _ Hq1))
      as (w2' & added & Hloop' & _ & (q & q' & _ & _ & Hst) & _).
    rewrite Hloop in Hloop'. inversion Hloop'; subst w2'.
    rewrite Hst. simpl. rewrite Hwg1. eauto. }
  destruct Hwg2 as [g Hwg2].
  destruct (times_createWorker_strategy execID strategySpec
              (Z.to_nat (Workers (Parallel strategySpec))) w2 g Hwg2)
    as (w3 & Htimes & Hst3 & _ & _ & Hc3 & Hk3 & _).
  exists w3, q2. split.
  { rewrite Hrun. unfold bind at 1. rewrite Hloop.
    unfold bind at 1. rewrite Htimes. reflexivity. }
  split; [rewrite Hst3; simpl; exact Hq2 |].
  split; [rewrite Hreq; reflexivity |].
  split; [rewrite Hc3, Hc2; exact Hc1 | rewrite Hk3, Hk2; exact Hk1].
Qed.

Lemma Execute_Immediate_witness :
  exists w' q,
    Execute calmEnv [mondayOp; nextMondayOp] immediateSpec (freshWorld 0)
      = Return ("exec-1", None) w' /\
    dq (strategy w') !! "exec-1" = Some q /\
    workqueue.requested q = [(SliceElem 0 0, 0); (SliceElem 0 1, 0)] /\
    calls w' = [].
Proof.
  destruct (Execute_Immediate calmEnv [mondayOp; nextMondayOp] immediateSpec
              (freshWorld 0) eq_refl ltac:(discriminate))
    as (w' & q & Hrun & Hq & Hreq & Hcalls & _).
  exists w', q. split; [exact Hrun |]. split; [exact Hq |].
  split; [exact Hreq | exact Hcalls].
Defined.

(** *** A worker that drains its execution *)

(** The worker loop under [Immediate], with an executor that finishes every
    operation at once, given the items [&operations[i]] in order. *)
Lemma scheduleOperationLoop_drains env execID s strategySpec :
  Schedule strategySpec = Immediate ->
  (forall history id, executor_Execute env history id = Returns 0 None) ->
  forall indices ops,
    Forall2 (fun (i : nat) (o : RuntimeOperation) => True) indices ops ->
    forall w q,
      Forall2 (fun i o => load (memory w) (SliceElem s i) = Some o) indices ops ->
      dq (strategy w) !! execID = Some q ->
      workqueue.shuttingDown q = false ->
      processingNum (strategy w) !! execID = Some (Z.of_nat (length indices)) ->
      Z.of_nat (length indices) <= goint.max ->
      exists w' q',
        scheduleOperationLoop env execID strategySpec
          ((fun i => Got (SliceElem s i)) <$> indices) w = Return Exited w' /\
        processingNum (strategy w') !! execID = Some 0 /\
        dq (strategy w') !! execID = Some q' /\
        workqueue.shuttingDown q' = true /\
        workqueue.finished q' =
          (workqueue.finished q ++ (SliceElem s <$> indices))%list /\
        workqueue.requested q' = workqueue.requested q /\
        wg (strategy w') = wg (strategy w) /\
        executeCalls (calls w') = (executeCalls (calls w) ++ (ID <$> ops))%list /\
        memory w' = memory w.
Proof.
  intros Hs Hexec. induction 1 as [| i o rest ops' _ _ IH];
    intros w q Hmem Hq Hdown Hnum Hmax.
  - assert (Hc : default 0 (processingNum (strategy w) !! execID) <= 0)
      by (rewrite Hnum; simpl; lia).
    simpl fmap.
    rewrite (scheduleOperationLoop_drained_run env execID strategySpec [] w q Hc Hq).
    eexists _, _. split; [reflexivity |]. simpl.
    split; [exact Hnum |]. split; [apply lookup_insert_eq |].
    rewrite !app_nil_r. repeat split.
  - apply Forall2_cons in Hmem. destruct Hmem as [Hload Hmem].
    assert (Hc : 0 < default 0 (processingNum (strategy w) !! execID))
      by (rewrite Hnum; simpl; lia).
    rewrite fmap_cons.
    pose proof (updateMaintenanceWindow_Immediate env execID (SliceElem s i)
                  strategySpec w o Hload Hs) as Hupd.
    rewrite (scheduleOperationLoop_due_step env execID strategySpec (SliceElem s i)
               _ w q o 0 w Hc Hq Hdown Hload Hupd ltac:(lia)).
    set (wl := set_logged _ w).
    assert (Hloadl : load (memory wl) (SliceElem s i) = Some o) by exact Hload.
    assert (Hql : dq (strategy wl) !! execID = Some q) by exact Hq.
    destruct (processOperation_finished env execID (SliceElem s i) wl o q 0 None
                Hloadl Hql (Hexec _ _) (or_intror eq_refl))
      as (w2 & Hproc & Hdq2 & Hnum2 & Hcalls2).
    destruct (processOperation_effects env execID (SliceElem s i) wl o q Hloadl Hql)
      as (w2' & q2' & n2' & Hproc' & _ & Hst2 & _ & _ & _ & Hmem2 & _).
    rewrite Hproc in Hproc'. inversion Hproc'; subst w2'. clear Hproc'.
    unfold bind at 1. rewrite Hproc.
    assert (Hdec : goint.dec (Z.of_nat (length (i :: rest)))
                   = Z.of_nat (length rest)).
    { rewrite goint_dec_pred; [simpl length; lia |].
      unfold goint.min. simpl length in *. lia. }
    destruct (IH w2 (workqueue.Done q (SliceElem s i)))
      as (w' & q' & Hloop & Hnum' & Hq' & Hdown' & Hfin' & Hreq' & Hwg' & Hex' & Hmem').
    + rewrite Hmem2. exact Hmem.
    + rewrite Hdq2. apply lookup_insert_eq.
    + exact Hdown.
    + rewrite Hnum2. subst wl. cbn [strategy set_logged]. rewrite Hnum.
      rewrite lookup_insert_eq. change (default 0 (Some ?x)) with x.
      rewrite Hdec. reflexivity.
    + simpl length in Hmax. lia.
    + exists w', q'. split; [exact Hloop |]. split; [exact Hnum' |].
      split; [exact Hq' |]. split; [exact Hdown' |].
      split; [rewrite Hfin'; simpl; rewrite <- app_assoc; reflexivity |].
      split; [rewrite Hreq'; reflexivity |].
      split; [rewrite Hwg', Hst2; reflexivity |].
      split; [| rewrite Hmem', Hmem2; reflexivity].
      rewrite Hex', Hcalls2, executeCalls_app. subst wl. simpl.
      rewrite <- app_assoc. reflexivity.
Qed.

(** The whole of an execution with one worker, under [Immediate] and with an
    executor that finishes every operation at once: [Execute] queues the
    operations; the worker, handed them in the order queued, has each of
    them executed once, in that order, brings the counter to zero, shuts the
    queue down, leaves its loop and signals the wait group; after that
    [Wait] returns. *)
Theorem Execute_worker_Wait_Immediate env operations strategySpec w :
  Schedule strategySpec = Immediate ->
  Workers (Parallel strategySpec) = 1 ->
  (forall history id, executor_Execute env history id = Returns 0 None) ->
  operations <> [] ->
  Z.of_nat (length operations) <= goint.max ->
  let execID := uuid_New env (uuidReads w) in
  let s := length (slices (memory w)) in
  exists w1 w2 q,
    Execute env operations strategySpec w = Return (execID, None) w1 /\
    workerBody env execID strategySpec
      ((fun i => Got (SliceElem s i)) <$> seq 0 (length operations)) w1
      = Return Exited w2 /\
    executeCalls (calls w2) = (executeCalls (calls w) ++ (ID <$> operations))%list /\
    processingNum (strategy w2) !! execID = Some 0 /\
    dq (strategy w2) !! execID = Some q /\
    workqueue.shuttingDown q = true /\
    workqueue.finished q = SliceElem s <$> seq 0 (length operations) /\
    Wait execID w2 = Return WaitReturns w2.
Proof.
  intros Hs Hworkers Hexec Hne Hmax execID s.
  destruct (Execute_effects env operations strategySpec w Hne)
    as (w1 & q1 & Hrun & Hst1 & _ & Hfin1 & Hdown1 & Hsl1 & _ & _ & _ & Hex1).
  fold execID s in Hrun, Hst1.
  assert (Hloads : Forall2 (fun i o => load (memory w1) (SliceElem s i) = Some o)
                     (seq 0 (length operations)) operations).
  { apply Forall2_same_length_lookup_2; [apply length_seq |].
    intros i x o Hx Ho. apply lookup_seq in Hx. destruct Hx as [-> _].
    simpl. rewrite Hsl1. subst s. rewrite list_lookup_middle by reflexivity.
    exact Ho. }
  assert (Hshape : Forall2 (fun (i : nat) (o : RuntimeOperation) => True)
                     (seq 0 (length operations)) operations)
    by (eapply Forall2_impl; [exact Hloads | auto]).
  destruct (scheduleOperationLoop_drains env execID s strategySpec Hs Hexec
              _ _ Hshape w1 q1 Hloads)
    as (w2 & q2 & Hloop & Hnum2 & Hq2 & Hdown2 & Hfin2 & _ & Hwg2 & Hex2 & _).
  { rewrite Hst1. simpl. apply lookup_insert_eq. }
  { exact Hdown1. }
  { rewrite Hst1. simpl. rewrite lookup_insert_eq, length_seq. reflexivity. }
  { rewrite length_seq. exact Hmax. }
  assert (Hg2 : wg (strategy w2) !! execID = Some {| sync.counter := 1 |}).
  { rewrite Hwg2, Hst1. simpl. rewrite lookup_insert_eq, Hworkers. reflexivity. }
  eexists w1, _, q2. split; [exact Hrun |]. split.
  { unfold workerBody, bind at 1. rewrite Hloop.
    unfold bind at 1, wg_Done. rewrite Hg2. simpl. reflexivity. }
  simpl. split; [rewrite Hex2, Hex1; reflexivity |].
  split; [exact Hnum2 |]. split; [exact Hq2 |]. split; [exact Hdown2 |].
  split; [rewrite Hfin2, Hfin1; reflexivity |].
  unfold Wait, bind, getStrategy. simpl. rewrite lookup_insert_eq. reflexivity.
Qed.

Lemma Execute_worker_Wait_Immediate_witness :
  exists w1 w2,
    Execute calmEnv [mondayOp; nextMondayOp]
      {| Schedule := Immediate; Parallel := {| Workers := 1 |} |} (freshWorld 0)
      = Return ("exec-1", None) w1 /\
    workerBody calmEnv "exec-1"
      {| Schedule := Immediate; Parallel := {| Workers := 1 |} |}
      [Got (SliceElem 0 0); Got (SliceElem 0 1)] w1 = Return Exited w2 /\
    executeCalls (calls w2) = ["rt-a"; "rt-b"] /\
    Wait "exec-1" w2 = Return WaitReturns w2.
Proof.
  destruct (Execute_worker_Wait_Immediate calmEnv [mondayOp; nextMondayOp]
              {| Schedule := Immediate; Parallel := {| Workers := 1 |} |}
              (freshWorld 0) eq_refl eq_refl (fun _ _ => eq_refl)
              ltac:(discriminate) ltac:(vm_compute; discriminate))
    as (w1 & w2 & q & Hrun & Hbody & Hex & _ & _ & _ & _ & Hwait).
  exists w1, w2. split; [exact Hrun |]. split; [exact Hbody |].
  split; [exact Hex | exact Hwait].
Defined.

(** A worker that finds no work outstanding, whatever its queue would hand
    it: it shuts the queue down, leaves its loop and lowers the wait group
    by one; the executor is not called.  A missing counter counts as no
    work. *)
Theorem workerBody_drained env execID strategySpec gets w q g :
  default 0 (processingNum (strategy w) !! execID) <= 0 ->
  dq (strategy w) !! execID = Some q ->
  wg (strategy w) !! execID = Some g ->
  0 < sync.counter g ->
  exists w',
    workerBody env execID strategySpec gets w = Return Exited w' /\
    dq (strategy w') = <[execID := workqueue.ShutDown q]> (dq (strategy w)) /\
    wg (strategy w') =
      <[execID := {| sync.counter := sync.counter g - 1 |}]> (wg (strategy w)) /\
    processingNum (strategy w') = processingNum (strategy w) /\
    calls w' = calls w /\ memory w' = memory w.
Proof.
  intros Hc Hq Hg Hpos. unfold workerBody, bind at 1.
  rewrite (scheduleOperationLoop_drained_run env execID strategySpec gets w q Hc Hq).
  unfold bind at 1, wg_Done. simpl. rewrite Hg.
  destruct (Z.ltb_spec (sync.counter g - 1) 0); [lia |].
  eexists. split; [reflexivity |]. simpl. repeat split.
Qed.

Lemma workerBody_drained_witness :
  exists w',
    workerBody calmEnv "exec-1" immediateSpec [Got (SliceElem 0 0)]
      (runningWorld 0 [anytimeOp] 0) = Return Exited w' /\
    wg (strategy w') !! "exec-1" = Some {| sync.counter := 1 |} /\
    calls w' = [].
Proof.
  destruct (workerBody_drained calmEnv "exec-1" immediateSpec
              [Got (SliceElem 0 0)] (runningWorld 0 [anytimeOp] 0)
              workqueue.NewDelayingQueue {| sync.counter := 2 |})
    as (w' & Hrun & _ & Hwg & _ & Hcalls & _).
  - vm_compute. discriminate.
  - reflexivity.
  - reflexivity.
  - simpl. lia.
  - exists w'. split; [exact Hrun |]. split; [| exact Hcalls].
    rewrite Hwg. apply lookup_insert_eq.
Defined.

(** [Cancel] before the workers get to run: however many operations
    [Execute] has queued, once the returned ID is cancelled every worker
    leaves its loop at the first check, whatever its queue would hand it.
    No operation is executed, and the counter stays at the number of
    operations. *)
Theorem Execute_Cancel_worker env operations strategySpec w :
  operations <> [] ->
  uuid_New env (uuidReads w) <> "" ->
  let execID := uuid_New env (uuidReads w) in
  exists w1 w2,
    Execute env operations strategySpec w = Return (execID, None) w1 /\
    Cancel execID w1 = Return tt w2 /\
    (forall gets,
       scheduleOperationLoop env execID strategySpec gets w2 = Return Exited w2) /\
    executeCalls (calls w2) = executeCalls (calls w) /\
    processingNum (strategy w2) !! execID = Some (Z.of_nat (length operations)).
Proof.
  intros Hne Hid execID.
  destruct (Execute_effects env operations strategySpec w Hne)
    as (w1 & q1 & Hrun & Hst1 & _ & _ & _ & _ & _ & _ & _ & Hex1).
  fold execID in Hrun, Hst1.
  destruct (Cancel_run execID w1)
    as (w2 & Hcancel & Hst2 & _ & Hc2 & _).
  assert (Hq1 : dq (strategy w1) !! execID = Some q1)
    by (rewrite Hst1; simpl; apply lookup_insert_eq).
  destruct (String.eqb_spec execID ""); [contradiction |].
  rewrite Hq1 in Hst2.
  exists w1, w2. split; [exact Hrun |]. split; [exact Hcancel |].
  assert (Hnum2 : processingNum (strategy w2) !! execID
                  = Some (Z.of_nat (length operations))).
  { rewrite Hst2, Hst1. simpl. apply lookup_insert_eq. }
  split; [| split; [rewrite Hc2; exact Hex1 | exact Hnum2]].
  intros gets.
  apply (scheduleOperationLoop_cancelled_run env execID strategySpec gets w2
           (workqueue.ShutDown q1)).
  - rewrite Hnum2. simpl. destruct operations; [contradiction | simpl; lia].
  - rewrite Hst2. simpl. apply lookup_insert_eq.
  - reflexivity.
Qed.

Lemma Execute_Cancel_worker_witness :
  exists w1 w2,
    Execute calmEnv [mondayOp; nextMondayOp] immediateSpec (freshWorld 0)
      = Return ("exec-1", None) w1 /\
    Cancel "exec-1" w1 = Return tt w2 /\
    scheduleOperationLoop calmEnv "exec-1" immediateSpec
      [Got (SliceElem 0 0); Got (SliceElem 0 1)] w2 = Return Exited w2 /\
    executeCalls (calls w2) = [].
Proof.
  destruct (Execute_Cancel_worker calmEnv [mondayOp; nextMondayOp] immediateSpec
              (freshWorld 0) ltac:(discriminate) ltac:(discriminate))
    as (w1 & w2 & Hrun & Hcancel & Hloop & Hex & _).
  exists w1, w2. split; [exact Hrun |]. split; [exact Hcancel |].
  split; [apply Hloop | exact Hex].
Defined.

Lemma Execute_nonempty_witness :
  exists w' q g,
    Execute calmEnv [mondayOp; nextMondayOp] windowSpec (freshWorld 0)
      = Return ("exec-1", None) w' /\
    processingNum (strategy w') !! "exec-1" = Some 2 /\
    dq (strategy w') !! "exec-1" = Some q /\
    length (workqueue.requested q) = 2%nat /\
    wg (strategy w') !! "exec-1" = Some g /\
    sync.counter g = 2 /\
    length (goroutines w') = 2%nat.
Proof.
  destruct (Execute_nonempty calmEnv [mondayOp; nextMondayOp] windowSpec
              (freshWorld 0) ltac:(discriminate))
    as (w' & q & g & Hrun & Hnum & Hq & Hlen & _ & Hg & Hcount & Hgo).
  exists w', q, g. split; [exact Hrun |]. split; [exact Hnum |].
  split; [exact Hq |]. split; [exact Hlen |]. split; [exact Hg |].
  split; [exact Hcount |]. rewrite Hgo. reflexivity.
Defined.

(** ** The HTTP endpoints *)

Section Endpoints.

Import handlers.

Variables UpgradeKymaOperation UpgradeClusterOperation : Type.
Variable IsNotFound : error -> bool.
Variable IsBadRequest : error -> bool.
Variable GetByID : string -> error + Orchestration.
Variable ListKyma : string -> OperationFilter -> error + list UpgradeKymaOperation.
Variable ListCluster : string -> OperationFilter -> error + list UpgradeClusterOperation.
Variable kymaUpgradeRetry :
  Retryer -> Orchestration -> list UpgradeKymaOperation -> list string ->
  Retryer * option error.
Variable clusterUpgradeRetry :
  Retryer -> Orchestration -> list UpgradeClusterOperation -> list string ->
  Retryer * option error.
Variables OperationStats StatusResponse : Type.
Variable GetStats : string -> error + OperationStats.
Variable OrchestrationToDTO :
  Orchestration -> OperationStats -> error + StatusResponse.
Variable CancelForID : string -> option error.
Variables RuntimeState KymaConfig ClusterConfig OperationDetailResponse : Type.
Variable GetKymaConfig : RuntimeState -> KymaConfig.
Variable ClusterConfigOf : RuntimeState -> ClusterConfig.
Variable GetKymaOperation : string -> error + UpgradeKymaOperation.
Variable GetClusterOperation : string -> error + UpgradeClusterOperation.
Variable KymaToDetailDTO :
  UpgradeKymaOperation -> KymaConfig -> error + OperationDetailResponse.
Variable ClusterToDetailDTO :
  UpgradeClusterOperation -> ClusterConfig -> error + OperationDetailResponse.

Local Abbreviation resolve := (resolveErrorStatus IsNotFound IsBadRequest).

Local Abbreviation retry :=
  (retryOrchestrationByID UpgradeKymaOperation UpgradeClusterOperation
     IsNotFound IsBadRequest GetByID ListKyma ListCluster
     kymaUpgradeRetry clusterUpgradeRetry).

Local Abbreviation ran :=
  (retried UpgradeKymaOperation UpgradeClusterOperation
     GetByID ListKyma ListCluster kymaUpgradeRetry clusterUpgradeRetry).

Local Abbreviation get :=
  (getOrchestration IsNotFound IsBadRequest GetByID
     OperationStats StatusResponse GetStats OrchestrationToDTO).

Local Abbreviation cancel :=
  (cancelOrchestrationByID IsNotFound IsBadRequest CancelForID).

Local Abbreviation getOp getState :=
  (getOperation UpgradeKymaOperation UpgradeClusterOperation
     IsNotFound IsBadRequest GetByID
     RuntimeState KymaConfig ClusterConfig OperationDetailResponse
     getState GetKymaConfig ClusterConfigOf
     GetKymaOperation GetClusterOperation KymaToDetailDTO ClusterToDetailDTO).

(** The status resolved from an error is one of three. *)
Lemma resolveErrorStatus_cases err :
  resolve err = 404 \/ resolve err = 400 \/ resolve err = 500.
Proof.
  unfold resolveErrorStatus.
  destruct (IsNotFound (Cause err)); [left; reflexivity |].
  destruct (IsBadRequest (Cause err)); [right; left | right; right]; reflexivity.
Qed.

(** What the request hands on once its form is read. *)
Lemma parsed_form r :
  (hasBody r = true -> parseForm r = None) ->
  (if hasBody r
   then match parseForm r with
        | Some err => inl err
        | None => inr (form_operation_id r)
        end
   else inr []) =
  (inr (if hasBody r then form_operation_id r else []) : error + list string).
Proof.
  intros Hparse.
  destruct (hasBody r); [rewrite Hparse by reflexivity |]; reflexivity.
Qed.

(** Once the retryer has run without an error the answer is 202. *)
Lemma retryOrchestrationByID_ran h r o h2 :
  ran h r o h2 -> status (written (retry h r)) = 202.
Proof.
  intros (Hct & Hparse & Hget & Hkind).
  unfold retryOrchestrationByID. rewrite Hct. simpl.
  rewrite (parsed_form r Hparse), Hget.
  destruct (Type_ o); cbv zeta in Hkind.
  - destruct Hkind as (allOps & Hlist & Hretry). rewrite Hlist, Hretry.
    destruct (length (RetryOperations (resp h2)) =? 0)%nat; reflexivity.
  - destruct Hkind as (allOps & Hlist & Hretry). rewrite Hlist, Hretry.
    destruct (length (RetryOperations (resp h2)) =? 0)%nat; reflexivity.
  - contradiction.
Qed.

(** The retry endpoint, case by case: a wrong content type; a form that
    cannot be read; an orchestration that cannot be read; or the steps after
    that, which answer 500 and leave the retryer as it was, or answer 500
    from the retryer's error, or answer 202 after the retryer. *)
Lemma retryOrchestrationByID_cases h r :
  (header_ContentType r <> "application/x-www-form-urlencoded" /\
   status (written (retry h r)) = 415 /\ retryer (retry h r) = h) \/
  (header_ContentType r = "application/x-www-form-urlencoded" /\
   ((exists err, status (written (retry h r)) = resolve err /\
                 retryer (retry h r) = h) \/
    (status (written (retry h r)) = 500) \/
    (exists o h2, ran h r o h2))).
Proof.
  unfold retryOrchestrationByID.
  destruct (String.eqb_spec (header_ContentType r)
              "application/x-www-form-urlencoded") as [Hct | Hct];
    [right; split; [exact Hct |] | left; split; [exact Hct |]; split; reflexivity].
  simpl negb. cbv iota.
  assert (Hran : forall o h2,
            (hasBody r = true -> parseForm r = None) ->
            GetByID (vars_orchestration_id r) = inr o ->
            match Type_ o with
            | UpgradeKymaOrchestration =>
                exists allOps,
                  ListKyma (OrchestrationID o) {| States := [Failed; InProgress] |}
                    = inr allOps /\
                  kymaUpgradeRetry {| queue := Some kymaQueue; resp := resp h |}
                    o allOps (if hasBody r then form_operation_id r else [])
                    = (h2, None)
            | UpgradeClusterOrchestration =>
                exists allOps,
                  ListCluster (OrchestrationID o) {| States := [Failed; InProgress] |}
                    = inr allOps /\
                  clusterUpgradeRetry {| queue := Some clusterQueue; resp := resp h |}
                    o allOps (if hasBody r then form_operation_id r else [])
                    = (h2, None)
            | OtherType _ => False
            end -> ran h r o h2).
  { intros o h2 Hp Hg Hk. split; [exact Hct |]. split; [exact Hp |].
    split; [exact Hg |]. exact Hk. }
  assert (Hform : (hasBody r = true /\ exists err, parseForm r = Some err) \/
                  (hasBody r = true -> parseForm r = None)).
  { destruct (hasBody r); [| right; discriminate].
    destruct (parseForm r) as [err |]; [left; eauto | right; reflexivity]. }
  destruct Hform as [(Hb & err & Herr) | Hparse].
  { rewrite Hb, Herr. left. exists err. split; reflexivity. }
  rewrite (parsed_form r Hparse).
  destruct (GetByID (vars_orchestration_id r)) as [err | o] eqn:Hget.
  { left. exists err. split; reflexivity. }
  specialize (Hran o).
  destruct (Type_ o) eqn:Hty.
  - destruct (ListKyma (OrchestrationID o) _) as [err | allOps] eqn:Hlist;
      [right; left; reflexivity |].
    destruct (kymaUpgradeRetry _ o allOps _) as [h2 [e |]] eqn:Hretry;
      [right; left; reflexivity |].
    right; right. exists o, h2. apply Hran; [exact Hparse | reflexivity |].
    exists allOps. split; [reflexivity | exact Hretry].
  - destruct (ListCluster (OrchestrationID o) _) as [err | allOps] eqn:Hlist;
      [right; left; reflexivity |].
    destruct (clusterUpgradeRetry _ o allOps _) as [h2 [e |]] eqn:Hretry;
      [right; left; reflexivity |].
    right; right. exists o, h2. apply Hran; [exact Hparse | reflexivity |].
    exists allOps. split; [reflexivity | exact Hretry].
  - right; left; reflexivity.
Qed.

(** The retry endpoint answers 202 exactly when the retryer has run for the
    request and returned no error: every failure on the way, of the content
    type, the form, the storage or the retryer, is answered with another
    status. *)
Theorem retryOrchestrationByID_accepted_iff h r :
  status (written (retry h r)) = StatusAccepted <-> exists o h2, ran h r o h2.
Proof.
  unfold StatusAccepted. split.
  - intros H202.
    destruct (retryOrchestrationByID_cases h r)
      as [(_ & H415 & _) | (_ & [(err & Hres & _) | [H500 | Hran]])].
    + rewrite H415 in H202. discriminate.
    + rewrite Hres in H202.
      destruct (resolveErrorStatus_cases err) as [E | [E | E]];
        rewrite E in H202; discriminate.
    + rewrite H500 in H202. discriminate.
    + exact Hran.
  - intros (o & h2 & Hran). exact (retryOrchestrationByID_ran h r o h2 Hran).
Qed.

(** The retry endpoint answers 415 exactly when the content type is not
    "application/x-www-form-urlencoded", and has five statuses in all. *)
Theorem retryOrchestrationByID_statuses h r :
  (status (written (retry h r)) = StatusUnsupportedMediaType <->
   header_ContentType r <> "application/x-www-form-urlencoded") /\
  In (status (written (retry h r)))
     [StatusAccepted; StatusBadRequest; StatusNotFound;
      StatusUnsupportedMediaType; StatusInternalServerError].
Proof.
  unfold StatusAccepted, StatusBadRequest, StatusNotFound,
    StatusUnsupportedMediaType, StatusInternalServerError.
  destruct (retryOrchestrationByID_cases h r)
    as [(Hct & H415 & _) | (Hct & [(err & Hres & _) | [H500 | (o & h2 & Hran)]])].
  - rewrite H415. split; [split; [intros _; exact Hct | reflexivity] |].
    simpl. tauto.
  - rewrite Hres.
    destruct (resolveErrorStatus_cases err) as [E | [E | E]]; rewrite E;
      (split; [split; [discriminate | intros Hne; contradiction] | simpl; tauto]).
  - rewrite H500.
    split; [split; [discriminate | intros Hne; contradiction] | simpl; tauto].
  - rewrite (retryOrchestrationByID_ran h r o h2 Hran).
    split; [split; [discriminate | intros Hne; contradiction] | simpl; tauto].
Qed.

(** A client error (4xx) from the retry endpoint means the retryer was not
    touched: neither its queue nor its response has changed. *)
Theorem retryOrchestrationByID_client_error h r :
  StatusBadRequest <= status (written (retry h r)) < StatusInternalServerError ->
  retryer (retry h r) = h.
Proof.
  unfold StatusBadRequest, StatusInternalServerError. intros Hrange.
  destruct (retryOrchestrationByID_cases h r)
    as [(_ & _ & Hsame) | (_ & [(err & _ & Hsame) | [H500 | (o & h2 & Hran)]])].
  - exact Hsame.
  - exact Hsame.
  - rewrite H500 in Hrange. lia.
  - rewrite (retryOrchestrationByID_ran h r o h2 Hran) in Hrange. lia.
Qed.

(** When the retryer has accepted something, the handler puts its own
    message into the retryer's response, whatever message the retryer had
    set, and answers 202 with that response: the accepted operations under
    the handler's message.  Nothing is logged. *)
Theorem retryOrchestrationByID_queued h r o h2 :
  ran h r o h2 ->
  RetryOperations (resp h2) <> [] ->
  let answer :=
    {| RetryOperations := RetryOperations (resp h2);
       Msg := "retry operations are queued for processing" |} in
  retry h r =
    WriteResponse {| queue := queue h2; resp := answer |} [] StatusAccepted answer.
Proof.
  intros (Hct & Hparse & Hget & Hkind) Hsome answer. subst answer.
  unfold retryOrchestrationByID. rewrite Hct. simpl negb. cbv iota.
  rewrite (parsed_form r Hparse), Hget.
  assert (Hlen : (length (RetryOperations (resp h2)) =? 0)%nat = false).
  { destruct (RetryOperations (resp h2)); [contradiction | reflexivity]. }
  destruct (Type_ o); cbv zeta in Hkind.
  - destruct Hkind as (allOps & Hlist & Hretry).
    rewrite Hlist, Hretry, Hlen. reflexivity.
  - destruct Hkind as (allOps & Hlist & Hretry).
    rewrite Hlist, Hretry, Hlen. reflexivity.
  - contradiction.
Qed.

(** Every endpoint that looks the orchestration up answers a failed lookup
    with the status resolved from the error, 404 when its cause is "not
    found"; the retry endpoint, when content type and form are in order,
    and then its retryer is left as it was. *)
Theorem endpoints_lookup_failure getState h r operationID err :
  GetByID (vars_orchestration_id r) = inl err ->
  let id := vars_orchestration_id r in
  code (reply (get id)) = resolve err /\
  code (reply (getOp getState id operationID)) = resolve err /\
  (header_ContentType r = "application/x-www-form-urlencoded" ->
   (hasBody r = true -> parseForm r = None) ->
   status (written (retry h r)) = resolve err /\ retryer (retry h r) = h) /\
  (IsNotFound (Cause err) = true -> resolve err = 404).
Proof.
  intros Hget id. subst id.
  split; [unfold getOrchestration; rewrite Hget; reflexivity |].
  split; [unfold getOperation; rewrite Hget; reflexivity |].
  split.
  - intros Hct Hparse. unfold retryOrchestrationByID. rewrite Hct. simpl.
    rewrite (parsed_form r Hparse), Hget. split; reflexivity.
  - intros Hnf. unfold resolveErrorStatus. rewrite Hnf. reflexivity.
Qed.

(** [getOrchestration] answers 200 exactly when the orchestration, its
    statistics and the conversion all succeed, and the body is then the
    converted orchestration. *)
Theorem getOrchestration_OK_iff id :
  code (reply (get id)) = 200 <->
  exists o stats response,
    GetByID id = inr o /\ GetStats id = inr stats /\
    OrchestrationToDTO o stats = inr response /\
    get id = replyWith [] 200 response.
Proof.
  unfold getOrchestration. split.
  - intros H200.
    destruct (GetByID id) as [err | o].
    { simpl in H200. destruct (resolveErrorStatus_cases err) as [E | [E | E]];
        rewrite E in H200; discriminate. }
    destruct (GetStats id) as [err | stats].
    { simpl in H200. destruct (resolveErrorStatus_cases err) as [E | [E | E]];
        rewrite E in H200; discriminate. }
    destruct (OrchestrationToDTO o stats) as [err | response] eqn:Hconv;
      [discriminate |].
    exists o, stats, response.
    split; [reflexivity |]. split; [reflexivity |]. split; [exact Hconv |].
    reflexivity.
  - intros (o & stats & response & Ho & Hs & Hr & _).
    rewrite Ho, Hs, Hr. reflexivity.
Qed.

(** [cancelOrchestrationByID] answers 200 exactly when the canceler returns
    no error; the body then carries the ID of the route, and nothing is
    logged. *)
Theorem cancelOrchestrationByID_OK_iff id :
  (code (reply (cancel id)) = 200 <-> CancelForID id = None) /\
  (CancelForID id = None ->
   cancel id = replyWith [] 200 {| UpgradeResponse_OrchestrationID := id |}).
Proof.
  unfold cancelOrchestrationByID.
  destruct (CancelForID id) as [err |].
  - split; [| discriminate]. split; [| discriminate].
    simpl. intros H200.
    destruct (resolveErrorStatus_cases err) as [E | [E | E]];
      rewrite E in H200; discriminate.
  - split; [split |]; reflexivity.
Qed.

(** [getOperation] never reports a failure to read the runtime state: the
    status and the body are those of a run where the same state came with
    no error, and the log differs by the one line written for an error
    that is not "not found". *)
Theorem getOperation_runtime_state_error (states : string -> RuntimeState)
    (failure : string -> option error) id operationID :
  let failing := getOp (fun op => (states op, failure op)) id operationID in
  let clean := getOp (fun op => (states op, None)) id operationID in
  reply failing = reply clean /\
  exists line,
    lines failing = (line ++ lines clean)%list /\
    (line = [] \/
     line = [errorf "while getting runtime state for upgrade operation %s: %v"] /\
     exists e, failure operationID = Some e /\ IsNotFound e = false).
Proof.
  intros failing clean. subst failing clean. unfold getOperation.
  destruct (GetByID id) as [err | o];
    [split; [reflexivity | exists []; split; [reflexivity | left; reflexivity]] |].
  assert (Hline :
    runtimeStateLine IsNotFound (failure operationID) = [] \/
    runtimeStateLine IsNotFound (failure operationID) =
      [errorf "while getting runtime state for upgrade operation %s: %v"] /\
    exists e, failure operationID = Some e /\ IsNotFound e = false).
  { unfold runtimeStateLine. destruct (failure operationID) as [e |];
      [| left; reflexivity].
    destruct (IsNotFound e) eqn:Hnf; [left; reflexivity |].
    right. split; [reflexivity |]. exists e. split; [reflexivity | exact Hnf]. }
  set (l := runtimeStateLine IsNotFound (failure operationID)) in *.
  change (runtimeStateLine IsNotFound None) with (@nil Entry).
  destruct (Type_ o).
  - destruct (GetKymaOperation operationID) as [err | operation];
      [split; [reflexivity | exists l; split; [reflexivity | exact Hline]] |].
    destruct (KymaToDetailDTO operation _) as [err | response];
      (split; [reflexivity | exists l; split;
         [simpl; rewrite ?app_nil_r; reflexivity | exact Hline]]).
  - destruct (GetClusterOperation operationID) as [err | operation];
      [split; [reflexivity | exists l; split; [reflexivity | exact Hline]] |].
    destruct (ClusterToDetailDTO operation _) as [err | response];
      (split; [reflexivity | exists l; split;
         [simpl; rewrite ?app_nil_r; reflexivity | exact Hline]]).
  - split; [reflexivity |]. exists l. split; [| exact Hline].
    simpl. rewrite app_nil_r. reflexivity.
Qed.

(** A Kyma orchestration is answered from the Kyma operation alone: the
    answer of [getOperation] is the same whatever the storage holds of
    cluster operations, and whatever the cluster converter would do. *)
Theorem getOperation_by_type getState id operationID o
    (GetClusterOperation' : string -> error + UpgradeClusterOperation)
    (ClusterToDetailDTO' :
       UpgradeClusterOperation -> ClusterConfig -> error + OperationDetailResponse) :
  GetByID id = inr o ->
  Type_ o = UpgradeKymaOrchestration ->
  getOp getState id operationID =
  getOperation UpgradeKymaOperation UpgradeClusterOperation
    IsNotFound IsBadRequest GetByID
    RuntimeState KymaConfig ClusterConfig OperationDetailResponse
    getState GetKymaConfig ClusterConfigOf
    GetKymaOperation GetClusterOperation' KymaToDetailDTO ClusterToDetailDTO'
    id operationID /\
  (code (reply (getOp getState id operationID)) = 200 <->
   exists operation response,
     GetKymaOperation operationID = inr operation /\
     KymaToDetailDTO operation (GetKymaConfig (fst (getState operationID)))
       = inr response /\
     body (reply (getOp getState id operationID)) = inr response).
Proof.
  intros Hget Hty. unfold getOperation. rewrite Hget.
  destruct (getState operationID) as [upgradeState e]. rewrite Hty.
  split; [reflexivity |]. simpl fst.
  destruct (GetKymaOperation operationID) as [err | operation].
  { simpl. split.
    - intros H200. destruct (resolveErrorStatus_cases err) as [E | [E | E]];
        rewrite E in H200; discriminate.
    - intros (operation & response & Hop & _). discriminate. }
  destruct (KymaToDetailDTO operation _) as [err | response] eqn:Hconv.
  { simpl. split; [discriminate |].
    intros (operation' & response & Hop & Hc & _).
    inversion Hop; subst operation'. rewrite Hconv in Hc. discriminate. }
  split; [intros _ | reflexivity].
  exists operation, response. split; [reflexivity |].
  split; [exact Hconv | reflexivity].
Qed.

End Endpoints.

Lemma retryOrchestrationByID_queued_witness :
  handlers.written
    (handlers.retryOrchestrationByID unit unit
       (fun _ => false) (fun _ => false)
       sampleGetByID (fun _ _ => inr []) (fun _ _ => inr [])
       acceptingRetry acceptingRetry sampleRetryer sampleRequest) =
  {| handlers.status := 202;
     handlers.payload := handlers.RetryPayload
       {| handlers.RetryOperations := ["op-1"];
          handlers.Msg := "retry operations are queued for processing" |} |}.
Proof.
  rewrite (retryOrchestrationByID_queued unit unit
             (fun _ => false) (fun _ => false)
             sampleGetByID (fun _ _ => inr []) (fun _ _ => inr [])
             acceptingRetry acceptingRetry sampleRetryer sampleRequest
             (sampleGetByID_orchestration "orch-1")
             {| handlers.queue := Some handlers.kymaQueue;
                handlers.resp := {| handlers.RetryOperations := ["op-1"];
                                    handlers.Msg := "" |} |}).
  - reflexivity.
  - split; [reflexivity |]. split; [reflexivity |]. split; [reflexivity |].
    exists []. split; reflexivity.
  - discriminate.
Defined.

Lemma retryOrchestrationByID_client_error_witness :
  handlers.retryer
    (handlers.retryOrchestrationByID unit unit
       (fun _ => false) (fun _ => false)
       sampleGetByID (fun _ _ => inr []) (fun _ _ => inr [])
       acceptingRetry acceptingRetry sampleRetryer jsonRequest) = sampleRetryer.
Proof.
  apply (retryOrchestrationByID_client_error unit unit
           (fun _ => false) (fun _ => false)
           sampleGetByID (fun _ _ => inr []) (fun _ _ => inr [])
           acceptingRetry acceptingRetry sampleRetryer jsonRequest).
  vm_compute. split; [discriminate | reflexivity].
Defined.

Lemma endpoints_lookup_failure_witness :
  handlers.code (handlers.reply
    (handlers.getOrchestration (fun _ => true) (fun _ => false)
       (fun _ => inl (New "not found")) unit unit
       (fun _ => inr tt) (fun _ _ => inr tt) "orch-1")) = 404.
Proof.
  destruct (endpoints_lookup_failure unit unit (fun _ => true) (fun _ => false)
              (fun _ => inl (New "not found"))
              (fun _ _ => inr []) (fun _ _ => inr [])
              sampleRetry sampleRetry unit unit
              (fun _ => inr tt) (fun _ _ => inr tt)
              unit unit unit unit (fun _ => tt) (fun _ => tt)
              (fun _ => inr tt) (fun _ => inr tt)
              (fun _ _ => inr tt) (fun _ _ => inr tt)
              (fun _ => (tt, None)) sampleRetryer sampleRequest "op-1"
              (New "not found") eq_refl)
    as (Hget & _ & _ & Hnf).
  exact (eq_trans Hget (Hnf eq_refl)).
Defined.

Lemma getOperation_by_type_witness :
  handlers.code (handlers.reply
    (handlers.getOperation unit unit (fun _ => false) (fun _ => false)
       sampleGetByID unit unit unit unit
       (fun _ => (tt, Some (New "storage is down")))
       (fun _ => tt) (fun _ => tt)
       (fun _ => inr tt) (fun _ => inl (New "no such operation"))
       (fun _ _ => inr tt) (fun _ _ => inr tt) "orch-1" "op-1")) = 200.
Proof.
  destruct (getOperation_by_type unit unit (fun _ => false) (fun _ => false)
              sampleGetByID unit unit unit unit (fun _ => tt) (fun _ => tt)
              (fun _ => inr tt) (fun _ => inl (New "no such operation"))
              (fun _ _ => inr tt) (fun _ _ => inr tt)
              (fun _ => (tt, Some (New "storage is down"))) "orch-1" "op-1"
              (sampleGetByID_orchestration "orch-1")
              (fun _ => inl (New "no such operation")) (fun _ _ => inr tt)
              eq_refl eq_refl)
    as (_ & H200).
  apply H200. exists tt, tt. repeat split.
Defined.
